(** * Smart Waste Management System: the two AI helpers

    A shallow embedding of [backend/ai/predictor.py] (class
    [WasteLevelPredictor]) and [backend/ai/route_optimizer.py] (class
    [RouteOptimizer]), with the properties their specification states.

    Conventions of the embedding.
    - Numbers come in two embeddings.  Where a property is about order,
      selection, bounds or the shape of a result, Python floats are
      idealised as exact rationals in canonical form ([Qc]): two numbers
      are equal for Python's [==] exactly when they are equal terms, and
      no rounding error, infinity or NaN exists.  Where a property is
      about the value that a float computation returns (the totals and
      the average of a route), floats are what they are in CPython, the
      binary64 numbers of the kernel ([Binary64], [RouteOptimizer64]),
      with their rounding, their infinities and NaN.
    - A SQL [NULL] (Python [None]) is [None]; a raised exception inside a
      [try] block is [None] of the block's result.
    - The rows a query returns are part of the [Database] value that the
      functions receive; nothing is written back.
    - The sensor simulator ([backend/iot_simulator/bin_simulator.py]) does
      write: its functions take the tables ([Simulator.Store]) and the
      state of the random generator ([Simulator.Rng]) and return them.
    - A view of [backend/app.py] is a function from the session to the
      response; only the guards and the two AI endpoints are embedded.
    - [RouteOptimizer.calculate_distance] (the haversine formula, made of
      [sin], [cos], [atan2] and [sqrt]) is a parameter of the route
      functions: every theorem about routes holds for any distance
      function, under the two facts about it that the theorem names. *)

From Stdlib Require Import String.
From Stdlib Require Import ZArith QArith Qcanon Qround Qabs.
From Stdlib Require Import List Bool Arith Lia Lqa Permutation.
From Stdlib Require Import Sorting.Sorted.
From Stdlib Require PrimFloat SpecFloat FloatOps.
Import ListNotations.

Open Scope Qc_scope.

(** ** Numbers *)

Definition Qc_of_Z (z : Z) : Qc := Q2Qc (inject_Z z).
Definition Qc_of_nat (n : nat) : Qc := Qc_of_Z (Z.of_nat n).

(** Python's [x <= y], [x < y] and [x == y] on numbers. *)
Definition Qcleb (x y : Qc) : bool := Qle_bool x y.
Definition Qcltb (x y : Qc) : bool := negb (Qle_bool y x).
Definition Qceqb (x y : Qc) : bool := Qeq_bool x y.

(** The builtin [sum]: a left-to-right accumulation from 0. *)
Definition Qcsum (l : list Qc) : Qc := fold_left Qcplus l 0.

(** The integer nearest to [q], a tie going to the even neighbour. *)
Definition round_half_even (q : Q) : Z :=
  let n := Qfloor q in
  match Qcompare (q - inject_Z n) (1 # 2) with
  | Lt => n
  | Gt => (n + 1)%Z
  | Eq => if Z.even n then n else (n + 1)%Z
  end.

(** The builtin [round(x, ndigits)] on an exact number; on a float it is
    [Binary64.py_round], which rounds the binary value that the float
    has. *)
Definition py_round (x : Qc) (ndigits : nat) : Qc :=
  let s := inject_Z (10 ^ Z.of_nat ndigits) in
  Q2Qc (inject_Z (round_half_even (x * s)) / s).

(** ** Rows of the database *)

(** A row of [sensor_logs] as [get_fill_rate] selects it; [timestamp] in
    seconds. *)
Record SensorLog : Set := mkSensorLog {
  log_waste_level : Qc;
  log_timestamp : Z
}.

(** A row of [bins]; only the columns the two modules read. *)
Record BinRow : Set := mkBinRow {
  row_bin_id : Z;
  row_bin_code : string;
  row_location : string;
  row_zone : string;
  row_status : string;
  row_latitude : option Qc;
  row_longitude : option Qc;
  row_waste_level : Qc
}.

(** What the queries of the two modules return.  [bins_table] is the
    answer of [Bin.get_all_bins]; [sensor_logs_of id] is the answer of the
    query of [get_fill_rate] for bin [id] (already restricted to the last
    seven days and ordered by time), [None] when [Database.execute_query]
    failed. *)
Record Database : Type := mkDatabase {
  bins_table : list BinRow;
  sensor_logs_of : Z -> option (list SensorLog)
}.

Definition get_all_bins (db : Database) : list BinRow := bins_table db.

(** [Bin.get_bin_by_id]: the first row of the answer, [None] without one. *)
Definition get_bin_by_id (db : Database) (bin_id : Z) : option BinRow :=
  find (fun r => Z.eqb (row_bin_id r) bin_id) (bins_table db).

(** Truth value of a coordinate column: [None] and zero are false. *)
Definition truthy (c : option Qc) : bool :=
  match c with
  | None => false
  | Some q => negb (Qceqb q 0)
  end.

(** ** The builtin list operations the modules use *)

Section ListSort.
Context {A : Type} (lt : A -> A -> bool).

(** [list.sort] is stable and compares with [<] only.  An element put
    into a sorted list passes the elements strictly below it and stops
    before the first one that is not. *)
Fixpoint insert_sorted (x : A) (l : list A) : list A :=
  match l with
  | [] => [x]
  | y :: l' => if lt y x then y :: insert_sorted x l' else x :: l
  end.

Fixpoint list_sort (l : list A) : list A :=
  match l with
  | [] => []
  | x :: l' => insert_sorted x (list_sort l')
  end.
End ListSort.

(** [l[:k]]: a negative [k] counts from the end. *)
Definition slice_to {A : Type} (l : list A) (k : Z) : list A :=
  if (0 <=? k)%Z then firstn (Z.to_nat k) l
  else firstn (length l - Z.to_nat (- k)) l.

(** [l.remove(x)] for an [x] that occurs in [l]: the first element equal
    to [x] goes. *)
Fixpoint list_remove {A : Type} (eqb : A -> A -> bool) (x : A) (l : list A) : list A :=
  match l with
  | [] => []
  | y :: l' => if eqb y x then l' else y :: list_remove eqb x l'
  end.

(** ** predictor.py *)

Module Predictor.

(** [sklearn.linear_model.LinearRegression().fit(X, y).coef_[0]] for one
    feature with an intercept: the data are centred and the least-squares
    solution of least norm is taken, so a sample with no spread in [X]
    has coefficient 0.  [None] stands for the [ValueError] that [fit]
    raises on an empty sample or on arrays of different lengths.  The
    slope is written here in exact arithmetic; the library works in
    binary floating point and can return a neighbouring value (for
    readings on a line of slope 5, a float just below 5). *)
Definition mean (l : list Qc) : Qc := Qcsum l / Qc_of_nat (length l).

Definition LinearRegression_coef (X y : list Qc) : option Qc :=
  if orb (Nat.eqb (length X) 0) (negb (Nat.eqb (length X) (length y)))
  then None
  else
    let xm := mean X in
    let ym := mean y in
    let sxy := Qcsum (map (fun p => (fst p - xm) * (snd p - ym)) (combine X y)) in
    let sxx := Qcsum (map (fun x => (x - xm) * (x - xm)) X) in
    if Qceqb sxx 0 then Some 0 else Some (sxy / sxx).

(** Lines 55-75 of [get_fill_rate]: the slope fitted inside the [try]
    block, [None] when the block raises. *)
Definition fitted_slope (logs : list SensorLog) : option Qc :=
  match logs with
  | [] => None
  | log0 :: _ =>
      let base_time := log_timestamp log0 in
      let timestamps :=
        map (fun log => Qc_of_Z (log_timestamp log - base_time) / Qc_of_Z 3600) logs in
      let levels := map log_waste_level logs in
      LinearRegression_coef timestamps levels
  end.

(** Lines 77-83: the bounds put on the slope. *)
Definition bound_fill_rate (fill_rate : Qc) : Qc :=
  if Qcleb fill_rate 0 then Qc_of_Z 2
  else if Qcltb (Qc_of_Z 10) fill_rate then Qc_of_Z 10
  else fill_rate.

(** The estimate from the answer of the query ([logs]). *)
Definition estimate (logs : option (list SensorLog)) : Qc :=
  match logs with
  | None => Qc_of_Z 2
  | Some logs =>
      if (length logs <? 2)%nat then Qc_of_Z 2
      else
        match fitted_slope logs with
        | Some fill_rate => bound_fill_rate fill_rate
        | None => Qc_of_Z 2
        end
  end.

Definition get_fill_rate (db : Database) (bin_id : Z) : Qc :=
  estimate (sensor_logs_of db bin_id).

Definition predict_time_to_full (bin_id : Z) (current_level fill_rate : Qc) : Qc :=
  if Qcleb (Qc_of_Z 100) current_level then 0
  else
    let fill_rate := if Qcleb fill_rate 0 then Qc_of_Z 2 else fill_rate in
    let remaining_capacity := Qc_of_Z 100 - current_level in
    remaining_capacity / fill_rate.

(** The specification's words for the fit: the readings as points
    (hours since the first reading, level), the sum of the squared
    residuals of the line [level = a + b * hours] over them, and the
    slopes of the lines that make this sum least. *)
Definition points (logs : list SensorLog) : list (Qc * Qc) :=
  match logs with
  | [] => []
  | log0 :: _ =>
      map (fun log =>
             (Qc_of_Z (log_timestamp log - log_timestamp log0) / Qc_of_Z 3600,
              log_waste_level log)) logs
  end.

Definition squared_error (pts : list (Qc * Qc)) (a b : Qc) : Qc :=
  Qcsum (map (fun p => (snd p - (a + b * fst p)) * (snd p - (a + b * fst p))) pts).

Definition least_squares_slope (pts : list (Qc * Qc)) (b : Qc) : Prop :=
  exists a, forall a' b', squared_error pts a b <= squared_error pts a' b'.

Inductive Priority : Set := critical | high | medium | low.

(** The dictionary [priority_order]. *)
Definition priority_order (p : Priority) : Z :=
  match p with
  | critical => 0
  | high => 1
  | medium => 2
  | low => 3
  end.

Record Prediction : Set := mkPrediction {
  bin_id : Z;
  bin_code : string;
  location : string;
  zone : string;
  current_level : Qc;
  fill_rate : Qc;
  hours_to_full : Qc;
  predicted_level_24h : Qc;
  priority : Priority;
  needs_collection : bool;
  latitude : option Qc;
  longitude : option Qc
}.

(** Lines 139-146: the tier of a bin. *)
Definition priority_of (current_level hours_to_full threshold_hours : Qc) : Priority :=
  let priority := low in
  if Qcleb (Qc_of_Z 90) current_level then critical
  else if Qcleb (Qc_of_Z 80) current_level then high
  else if Qcleb hours_to_full threshold_hours then medium
  else priority.

(** Lines 122-163: the body of the loop over the bins; [None] when the
    bin adds nothing to [predictions]. *)
Definition predict_bin (db : Database) (threshold_hours : Qc) (bin_data : BinRow)
  : option Prediction :=
  if negb (String.eqb (row_status bin_data) "active") then None
  else
    let bin_id := row_bin_id bin_data in
    let current_level := row_waste_level bin_data in
    let fill_rate := get_fill_rate db bin_id in
    let hours_to_full := predict_time_to_full bin_id current_level fill_rate in
    let predicted_level := current_level + fill_rate * threshold_hours in
    let predicted_level :=
      if Qcltb (Qc_of_Z 100) predicted_level then Qc_of_Z 100 else predicted_level in
    let priority := priority_of current_level hours_to_full threshold_hours in
    if orb (Qcleb (Qc_of_Z 70) current_level) (Qcleb hours_to_full threshold_hours)
    then Some {|
      bin_id := bin_id;
      bin_code := row_bin_code bin_data;
      location := row_location bin_data;
      zone := row_zone bin_data;
      current_level := py_round current_level 2;
      fill_rate := py_round fill_rate 2;
      hours_to_full := py_round hours_to_full 1;
      predicted_level_24h := py_round predicted_level 2;
      priority := priority;
      needs_collection :=
        orb (Qcleb hours_to_full threshold_hours) (Qcleb (Qc_of_Z 80) current_level);
      latitude := if truthy (row_latitude bin_data) then row_latitude bin_data else None;
      longitude := if truthy (row_longitude bin_data) then row_longitude bin_data else None
    |}
    else None.

(** The list [predictions] when the loop ends. *)
Fixpoint collect_predictions (db : Database) (threshold_hours : Qc) (all_bins : list BinRow)
  : list Prediction :=
  match all_bins with
  | [] => []
  | bin_data :: rest =>
      match predict_bin db threshold_hours bin_data with
      | Some p => p :: collect_predictions db threshold_hours rest
      | None => collect_predictions db threshold_hours rest
      end
  end.

(** The key of the final sort and Python's [<] on such pairs. *)
Definition sort_key (x : Prediction) : Z * Qc :=
  (priority_order (priority x), - current_level x).

Definition key_lt (a b : Z * Qc) : bool :=
  if Z.eqb (fst a) (fst b) then Qcltb (snd a) (snd b) else Z.ltb (fst a) (fst b).

(** The order of [sort_key] in words: a lower tier rank first and, within
    a tier, a higher level first. *)
Definition ranked_before (a b : Prediction) : Prop :=
  (priority_order (priority a) < priority_order (priority b))%Z
  \/ (priority_order (priority a) = priority_order (priority b)
      /\ current_level b <= current_level a).

(** A reading moved by [d] seconds. *)
Definition shift_log (d : Z) (log : SensorLog) : SensorLog :=
  {| log_waste_level := log_waste_level log;
     log_timestamp := log_timestamp log + d |}.

Definition predict_bins_needing_collection (db : Database) (threshold_hours : Qc)
  : list Prediction :=
  let all_bins := get_all_bins db in
  let predictions := collect_predictions db threshold_hours all_bins in
  list_sort (fun a b => key_lt (sort_key a) (sort_key b)) predictions.

Definition get_optimal_collection_bins (db : Database) (max_bins : Z) : list Prediction :=
  let predictions := predict_bins_needing_collection db (Qc_of_Z 24) in
  let bins_to_collect := filter needs_collection predictions in
  slice_to bins_to_collect max_bins.

End Predictor.

(** ** route_optimizer.py *)

Module RouteOptimizer.

Definition get_bin_priority_score (waste_level : Qc) : Z :=
  if Qcleb (Qc_of_Z 90) waste_level then 100
  else if Qcleb (Qc_of_Z 80) waste_level then 80
  else if Qcleb (Qc_of_Z 70) waste_level then 60
  else if Qcleb (Qc_of_Z 60) waste_level then 40
  else 20.

(** An entry of the list [bins] built at lines 88-100. *)
Record RouteBin : Set := mkRouteBin {
  bin_id : Z;
  bin_code : string;
  location : string;
  latitude : Qc;
  longitude : Qc;
  waste_level : Qc;
  priority_score : Z
}.

(** An entry of [optimized_route]. *)
Record RouteStop : Set := mkRouteStop {
  sequence : nat;
  stop_bin_id : Z;
  stop_bin_code : string;
  stop_location : string;
  stop_latitude : Qc;
  stop_longitude : Qc;
  stop_waste_level : Qc;
  distance_from_previous : Qc
}.

(** The dictionary returned; the two early returns leave [total_bins] and
    [average_waste_level] out. *)
Record Route : Set := mkRoute {
  bins : list RouteStop;
  total_bins : option nat;
  total_distance : Qc;
  optimization_method : string;
  average_waste_level : option Qc
}.

Definition empty_route : Route := {|
  bins := [];
  total_bins := None;
  total_distance := 0;
  optimization_method := "nearest_neighbor";
  average_waste_level := None
|}.

(** Python's [==] on two entries of [bins]. *)
Definition RouteBin_eqb (a b : RouteBin) : bool :=
  Z.eqb (bin_id a) (bin_id b)
  && String.eqb (bin_code a) (bin_code b)
  && String.eqb (location a) (location b)
  && Qceqb (latitude a) (latitude b)
  && Qceqb (longitude a) (longitude b)
  && Qceqb (waste_level a) (waste_level b)
  && Z.eqb (priority_score a) (priority_score b).

(** [float(c)] for a column [c] that is not [None]. *)
Definition float_of (c : option Qc) : Qc :=
  match c with
  | Some q => q
  | None => 0
  end.

(** Lines 88-100: the bins found, with both coordinates true. *)
Fixpoint load_bins (db : Database) (bin_ids : list Z) : list RouteBin :=
  match bin_ids with
  | [] => []
  | id :: rest =>
      match get_bin_by_id db id with
      | Some bin_data =>
          if truthy (row_latitude bin_data) && truthy (row_longitude bin_data)
          then {|
            bin_id := row_bin_id bin_data;
            bin_code := row_bin_code bin_data;
            location := row_location bin_data;
            latitude := float_of (row_latitude bin_data);
            longitude := float_of (row_longitude bin_data);
            waste_level := row_waste_level bin_data;
            priority_score := get_bin_priority_score (row_waste_level bin_data)
          |} :: load_bins db rest
          else load_bins db rest
      | None => load_bins db rest
      end
  end.

(** The variables of the [while] loop. *)
Record LoopState : Set := mkLoopState {
  optimized_route : list RouteStop;
  remaining_bins : list RouteBin;
  total_distance_acc : Qc;
  current_lat : Qc;
  current_lon : Qc
}.

Definition distance_weight : Qc := Qc_of_Z 5.

(** Lines 147-156: the stop appended for [best_bin]. *)
Definition route_stop (sequence : nat) (best_bin : RouteBin) (best_distance : Qc)
  : RouteStop := {|
    sequence := sequence;
    stop_bin_id := bin_id best_bin;
    stop_bin_code := bin_code best_bin;
    stop_location := location best_bin;
    stop_latitude := latitude best_bin;
    stop_longitude := longitude best_bin;
    stop_waste_level := waste_level best_bin;
    distance_from_previous := py_round best_distance 2
  |}.

Section Distance.
(** [calculate_distance lat1 lon1 lat2 lon2], in kilometres. *)
Variable calculate_distance : Qc -> Qc -> Qc -> Qc -> Qc.

(** Lines 128-143: one pass over [remaining_bins].  [best] is
    [(best_bin, best_score, best_distance)], [None] while [best_bin] is
    [None] and [best_score] is minus infinity. *)
Definition consider (lat lon : Qc) (best : option (RouteBin * Qc * Qc)) (bin_data : RouteBin)
  : option (RouteBin * Qc * Qc) :=
  let distance := calculate_distance lat lon (latitude bin_data) (longitude bin_data) in
  let score := Qc_of_Z (priority_score bin_data) - distance * distance_weight in
  match best with
  | None => Some (bin_data, score, distance)
  | Some (_, best_score, _) =>
      if Qcltb best_score score then Some (bin_data, score, distance) else best
  end.

Definition select_best (lat lon : Qc) (remaining : list RouteBin)
  : option (RouteBin * Qc * Qc) :=
  fold_left (consider lat lon) remaining None.

(** Lines 124-161: one turn of the [while] loop. *)
Definition loop_body (st : LoopState) : LoopState :=
  match select_best (current_lat st) (current_lon st) (remaining_bins st) with
  | None => st
  | Some (best_bin, _, best_distance) => {|
      optimized_route :=
        optimized_route st
        ++ [route_stop (length (optimized_route st) + 1) best_bin best_distance];
      remaining_bins := list_remove RouteBin_eqb best_bin (remaining_bins st);
      total_distance_acc := total_distance_acc st + best_distance;
      current_lat := latitude best_bin;
      current_lon := longitude best_bin
    |}
  end.

(** [while remaining_bins: ...], at most [fuel] turns. *)
Fixpoint while_remaining (fuel : nat) (st : LoopState) : LoopState :=
  match fuel with
  | O => st
  | S fuel' =>
      match remaining_bins st with
      | [] => st
      | _ :: _ => while_remaining fuel' (loop_body st)
      end
  end.

(** Lines 109-121: the state in which the loop is entered. *)
Definition loop_entry (bins : list RouteBin) (start_location : option (Qc * Qc))
  : LoopState :=
  match start_location with
  | Some (lat, lon) => {|
      optimized_route := [];
      remaining_bins := bins;
      total_distance_acc := 0;
      current_lat := lat;
      current_lon := lon
    |}
  | None =>
      let bins :=
        list_sort (fun x y => Z.ltb (priority_score y) (priority_score x)) bins in
      {|
        optimized_route := [];
        remaining_bins := bins;
        total_distance_acc := 0;
        current_lat := match bins with b :: _ => latitude b | [] => 0 end;
        current_lon := match bins with b :: _ => longitude b | [] => 0 end
      |}
  end.

Definition optimize_route (db : Database) (bin_ids : list Z)
    (start_location : option (Qc * Qc)) : Route :=
  match bin_ids with
  | [] => empty_route
  | _ :: _ =>
      let bins := load_bins db bin_ids in
      match bins with
      | [] => empty_route
      | _ :: _ =>
          let entry := loop_entry bins start_location in
          let final := while_remaining (length (remaining_bins entry)) entry in
          let optimized_route := optimized_route final in
          {|
            bins := optimized_route;
            total_bins := Some (length optimized_route);
            total_distance := py_round (total_distance_acc final) 2;
            optimization_method := "nearest_neighbor_priority_weighted";
            average_waste_level :=
              Some (match optimized_route with
                    | [] => 0
                    | _ :: _ =>
                        py_round (Qcsum (map stop_waste_level optimized_route)
                                  / Qc_of_nat (length optimized_route)) 2
                    end)
          |}
      end
  end.
(** The legs of a route that starts at [(lat, lon)]: the distance to each
    stop from the one before it. *)
Fixpoint hop_distances (lat lon : Qc) (route : list RouteStop) : list Qc :=
  match route with
  | [] => []
  | stop :: route' =>
      calculate_distance lat lon (stop_latitude stop) (stop_longitude stop)
      :: hop_distances (stop_latitude stop) (stop_longitude stop) route'
  end.
End Distance.

(** What an entry of [bins] and a stop of the route say of a bin. *)
Definition bin_fields (b : RouteBin) : Z * string * string * Qc * Qc * Qc :=
  (bin_id b, bin_code b, location b, latitude b, longitude b, waste_level b).

Definition stop_fields (s : RouteStop) : Z * string * string * Qc * Qc * Qc :=
  (stop_bin_id s, stop_bin_code s, stop_location s,
   stop_latitude s, stop_longitude s, stop_waste_level s).

(** The position a route ends at when it starts at [(lat, lon)]. *)
Definition last_position (lat lon : Qc) (route : list RouteStop) : Qc * Qc :=
  fold_left (fun _ stop => (stop_latitude stop, stop_longitude stop)) route (lat, lon).

(** Whether an id brings a bin into the route: the test of line 91. *)
Definition loads (db : Database) (id : Z) : bool :=
  match get_bin_by_id db id with
  | Some row => truthy (row_latitude row) && truthy (row_longitude row)
  | None => false
  end.

(** The score that the selection rule of lines 137-138 gives to the bin of
    a stop when the vehicle stands at [(lat, lon)]. *)
Definition stop_score (calculate_distance : Qc -> Qc -> Qc -> Qc -> Qc)
    (lat lon : Qc) (stop : RouteStop) : Qc :=
  Qc_of_Z (get_bin_priority_score (stop_waste_level stop))
  - calculate_distance lat lon (stop_latitude stop) (stop_longitude stop)
    * distance_weight.

(** The answers of the two queries of the zone functions:
    [zone_bins_of zone max_bins] for the query of [optimize_route_by_zone]
    (the active bins of the zone at 60 % or more, fullest first, at most
    [max_bins] of them) and [active_zones] for the query of
    [create_daily_routes]; [None] when [execute_query] failed. *)
Record ZoneAnswers : Type := mkZoneAnswers {
  zone_bins_of : string -> Z -> option (list BinRow);
  active_zones : option (list string)
}.

(** The dictionary [optimize_route_by_zone] returns: that of
    [optimize_route] with the key [zone]; its early return has the keys
    [bins], [total_distance] and [zone] only. *)
Record ZoneRoute : Set := mkZoneRoute {
  zone_bins : list RouteStop;
  zone_total_bins : option nat;
  zone_total_distance : Qc;
  zone_optimization_method : option string;
  zone_average_waste_level : option Qc;
  zone : string
}.

Section ZoneRoutes.
Variable calculate_distance : Qc -> Qc -> Qc -> Qc -> Qc.

Definition optimize_route_by_zone (db : Database) (answers : ZoneAnswers)
    (zone : string) (max_bins : Z) : ZoneRoute :=
  let empty := {|
    zone_bins := [];
    zone_total_bins := None;
    zone_total_distance := 0;
    zone_optimization_method := None;
    zone_average_waste_level := None;
    zone := zone
  |} in
  match zone_bins_of answers zone max_bins with
  | None => empty
  | Some [] => empty
  | Some (b :: bs) =>
      let bin_ids := map row_bin_id (b :: bs) in
      let route := optimize_route calculate_distance db bin_ids None in
      {|
        zone_bins := bins route;
        zone_total_bins := total_bins route;
        zone_total_distance := total_distance route;
        zone_optimization_method := Some (optimization_method route);
        zone_average_waste_level := average_waste_level route;
        zone := zone
      |}
  end.

(** The loop of [create_daily_routes] over [zones]. *)
Fixpoint daily_routes_of (db : Database) (answers : ZoneAnswers)
    (zones : list string) (bins_per_route : Z) : list ZoneRoute :=
  match zones with
  | [] => []
  | zone :: rest =>
      let route := optimize_route_by_zone db answers zone bins_per_route in
      match zone_bins route with
      | [] => daily_routes_of db answers rest bins_per_route
      | _ :: _ => route :: daily_routes_of db answers rest bins_per_route
      end
  end.

Definition create_daily_routes (db : Database) (answers : ZoneAnswers)
    (zones : option (list string)) (bins_per_route : Z) : list ZoneRoute :=
  let zones :=
    match zones with
    | Some zones => zones
    | None =>
        match active_zones answers with
        | Some zone_result => zone_result
        | None => []
        end
    end in
  daily_routes_of db answers zones bins_per_route.
End ZoneRoutes.

End RouteOptimizer.

(** ** Python floats as they are: binary64 *)

Module Binary64.

Definition float : Set := PrimFloat.float.

(** The float nearest to the fraction [n / d], a tie going to the even
    mantissa, with the sign given. *)
Definition nearest (negative : bool) (n d : positive) : float :=
  FloatOps.SF2Prim
    (SpecFloat.SFdiv FloatOps.prec FloatOps.emax
       (SpecFloat.S754_finite negative n 0) (SpecFloat.S754_finite false d 0)).

(** [float(d)] for a [Decimal] [d]. *)
Definition float_of_Q (q : Q) : float :=
  match Qnum q with
  | Z0 => PrimFloat.zero
  | Zpos n => nearest false n (Qden q)
  | Zneg n => nearest true n (Qden q)
  end.

(** The float that an [int] becomes in arithmetic with a float. *)
Definition float_of_Z (z : Z) : float := float_of_Q (inject_Z z).

(** The absolute value of the finite float of mantissa [m] and exponent
    [e]. *)
Definition magnitude (m : positive) (e : Z) : Q :=
  match e with
  | Z0 => Zpos m # 1
  | Zpos k => (Zpos m * 2 ^ Zpos k) # 1
  | Zneg k => Zpos m # (2 ^ k)
  end.

(** The value of a float, [None] for an infinity and for NaN. *)
Definition value (x : float) : option Q :=
  match FloatOps.Prim2SF x with
  | SpecFloat.S754_zero _ => Some 0%Q
  | SpecFloat.S754_finite s m e =>
      Some (if s then Qopp (magnitude m e) else magnitude m e)
  | _ => None
  end.

(** The builtin [round(x, ndigits)] on a float, for [ndigits] from 0 on:
    the value of [x] is rounded to [ndigits] decimals, a tie going to
    the even digit, and the float nearest to that decimal is returned.
    Zeros, infinities and NaN are returned as they are. *)
Definition py_round (x : float) (ndigits : nat) : float :=
  match FloatOps.Prim2SF x with
  | SpecFloat.S754_finite s m e =>
      let scale := Pos.of_nat (10 ^ ndigits) in
      match round_half_even (magnitude m e * (Zpos scale # 1)) with
      | Zpos k => nearest s k scale
      | _ => if s then PrimFloat.neg_zero else PrimFloat.zero
      end
  | _ => x
  end.

End Binary64.

(** ** route_optimizer.py on floats *)

Module RouteOptimizer64.
Import Binary64.

Definition get_bin_priority_score (waste_level : float) : Z :=
  if PrimFloat.leb (float_of_Z 90) waste_level then 100
  else if PrimFloat.leb (float_of_Z 80) waste_level then 80
  else if PrimFloat.leb (float_of_Z 70) waste_level then 60
  else if PrimFloat.leb (float_of_Z 60) waste_level then 40
  else 20.

(** An entry of the list [bins] built at lines 88-100. *)
Record RouteBin : Set := mkRouteBin {
  bin_id : Z;
  bin_code : string;
  location : string;
  latitude : float;
  longitude : float;
  waste_level : float;
  priority_score : Z
}.

(** An entry of [optimized_route]. *)
Record RouteStop : Set := mkRouteStop {
  sequence : nat;
  stop_bin_id : Z;
  stop_bin_code : string;
  stop_location : string;
  stop_latitude : float;
  stop_longitude : float;
  stop_waste_level : float;
  distance_from_previous : float
}.

(** The dictionary returned; the two early returns leave [total_bins] and
    [average_waste_level] out and have the integer 0 as total. *)
Record Route : Set := mkRoute {
  bins : list RouteStop;
  total_bins : option nat;
  total_distance : float;
  optimization_method : string;
  average_waste_level : option float
}.

Definition empty_route : Route := {|
  bins := [];
  total_bins := None;
  total_distance := float_of_Z 0;
  optimization_method := "nearest_neighbor";
  average_waste_level := None
|}.

(** Python's [==] on the values of two entries of [bins]. *)
Definition RouteBin_eqb (a b : RouteBin) : bool :=
  Z.eqb (bin_id a) (bin_id b)
  && String.eqb (bin_code a) (bin_code b)
  && String.eqb (location a) (location b)
  && PrimFloat.eqb (latitude a) (latitude b)
  && PrimFloat.eqb (longitude a) (longitude b)
  && PrimFloat.eqb (waste_level a) (waste_level b)
  && Z.eqb (priority_score a) (priority_score b).

(** An entry of [bins] as the object it is: the dictionary together with
    the place it was given in [bins] when it was made.  [list.remove]
    takes the first item that is the object looked for or equals it. *)
Definition BinObject : Set := nat * RouteBin.

Definition is_or_equals (item x : BinObject) : bool :=
  Nat.eqb (fst item) (fst x) || RouteBin_eqb (snd item) (snd x).

(** [float(c)] for a column [c] that is not [None]. *)
Definition float_of (c : option Qc) : float :=
  match c with
  | Some q => float_of_Q q
  | None => float_of_Z 0
  end.

(** Lines 88-100: the bins found, with both coordinates true. *)
Fixpoint load_bins (db : Database) (bin_ids : list Z) : list RouteBin :=
  match bin_ids with
  | [] => []
  | id :: rest =>
      match get_bin_by_id db id with
      | Some bin_data =>
          if truthy (row_latitude bin_data) && truthy (row_longitude bin_data)
          then {|
            bin_id := row_bin_id bin_data;
            bin_code := row_bin_code bin_data;
            location := row_location bin_data;
            latitude := float_of (row_latitude bin_data);
            longitude := float_of (row_longitude bin_data);
            waste_level := float_of_Q (row_waste_level bin_data);
            priority_score :=
              get_bin_priority_score (float_of_Q (row_waste_level bin_data))
          |} :: load_bins db rest
          else load_bins db rest
      | None => load_bins db rest
      end
  end.

(** The objects of [bins], in the order of the list. *)
Definition objects (bins : list RouteBin) : list BinObject :=
  combine (seq 0 (length bins)) bins.

(** The variables of the [while] loop. *)
Record LoopState : Set := mkLoopState {
  optimized_route : list RouteStop;
  remaining_bins : list BinObject;
  total_distance_acc : float;
  current_lat : float;
  current_lon : float
}.

Definition distance_weight : Z := 5.

(** Line 138. *)
Definition weighted_score (priority_score : Z) (distance : float) : float :=
  PrimFloat.sub (float_of_Z priority_score)
    (PrimFloat.mul distance (float_of_Z distance_weight)).

(** Lines 147-156: the stop appended for [best_bin]. *)
Definition route_stop (sequence : nat) (best_bin : RouteBin) (best_distance : float)
  : RouteStop := {|
    sequence := sequence;
    stop_bin_id := bin_id best_bin;
    stop_bin_code := bin_code best_bin;
    stop_location := location best_bin;
    stop_latitude := latitude best_bin;
    stop_longitude := longitude best_bin;
    stop_waste_level := waste_level best_bin;
    distance_from_previous := py_round best_distance 2
  |}.

Section Distance.
(** [calculate_distance lat1 lon1 lat2 lon2], in kilometres. *)
Variable calculate_distance : float -> float -> float -> float -> float.
(** The builtin [sum] on a list of floats: an accumulation from the left,
    plain up to CPython 3.11 and with the rounding errors compensated
    from 3.12 on. *)
Variable py_sum : list float -> float.

(** Lines 128-143: one pass over [remaining_bins].  [best] is
    [(best_bin, best_score, best_distance)], [None] while [best_bin] is
    [None] and [best_score] is minus infinity. *)
Definition consider (lat lon : float) (best : option (BinObject * float * float))
    (bin_data : BinObject) : option (BinObject * float * float) :=
  let distance :=
    calculate_distance lat lon (latitude (snd bin_data)) (longitude (snd bin_data)) in
  let score := weighted_score (priority_score (snd bin_data)) distance in
  let best_score :=
    match best with
    | None => PrimFloat.neg_infinity
    | Some (_, best_score, _) => best_score
    end in
  if PrimFloat.ltb best_score score then Some (bin_data, score, distance) else best.

Definition select_best (lat lon : float) (remaining : list BinObject)
  : option (BinObject * float * float) :=
  fold_left (consider lat lon) remaining None.

(** Lines 145-161: what a turn does with the bin it selected. *)
Definition visit (st : LoopState) (best_bin : BinObject) (best_distance : float)
  : LoopState := {|
    optimized_route :=
      optimized_route st
      ++ [route_stop (length (optimized_route st) + 1) (snd best_bin) best_distance];
    remaining_bins := list_remove is_or_equals best_bin (remaining_bins st);
    total_distance_acc := PrimFloat.add (total_distance_acc st) best_distance;
    current_lat := latitude (snd best_bin);
    current_lon := longitude (snd best_bin)
  |}.

(** [while remaining_bins: ...].  A turn in which no bin scores above
    minus infinity leaves [best_bin] at [None] and changes nothing, so
    that the loop never ends: the result is [None] then, as it is when
    the [fuel] runs out. *)
Fixpoint while_remaining (fuel : nat) (st : LoopState) : option LoopState :=
  match remaining_bins st with
  | [] => Some st
  | _ :: _ =>
      match select_best (current_lat st) (current_lon st) (remaining_bins st) with
      | None => None
      | Some (best_bin, _, best_distance) =>
          match fuel with
          | O => None
          | S fuel' => while_remaining fuel' (visit st best_bin best_distance)
          end
      end
  end.

(** Lines 109-121: the state in which the loop is entered. *)
Definition loop_entry (bins : list RouteBin) (start_location : option (float * float))
  : LoopState :=
  match start_location with
  | Some (lat, lon) => {|
      optimized_route := [];
      remaining_bins := objects bins;
      total_distance_acc := float_of_Z 0;
      current_lat := lat;
      current_lon := lon
    |}
  | None =>
      let bins :=
        list_sort (fun x y => Z.ltb (priority_score (snd y)) (priority_score (snd x)))
          (objects bins) in
      {|
        optimized_route := [];
        remaining_bins := bins;
        total_distance_acc := float_of_Z 0;
        current_lat := match bins with b :: _ => latitude (snd b) | [] => float_of_Z 0 end;
        current_lon := match bins with b :: _ => longitude (snd b) | [] => float_of_Z 0 end
      |}
  end.

(** [None] when the call does not return. *)
Definition optimize_route (db : Database) (bin_ids : list Z)
    (start_location : option (float * float)) : option Route :=
  match bin_ids with
  | [] => Some empty_route
  | _ :: _ =>
      let bins := load_bins db bin_ids in
      match bins with
      | [] => Some empty_route
      | _ :: _ =>
          let entry := loop_entry bins start_location in
          match while_remaining (length (remaining_bins entry)) entry with
          | None => None
          | Some final =>
              let optimized_route := optimized_route final in
              Some {|
                bins := optimized_route;
                total_bins := Some (length optimized_route);
                total_distance := py_round (total_distance_acc final) 2;
                optimization_method := "nearest_neighbor_priority_weighted";
                average_waste_level :=
                  Some (match optimized_route with
                        | [] => float_of_Z 0
                        | _ :: _ =>
                            py_round
                              (PrimFloat.div
                                 (py_sum (map stop_waste_level optimized_route))
                                 (float_of_Z (Z.of_nat (length optimized_route)))) 2
                        end)
              |}
          end
      end
  end.

(** The legs of a route that starts at [(lat, lon)]: the distance to each
    stop from the one before it. *)
Fixpoint hop_distances (lat lon : float) (route : list RouteStop) : list float :=
  match route with
  | [] => []
  | stop :: route' =>
      calculate_distance lat lon (stop_latitude stop) (stop_longitude stop)
      :: hop_distances (stop_latitude stop) (stop_longitude stop) route'
  end.

(** The total as line 158 accumulates it over the legs. *)
Definition accumulate (legs : list float) : float :=
  fold_left PrimFloat.add legs (float_of_Z 0).
End Distance.

(** The position a route ends at when it starts at [(lat, lon)]. *)
Definition last_position (lat lon : float) (route : list RouteStop) : float * float :=
  fold_left (fun _ stop => (stop_latitude stop, stop_longitude stop)) route (lat, lon).

(** The places the vehicle can stand at during a call: where the loop is
    entered and at every loaded bin. *)
Definition positions (bins : list RouteBin) (start_location : option (float * float))
  : list (float * float) :=
  (current_lat (loop_entry bins start_location),
   current_lon (loop_entry bins start_location))
  :: map (fun b => (latitude b, longitude b)) bins.

End RouteOptimizer64.

(** ** iot_simulator/bin_simulator.py, with the methods of [Bin] it calls *)

Module Simulator.

(** A decimal literal. *)
Definition dec (n : Z) (d : positive) : Qc := Q2Qc (n # d).

(** The generator of the module [random]: the sequence of the values that
    [random.random()] returns, each in [0, 1), and how many were drawn. *)
Record Rng : Type := mkRng {
  source : nat -> Qc;
  used : nat
}.

Definition random (g : Rng) : Qc * Rng :=
  (source g (used g), {| source := source g; used := S (used g) |}).

(** [random.uniform(a, b)] is [a + (b - a) * random()]. *)
Definition uniform (a b : Qc) (g : Rng) : Qc * Rng :=
  let (r, g) := random g in (a + (b - a) * r, g).

(** What the module [random] promises of the values it draws. *)
Definition fair (g : Rng) : Prop := forall n, 0 <= source g n /\ source g n < 1.

(** The dictionary [fill_rates]. *)
Definition fill_rates (bin_type : string) : option (Qc * Qc) :=
  if String.eqb bin_type "general" then Some (dec 15 10, Qc_of_Z 4)
  else if String.eqb bin_type "recyclable" then Some (dec 8 10, dec 25 10)
  else if String.eqb bin_type "organic" then Some (Qc_of_Z 2, Qc_of_Z 5)
  else if String.eqb bin_type "hazardous" then Some (dec 3 10, Qc_of_Z 1)
  else None.

(** The builtins [min] and [max] on two numbers. *)
Definition py_min (x y : Qc) : Qc := if Qcltb y x then y else x.
Definition py_max (x y : Qc) : Qc := if Qcltb x y then y else x.

Definition generate_sensor_reading (current_level : Qc) (bin_type : string) (g : Rng)
  : Qc * Rng :=
  let '(min_increase, max_increase) :=
    match fill_rates bin_type with
    | Some range => range
    | None => (Qc_of_Z 1, Qc_of_Z 3)
    end in
  let (increase, g) := uniform min_increase max_increase g in
  let (chance, g) := random g in
  let (increase, g) :=
    if Qcltb chance (dec 5 100)
    then let (decrease, g) := uniform (dec 5 10) (Qc_of_Z 2) g in (- decrease, g)
    else (increase, g) in
  let new_level := current_level + increase in
  let new_level := py_max 0 (py_min (Qc_of_Z 100) new_level) in
  (py_round new_level 2, g).

Definition generate_temperature (g : Rng) : Qc * Rng :=
  let base_temp := Qc_of_Z 27 in
  let (variation, g) := uniform (Qc_of_Z (-3)) (Qc_of_Z 5) g in
  (py_round (base_temp + variation) 2, g).

Definition generate_humidity (g : Rng) : Qc * Rng :=
  let base_humidity := Qc_of_Z 60 in
  let (variation, g) := uniform (Qc_of_Z (-15)) (Qc_of_Z 15) g in
  (py_round (base_humidity + variation) 2, g).

Definition determine_sensor_status (waste_level temperature humidity : Qc) : string :=
  if Qcleb (Qc_of_Z 95) waste_level then "error"%string
  else if orb (Qcleb (Qc_of_Z 85) waste_level) (Qcltb (Qc_of_Z 32) temperature)
       then "warning"%string
  else "normal"%string.

(** A row of [bins] with the two columns the simulator reads besides
    those of [BinRow].  The stamp [last_updated] is not among them. *)
Record SimBin : Set := mkSimBin {
  bin : BinRow;
  bin_type : string;
  capacity : Qc
}.

(** The rows the simulator inserts.  The columns that the database fills
    in by itself (keys, times) are left out; the text of an alert is made
    of the code and location of the bin and of the level, which are kept
    instead of the text. *)
Record SensorLogRow : Set := mkSensorLogRow {
  sensor_bin_id : Z;
  sensor_waste_level : Qc;
  temperature : Qc;
  humidity : Qc;
  sensor_status : string
}.

Record AlertRow : Set := mkAlertRow {
  alert_bin_id : Z;
  alert_type : string;
  message_bin_code : string;
  message_location : string;
  message_waste_level : Qc;
  severity : string;
  alert_status : string
}.

Record CollectionLog : Set := mkCollectionLog {
  collected_bin_id : Z;
  vehicle_id : option Z;
  collected_by : option Z;
  waste_amount : Qc;
  before_level : Qc;
  after_level : Qc
}.

(** The four tables the simulator reads and writes; new rows go to the
    end. *)
Record Store : Set := mkStore {
  bins : list SimBin;
  sensor_logs : list SensorLogRow;
  alerts : list AlertRow;
  collection_logs : list CollectionLog
}.

(** [Bin.get_bin_by_id]. *)
Definition get_bin_by_id (st : Store) (bin_id : Z) : option SimBin :=
  find (fun b => Z.eqb (row_bin_id (bin b)) bin_id) (bins st).

Definition set_waste_level (waste_level : Qc) (b : SimBin) : SimBin :=
  {| bin := {| row_bin_id := row_bin_id (bin b);
               row_bin_code := row_bin_code (bin b);
               row_location := row_location (bin b);
               row_zone := row_zone (bin b);
               row_status := row_status (bin b);
               row_latitude := row_latitude (bin b);
               row_longitude := row_longitude (bin b);
               row_waste_level := waste_level |};
     bin_type := bin_type b;
     capacity := capacity b |}.

(** [Bin.create_full_bin_alert]. *)
Definition create_full_bin_alert (st : Store) (bin_id : Z) (waste_level : Qc) : Store :=
  match get_bin_by_id st bin_id with
  | Some bin_data =>
      let severity :=
        if Qcleb (Qc_of_Z 90) waste_level then "critical"%string else "warning"%string in
      {| bins := bins st;
         sensor_logs := sensor_logs st;
         alerts := alerts st ++ [{|
           alert_bin_id := bin_id;
           alert_type := "full_bin";
           message_bin_code := row_bin_code (bin bin_data);
           message_location := row_location (bin bin_data);
           message_waste_level := waste_level;
           severity := severity;
           alert_status := "active"
         |}];
         collection_logs := collection_logs st |}
  | None => st
  end.

(** [Bin.update_waste_level]: the [UPDATE] of the rows with this id, then
    the alert from 80 % on.  The [UPDATE] also sets [last_updated] to the
    time of the database, a column that [SimBin] leaves out. *)
Definition update_waste_level (st : Store) (bin_id : Z) (waste_level : Qc) : Store :=
  let st := {|
    bins := map (fun b => if Z.eqb (row_bin_id (bin b)) bin_id
                          then set_waste_level waste_level b else b) (bins st);
    sensor_logs := sensor_logs st;
    alerts := alerts st;
    collection_logs := collection_logs st
  |} in
  if Qcleb (Qc_of_Z 80) waste_level
  then create_full_bin_alert st bin_id waste_level
  else st.

Definition update_bin_sensor (st : Store) (g : Rng) (bin_id : Z) : Store * Rng :=
  match get_bin_by_id st bin_id with
  | None => (st, g)
  | Some bin_data =>
      if negb (String.eqb (row_status (bin bin_data)) "active") then (st, g)
      else
        let current_level := row_waste_level (bin bin_data) in
        let bin_type := bin_type bin_data in
        let (new_level, g) := generate_sensor_reading current_level bin_type g in
        let (temperature, g) := generate_temperature g in
        let (humidity, g) := generate_humidity g in
        let sensor_status := determine_sensor_status new_level temperature humidity in
        let st := update_waste_level st bin_id new_level in
        ({| bins := bins st;
            sensor_logs := sensor_logs st ++ [{|
              sensor_bin_id := bin_id;
              sensor_waste_level := new_level;
              temperature := temperature;
              humidity := humidity;
              sensor_status := sensor_status
            |}];
            alerts := alerts st;
            collection_logs := collection_logs st |}, g)
  end.

(** [update_all_bins], where [all_bins] is the answer of
    [Bin.get_all_bins] when the function starts. *)
Fixpoint update_all_bins (all_bins : list SimBin) (st : Store) (g : Rng) : Store * Rng :=
  match all_bins with
  | [] => (st, g)
  | bin_data :: rest =>
      if String.eqb (row_status (bin bin_data)) "active"
      then let (st, g) := update_bin_sensor st g (row_bin_id (bin bin_data)) in
           update_all_bins rest st g
      else update_all_bins rest st g
  end.

Definition simulate_collection (st : Store) (g : Rng) (bin_id : Z) (vehicle_id : option Z)
  : Store * Rng :=
  match get_bin_by_id st bin_id with
  | None => (st, g)
  | Some bin_data =>
      let before_level := row_waste_level (bin bin_data) in
      let (after_level, g) := uniform (Qc_of_Z 2) (Qc_of_Z 8) g in
      let st := update_waste_level st bin_id after_level in
      let waste_amount :=
        (before_level - after_level) * capacity bin_data / Qc_of_Z 100 in
      ({| bins := bins st;
          sensor_logs := sensor_logs st;
          alerts := alerts st;
          collection_logs := collection_logs st ++ [{|
            collected_bin_id := bin_id;
            vehicle_id := vehicle_id;
            collected_by := None;
            waste_amount := waste_amount;
            before_level := before_level;
            after_level := after_level
          |}] |}, g)
  end.

End Simulator.

(** ** app.py: the guards of the views and the two AI endpoints *)

Module App.
Local Open Scope string_scope.

(** The keys of the session that the guards read. *)
Record Session : Set := mkSession {
  user_id : option Z;
  role : option string
}.

Inductive Body : Type :=
| RouteBody (route : RouteOptimizer.Route)
| PredictionsBody (predictions : list Predictor.Prediction)
| ErrorBody (message : string).

Inductive Response : Type :=
| Redirect (endpoint : string)
| Render (template : string)
| Json (status : nat) (body : Body).

Definition View : Type := Session -> Response.

Definition login_required (f : View) : View :=
  fun session =>
    match user_id session with
    | None => Redirect "login"
    | Some _ => f session
    end.

Definition role_required (roles : list string) (f : View) : View :=
  fun session =>
    match role session with
    | Some r =>
        if existsb (String.eqb r) roles then f session
        else Json 403 (ErrorBody "Unauthorized access")
    | None => Json 403 (ErrorBody "Unauthorized access")
    end.

Definition admin_dashboard : View :=
  login_required (role_required ["admin"] (fun _ => Render "admin/dashboard.html")).

Definition staff_dashboard : View :=
  login_required (role_required ["staff"; "admin"] (fun _ => Render "staff/dashboard.html")).

Definition citizen_dashboard : View :=
  login_required (role_required ["citizen"] (fun _ => Render "citizen/dashboard.html")).

Definition index : View :=
  fun session =>
    match user_id session with
    | Some _ =>
        match role session with
        | Some r =>
            if String.eqb r "admin" then Redirect "admin_dashboard"
            else if String.eqb r "staff" then Redirect "staff_dashboard"
            else if String.eqb r "citizen" then Redirect "citizen_dashboard"
            else Render "index.html"
        | None => Render "index.html"
        end
    | None => Render "index.html"
    end.

(** The view that an endpoint name stands for, for the names that [index]
    and the guards redirect to; the login page is rendered for a GET. *)
Definition view_of (endpoint : string) : option View :=
  if String.eqb endpoint "admin_dashboard" then Some admin_dashboard
  else if String.eqb endpoint "staff_dashboard" then Some staff_dashboard
  else if String.eqb endpoint "citizen_dashboard" then Some citizen_dashboard
  else if String.eqb endpoint "login" then Some (fun _ => Render "login.html")
  else None.

(** The sessions that the guards of the AI endpoints let through. *)
Definition admitted (session : Session) : Prop :=
  user_id session <> None
  /\ (role session = Some "admin" \/ role session = Some "staff").

(** What [request.get_json()] gives the route endpoint.  An object whose
    value for [bin_ids] is something else than a list of integers is
    not among the cases. *)
Inductive RequestJson : Type :=
| NoJson                                  (* no JSON body: [get_json] raises or gives [None] *)
| NotAnObject                             (* null, a list, a number, a string: no [get] *)
| JsonObject (bin_ids : option (list Z)). (* the value of the key, [None] without the key *)

Section Endpoints.
Variable calculate_distance : Qc -> Qc -> Qc -> Qc -> Qc.

(** [db] is [None] when the query for the bins fails: [get_all_bins]
    then returns [None], the loop over it raises and the handler
    answers 500. *)
Definition api_predict_collection (db : option Database) : View :=
  login_required (role_required ["admin"; "staff"] (fun _ =>
    match db with
    | Some db =>
        Json 200 (PredictionsBody (Predictor.predict_bins_needing_collection db (Qc_of_Z 24)))
    | None => Json 500 (ErrorBody "AI prediction unavailable")
    end)).

Definition api_optimize_route (db : Database) (request_json : RequestJson) : View :=
  login_required (role_required ["admin"; "staff"] (fun _ =>
    match request_json with
    | NoJson | NotAnObject => Json 500 (ErrorBody "Route optimization unavailable")
    | JsonObject data =>
        let bin_ids := match data with Some ids => ids | None => [] end in
        Json 200 (RouteBody (RouteOptimizer.optimize_route calculate_distance db bin_ids None))
    end)).
End Endpoints.

End App.

(** ** Sample data *)

Module Samples.

Definition reading (level t : Z) : SensorLog :=
  {| log_waste_level := Qc_of_Z level; log_timestamp := t |}.

(** 10 % at [t0], 15 % an hour later, 20 % two hours later. *)
Definition rising_logs (t0 : Z) : list SensorLog :=
  [reading 10 t0; reading 15 (t0 + 3600); reading 20 (t0 + 7200)].

(** 20 % at second 0 and, after a collection, 10 % an hour later. *)
Definition falling_logs : list SensorLog := [reading 20 0; reading 10 3600].

Definition single_log : list SensorLog := [reading 40 0].

(** A database without bins whose sensor log is the same for every bin. *)
Definition logs_only (logs : list SensorLog) : Database :=
  {| bins_table := []; sensor_logs_of := fun _ => Some logs |}.

Definition bin_row (id : Z) (code : string) (status : string)
    (lat lon : option Qc) (level : Qc) : BinRow :=
  {| row_bin_id := id; row_bin_code := code; row_location := "Main Street";
     row_zone := "North"; row_status := status;
     row_latitude := lat; row_longitude := lon; row_waste_level := level |}.

Definition deg (n : Z) (d : positive) : option Qc := Some (Q2Qc (n # d)).

(** Four bins, as [get_all_bins] orders them (fullest first); none has a
    sensor log.  The last one is out of service. *)
Definition town : Database :=
  {| bins_table :=
       [bin_row 1 "BIN-001" "active" (deg 286139 10000) (deg 772090 10000) (Qc_of_Z 95);
        bin_row 2 "BIN-002" "active" (deg 286200 10000) (deg 772100 10000) (Qc_of_Z 85);
        bin_row 3 "BIN-003" "active" (deg 286300 10000) (deg 772200 10000) (Qc_of_Z 85);
        bin_row 4 "BIN-004" "maintenance" (deg 286400 10000) (deg 772300 10000) (Qc_of_Z 75)];
     sensor_logs_of := fun _ => None |}.

(** A planar stand-in for the haversine distance: 111 km for a degree,
    along the grid.  It is 0 from a point to itself and never negative,
    as the haversine distance is. *)
Definition Qc_abs (x : Qc) : Qc := if Qcleb 0 x then x else - x.

Definition grid_distance (lat1 lon1 lat2 lon2 : Qc) : Qc :=
  Qc_of_Z 111 * (Qc_abs (lat2 - lat1) + Qc_abs (lon2 - lon1)).

(** One bin, full, on the equator. *)
Definition equator : Database :=
  {| bins_table :=
       [bin_row 1 "BIN-001" "active" (Some 0) (deg 368000 10000) (Qc_of_Z 95)];
     sensor_logs_of := fun _ => None |}.

(** Three bins at one collection point, at 10 %, 10 % and 11 %. *)
Definition one_site : Database :=
  {| bins_table :=
       [bin_row 1 "BIN-001" "active" (deg 286139 10000) (deg 772090 10000) (Qc_of_Z 10);
        bin_row 2 "BIN-002" "active" (deg 286139 10000) (deg 772090 10000) (Qc_of_Z 10);
        bin_row 3 "BIN-003" "active" (deg 286139 10000) (deg 772090 10000) (Qc_of_Z 11)];
     sensor_logs_of := fun _ => None |}.

(** Three full bins in a row along a meridian, 4/111000 of a degree
    (4 m on the grid) from one to the next. *)
Definition in_a_row : Database :=
  {| bins_table :=
       [bin_row 1 "BIN-001" "active" (deg 11100 111000) (deg 772090 10000) (Qc_of_Z 95);
        bin_row 2 "BIN-002" "active" (deg 11104 111000) (deg 772090 10000) (Qc_of_Z 95);
        bin_row 3 "BIN-003" "active" (deg 11108 111000) (deg 772090 10000) (Qc_of_Z 95)];
     sensor_logs_of := fun _ => None |}.

(** The stops of the route through bins 3, 2 and 1 of the town, and a
    stop that stands for none. *)
Definition town_stops : list RouteOptimizer.RouteStop :=
  RouteOptimizer.bins
    (RouteOptimizer.optimize_route grid_distance town [3; 2; 1]%Z None).

Definition no_stop : RouteOptimizer.RouteStop :=
  RouteOptimizer.route_stop 0 (RouteOptimizer.mkRouteBin 0 "" "" 0 0 0 0) 0.

(** The zone queries on the town: every bin is in the zone North. *)
Definition town_zones : RouteOptimizer.ZoneAnswers :=
  {| RouteOptimizer.zone_bins_of := fun zone max_bins =>
       if String.eqb zone "North"
       then Some (firstn (Z.to_nat max_bins)
                    (filter (fun row => String.eqb (row_status row) "active")
                       (bins_table town)))
       else Some [];
     RouteOptimizer.active_zones := Some ["North"%string; "South"%string] |}.

(** A generator that draws one half every time. *)
Definition steady : Simulator.Rng :=
  {| Simulator.source := fun _ => Q2Qc (1 # 2); Simulator.used := 0 |}.

(** The tables of the simulator with two bins, the second out of
    service, and nothing logged yet. *)
Definition depot : Simulator.Store :=
  {| Simulator.bins :=
       [{| Simulator.bin :=
             bin_row 1 "BIN-001" "active" (deg 286139 10000) (deg 772090 10000)
               (Qc_of_Z 50);
           Simulator.bin_type := "general";
           Simulator.capacity := Qc_of_Z 120 |};
        {| Simulator.bin :=
             bin_row 4 "BIN-004" "maintenance" (deg 286400 10000) (deg 772300 10000)
               (Qc_of_Z 75);
           Simulator.bin_type := "organic";
           Simulator.capacity := Qc_of_Z 240 |}];
     Simulator.sensor_logs := [];
     Simulator.alerts := [];
     Simulator.collection_logs := [] |}.

End Samples.

(** ** Sample data on floats *)

Module Samples64.
Import Binary64.

(** The planar stand-in for the distance, on floats. *)
Definition grid_distance (lat1 lon1 lat2 lon2 : float) : float :=
  PrimFloat.mul (float_of_Z 111)
    (PrimFloat.add (PrimFloat.abs (PrimFloat.sub lat2 lat1))
       (PrimFloat.abs (PrimFloat.sub lon2 lon1))).

(** The builtin [sum] up to CPython 3.11. *)
Definition plain_sum (l : list float) : float :=
  fold_left PrimFloat.add l (float_of_Z 0).

End Samples64.

(** * Properties *)

(** ** Numbers *)

Lemma Qcleb_le (x y : Qc) : Qcleb x y = true <-> x <= y.
Proof. unfold Qcleb, Qcle. apply Qle_bool_iff. Qed.

Lemma Qcleb_gt (x y : Qc) : Qcleb x y = false <-> y < x.
Proof.
  rewrite <- not_true_iff_false, Qcleb_le. split.
  - apply Qcnot_le_lt.
  - intros H H'. exact (Qclt_not_le _ _ H H').
Qed.

Lemma Qcltb_lt (x y : Qc) : Qcltb x y = true <-> x < y.
Proof. unfold Qcltb. rewrite negb_true_iff. apply Qcleb_gt. Qed.

Lemma Qcltb_ge (x y : Qc) : Qcltb x y = false <-> y <= x.
Proof. unfold Qcltb. rewrite negb_false_iff. apply Qcleb_le. Qed.

Lemma Qceqb_eq (x y : Qc) : Qceqb x y = true <-> x = y.
Proof.
  unfold Qceqb. rewrite Qeq_bool_iff. split.
  - apply Qc_is_canon.
  - intros ->. reflexivity.
Qed.

Lemma Qceqb_neq (x y : Qc) : Qceqb x y = false <-> x <> y.
Proof. rewrite <- not_true_iff_false, Qceqb_eq. reflexivity. Qed.

Lemma this_plus (x y : Qc) : (this (x + y) == this x + this y)%Q.
Proof. unfold Qcplus, Q2Qc; cbn [this]. apply Qred_correct. Qed.

Lemma this_mult (x y : Qc) : (this (x * y) == this x * this y)%Q.
Proof. unfold Qcmult, Q2Qc; cbn [this]. apply Qred_correct. Qed.

Lemma this_opp (x : Qc) : (this (- x) == - this x)%Q.
Proof. unfold Qcopp, Q2Qc; cbn [this]. apply Qred_correct. Qed.

Lemma this_minus (x y : Qc) : (this (x - y) == this x - this y)%Q.
Proof. unfold Qcminus. rewrite this_plus, this_opp. reflexivity. Qed.

Lemma this_of_Z (z : Z) : (this (Qc_of_Z z) == inject_Z z)%Q.
Proof. unfold Qc_of_Z, Q2Qc; cbn [this]. apply Qred_correct. Qed.

(** Orders on [Qc] read as orders on [Q], where [lra] decides them. *)
Ltac qc_to_q :=
  unfold Qcle, Qclt in *;
  repeat (rewrite ?this_plus, ?this_mult, ?this_opp, ?this_minus, ?this_of_Z in * );
  change (this 0) with 0%Q in *;
  change (this 1) with 1%Q in *;
  unfold inject_Z in *.

(** A closed equation between two numbers, by evaluation. *)
Ltac qc_eval := apply Qc_is_canon; vm_compute; reflexivity.

Lemma Qcsum_from (l : list Qc) (a : Qc) : fold_left Qcplus l a = a + Qcsum l.
Proof.
  unfold Qcsum. revert a. induction l as [|x l IH]; intros a; cbn [fold_left].
  - ring.
  - rewrite (IH (a + x)), (IH (0 + x)). ring.
Qed.

Lemma Qcsum_cons (x : Qc) (l : list Qc) : Qcsum (x :: l) = x + Qcsum l.
Proof. unfold Qcsum at 1. cbn [fold_left]. rewrite Qcsum_from. ring. Qed.

Lemma Qcsum_app (l l' : list Qc) : Qcsum (l ++ l') = Qcsum l + Qcsum l'.
Proof.
  induction l as [|x l IH]; cbn [app].
  - change (Qcsum []) with 0. ring.
  - rewrite !Qcsum_cons, IH. ring.
Qed.

Lemma Qc_square_nonneg (x : Qc) : 0 <= x * x.
Proof.
  destruct (Qclt_le_dec x 0) as [H|H].
  - replace (x * x) with ((- x) * (- x)) by ring.
    assert (H' : 0 <= - x) by (qc_to_q; lra).
    replace 0 with (0 * - x) by ring.
    apply Qcmult_le_compat_r; assumption.
  - replace 0 with (0 * x) by ring.
    apply Qcmult_le_compat_r; assumption.
Qed.

Lemma Qc_of_nat_neq_0 (n : nat) : n <> O -> Qc_of_nat n <> 0.
Proof.
  intros Hn H. apply Hn. unfold Qc_of_nat, Qc_of_Z in H.
  apply Q2Qc_eq_iff in H. unfold Qeq in H. cbn in H. lia.
Qed.

Lemma Qc_of_nat_nonneg (n : nat) : 0 <= Qc_of_nat n.
Proof.
  unfold Qc_of_nat. qc_to_q. unfold Qle. cbn. lia.
Qed.

Section Sums.
Context {A : Type}.
Implicit Types (f g : A -> Qc) (l : list A).

Lemma Qcsum_map_ext f g l :
  (forall p, In p l -> f p = g p) -> Qcsum (map f l) = Qcsum (map g l).
Proof.
  induction l as [|x l IH]; intros H; [reflexivity|].
  cbn [map]. rewrite !Qcsum_cons, (H x), IH; auto using in_eq, in_cons.
Qed.

Lemma Qcsum_map_plus f g l :
  Qcsum (map (fun p => f p + g p) l) = Qcsum (map f l) + Qcsum (map g l).
Proof.
  induction l as [|x l IH]; cbn [map]; [reflexivity|].
  rewrite !Qcsum_cons, IH. ring.
Qed.

Lemma Qcsum_map_scal (c : Qc) f l :
  Qcsum (map (fun p => c * f p) l) = c * Qcsum (map f l).
Proof.
  induction l as [|x l IH]; cbn [map].
  - change (Qcsum []) with 0. ring.
  - rewrite !Qcsum_cons, IH. ring.
Qed.

Lemma Qcsum_map_const (c : Qc) l :
  Qcsum (map (fun _ => c) l) = Qc_of_nat (length l) * c.
Proof.
  induction l as [|x l IH]; cbn [map length].
  - change (Qcsum []) with 0. change (Qc_of_nat 0) with 0. ring.
  - rewrite Qcsum_cons, IH.
    replace (Qc_of_nat (S (length l))) with (1 + Qc_of_nat (length l)); [ring|].
    apply Qc_is_canon. unfold Qc_of_nat. qc_to_q.
    rewrite Nat2Z.inj_succ. unfold Qeq, Qplus. cbn [Qnum Qden]. lia.
Qed.

Lemma Qcsum_map_nonneg f l : (forall p, 0 <= f p) -> 0 <= Qcsum (map f l).
Proof.
  intros H. induction l as [|x l IH]; cbn [map]; [discriminate|].
  rewrite Qcsum_cons. specialize (H x). qc_to_q. lra.
Qed.

Lemma Qcsum_squares_0 f l :
  Qcsum (map (fun p => f p * f p) l) = 0 -> forall p, In p l -> f p = 0.
Proof.
  induction l as [|x l IH]; intros H p Hp; [destruct Hp|].
  cbn [map] in H. rewrite Qcsum_cons in H.
  assert (Hx := Qc_square_nonneg (f x)).
  assert (Hl := Qcsum_map_nonneg (fun p => f p * f p) l (fun p => Qc_square_nonneg (f p))).
  assert (Hx0 : f x * f x = 0).
  { apply Qcle_antisym; [|exact Hx]. rewrite <- H. qc_to_q. lra. }
  destruct Hp as [<-|Hp].
  - destruct (Qcmult_integral _ _ Hx0); assumption.
  - apply IH; [|exact Hp]. rewrite Hx0 in H. rewrite <- H. ring.
Qed.
End Sums.

(** ** [list.sort] *)

Lemma filter_head_split {A : Type} (P : A -> bool) (l : list A) (h : A) (t : list A) :
  filter P l = h :: t ->
  exists l1 l2, l = l1 ++ h :: l2 /\ (forall z, In z l1 -> P z = false).
Proof.
  induction l as [|x l IH]; cbn [filter]; [discriminate|].
  destruct (P x) eqn:Px.
  - intros [= -> _]. exists [], l. split; [reflexivity | intros z []].
  - intros H. destruct (IH H) as (l1 & l2 & -> & Hl1).
    exists (x :: l1), l2. split; [reflexivity|].
    intros z [<-|Hz]; auto.
Qed.

Section ListSortFacts.
Context {A K : Type} (key : A -> K) (klt : K -> K -> bool).

(** The order of the sort is a strict weak order on the keys. *)
Hypothesis klt_irrefl : forall k, klt k k = false.
Hypothesis klt_asym : forall j k, klt j k = true -> klt k j = false.
Hypothesis klt_negtrans :
  forall i j k, klt j i = false -> klt k j = false -> klt k i = false.

Local Abbreviation lt := (fun a b : A => klt (key a) (key b)).
(** [a] may stand before [b]: [b] is not below [a]. *)
Local Abbreviation may_precede := (fun a b : A => klt (key b) (key a) = false).

Lemma insert_sorted_perm (x : A) (l : list A) :
  Permutation (x :: l) (insert_sorted lt x l).
Proof.
  induction l as [|y l IH]; cbn [insert_sorted]; [reflexivity|].
  destruct (klt (key y) (key x)); [|reflexivity].
  rewrite perm_swap. apply perm_skip. exact IH.
Qed.

Lemma list_sort_perm (l : list A) : Permutation l (list_sort lt l).
Proof.
  induction l as [|x l IH]; cbn [list_sort]; [reflexivity|].
  rewrite <- insert_sorted_perm. apply perm_skip. exact IH.
Qed.

Lemma insert_sorted_sorted (x : A) (l : list A) :
  StronglySorted may_precede l -> StronglySorted may_precede (insert_sorted lt x l).
Proof.
  induction 1 as [|y l Hl IH Hy]; cbn [insert_sorted].
  - constructor; constructor.
  - destruct (klt (key y) (key x)) eqn:E.
    + constructor; [exact IH|].
      apply (Permutation_Forall (insert_sorted_perm x l)).
      constructor; [apply klt_asym; exact E | exact Hy].
    + constructor; [constructor; assumption|].
      constructor; [exact E|].
      eapply Forall_impl; [|exact Hy]. cbv beta. intros z Hz.
      apply klt_negtrans with (key y); assumption.
Qed.

Lemma list_sort_sorted (l : list A) : StronglySorted may_precede (list_sort lt l).
Proof.
  induction l as [|x l IH]; cbn [list_sort]; [constructor|].
  apply insert_sorted_sorted. exact IH.
Qed.

(** Elements with one key keep their order. *)
Lemma insert_sorted_filter (P : A -> bool) (x : A) (l : list A) :
  (forall a b, P a = true -> P b = true -> key a = key b) ->
  filter P (insert_sorted lt x l) = filter P (x :: l).
Proof.
  intros HP. induction l as [|y l IH]; cbn [insert_sorted]; [reflexivity|].
  destruct (klt (key y) (key x)) eqn:E; [|reflexivity].
  cbn [filter] in *. rewrite IH.
  destruct (P y) eqn:Py, (P x) eqn:Px; try reflexivity.
  rewrite (HP y x Py Px), klt_irrefl in E. discriminate.
Qed.

Lemma list_sort_filter (P : A -> bool) (l : list A) :
  (forall a b, P a = true -> P b = true -> key a = key b) ->
  filter P (list_sort lt l) = filter P l.
Proof.
  intros HP. induction l as [|x l IH]; cbn [list_sort]; [reflexivity|].
  rewrite insert_sorted_filter by exact HP. cbn [filter]. rewrite IH. reflexivity.
Qed.

(** The head of the sorted list: nothing is below it, and it is the first
    element of the input with its key. *)
Lemma list_sort_head (keqb : K -> K -> bool) (l : list A) (h : A) (t : list A) :
  (forall j k, keqb j k = true <-> j = k) ->
  list_sort lt l = h :: t ->
  (forall z, In z l -> klt (key z) (key h) = false)
  /\ exists l1 l2, l = l1 ++ h :: l2 /\ (forall z, In z l1 -> key z <> key h).
Proof.
  intros Heqb Hs. split.
  - intros z Hz.
    assert (Hz' : In z (h :: t)).
    { rewrite <- Hs. apply (Permutation_in z (list_sort_perm l)). exact Hz. }
    destruct Hz' as [<-|Hz']; [apply klt_irrefl|].
    assert (S := list_sort_sorted l). rewrite Hs in S.
    apply StronglySorted_inv in S. destruct S as [_ S].
    rewrite Forall_forall in S. exact (S z Hz').
  - assert (F := list_sort_filter (fun a => keqb (key a) (key h)) l).
    rewrite Hs in F. cbn [filter] in F.
    rewrite (proj2 (Heqb (key h) (key h)) eq_refl) in F.
    symmetry in F. apply filter_head_split in F.
    + destruct F as (l1 & l2 & E & Hl1). exists l1, l2. split; [exact E|].
      intros z Hz Hk. specialize (Hl1 z Hz). cbv beta in Hl1.
      rewrite (proj2 (Heqb _ _) Hk) in Hl1. discriminate.
    + intros a b Ha Hb. apply Heqb in Ha, Hb. congruence.
Qed.
End ListSortFacts.

(** ** predictor.py *)

Module PredictorFacts.
Import Predictor.

(** *** The fitted coefficient is a least-squares slope

    This part is about [LinearRegression_coef] as it is written here, in
    exact arithmetic.  The library computes the same slope in binary
    floating point, so that its result can differ from this one in the
    last digits; nothing below is used for a statement about the value
    that [get_fill_rate] returns from a fit. *)

Section LeastSquares.
Variable pts : list (Qc * Qc).
Hypothesis pts_nonempty : pts <> [].

Let n : Qc := Qc_of_nat (length pts).
Let xm : Qc := Qcsum (map fst pts) / n.
Let ym : Qc := Qcsum (map snd pts) / n.
Let u (p : Qc * Qc) : Qc := fst p - xm.
Let v (p : Qc * Qc) : Qc := snd p - ym.
Let sxx : Qc := Qcsum (map (fun p => u p * u p) pts).
Let sxy : Qc := Qcsum (map (fun p => u p * v p) pts).
Let syy : Qc := Qcsum (map (fun p => v p * v p) pts).

Let n_neq_0 : n <> 0.
Proof.
  apply Qc_of_nat_neq_0. destruct pts; [contradiction | discriminate].
Qed.

Lemma sum_centred (f : Qc * Qc -> Qc) :
  Qcsum (map (fun p => f p - Qcsum (map f pts) / n) pts) = 0.
Proof.
  unfold Qcminus. rewrite Qcsum_map_plus, Qcsum_map_const. fold n.
  field. exact n_neq_0.
Qed.

Lemma squared_error_centred (a b : Qc) :
  squared_error pts a b
  = syy - (1 + 1) * b * sxy + b * b * sxx
    + n * ((ym - a - b * xm) * (ym - a - b * xm)).
Proof.
  set (c := ym - a - b * xm).
  assert (Hu : Qcsum (map u pts) = 0) by apply (sum_centred fst).
  assert (Hv : Qcsum (map v pts) = 0) by apply (sum_centred snd).
  unfold squared_error.
  rewrite (Qcsum_map_ext _
    (fun p => (v p * v p + (- ((1 + 1) * b)) * (u p * v p))
              + ((b * b) * (u p * u p) + ((1 + 1) * c) * v p)
              + ((- ((1 + 1) * c * b)) * u p + c * c))).
  - rewrite !Qcsum_map_plus, !Qcsum_map_scal, Qcsum_map_const.
    fold n sxx sxy syy. rewrite Hu, Hv. ring.
  - intros p _. unfold u, v, c. ring.
Qed.

Lemma no_spread_no_covariance : sxx = 0 -> sxy = 0.
Proof.
  intros H. unfold sxy.
  rewrite (Qcsum_map_ext _ (fun _ => 0)).
  - rewrite Qcsum_map_const. ring.
  - intros p Hp. rewrite (Qcsum_squares_0 u pts H p Hp). ring.
Qed.

(** The line through the point of the means with slope [sxy / sxx], or
    any slope when the hours have no spread, has the least squared
    error. *)
Lemma centred_fit_least (b : Qc) :
  b * sxx = sxy ->
  forall a' b', squared_error pts (ym - b * xm) b <= squared_error pts a' b'.
Proof.
  intros Hb a' b'. rewrite !squared_error_centred, <- Hb.
  set (c := ym - a' - b' * xm).
  replace (ym - (ym - b * xm) - b * xm) with 0 by ring.
  apply Qcle_minus_iff.
  match goal with |- 0 <= ?e =>
    replace e with (sxx * ((b' - b) * (b' - b)) + n * (c * c)) by ring
  end.
  assert (H1 : 0 <= sxx)
    by (apply (Qcsum_map_nonneg (fun p => u p * u p)); intros; apply Qc_square_nonneg).
  assert (H2 := Qc_square_nonneg (b' - b)).
  assert (H3 := Qc_square_nonneg c).
  assert (H4 : 0 <= n) by apply Qc_of_nat_nonneg.
  assert (H5 : 0 <= sxx * ((b' - b) * (b' - b))).
  { replace 0 with (0 * ((b' - b) * (b' - b))) by ring.
    apply Qcmult_le_compat_r; assumption. }
  assert (H6 : 0 <= n * (c * c)).
  { replace 0 with (0 * (c * c)) by ring.
    apply Qcmult_le_compat_r; assumption. }
  clear - H5 H6. revert H5 H6.
  generalize (sxx * ((b' - b) * (b' - b))) (n * (c * c)). intros s t Hs Ht.
  qc_to_q. lra.
Qed.

Lemma centred_slope_least_squares :
  least_squares_slope pts (if Qceqb sxx 0 then 0 else sxy / sxx).
Proof.
  destruct (Qceqb sxx 0) eqn:E.
  - apply Qceqb_eq in E. exists (ym - 0 * xm). apply centred_fit_least.
    rewrite (no_spread_no_covariance E). ring.
  - apply Qceqb_neq in E. exists (ym - sxy / sxx * xm). apply centred_fit_least.
    field. exact E.
Qed.
End LeastSquares.

Lemma combine_map_same {A B C : Type} (f : A -> B) (g : A -> C) (l : list A) :
  combine (map f l) (map g l) = map (fun x => (f x, g x)) l.
Proof. induction l as [|x l IH]; cbn; [reflexivity | rewrite IH; reflexivity]. Qed.

Lemma map_fst_combine_same {A B : Type} (X : list A) (y : list B) :
  length X = length y -> map fst (combine X y) = X.
Proof.
  revert y. induction X as [|x X IH]; intros [|y0 y] H; try discriminate; cbn.
  - reflexivity.
  - rewrite IH; [reflexivity | cbn in H; lia].
Qed.

Lemma map_snd_combine_same {A B : Type} (X : list A) (y : list B) :
  length X = length y -> map snd (combine X y) = y.
Proof.
  revert y. induction X as [|x X IH]; intros [|y0 y] H; try discriminate; cbn.
  - reflexivity.
  - rewrite IH; [reflexivity | cbn in H; lia].
Qed.

Lemma LinearRegression_coef_least_squares (X y : list Qc) (b : Qc) :
  LinearRegression_coef X y = Some b -> least_squares_slope (combine X y) b.
Proof.
  unfold LinearRegression_coef.
  destruct (Nat.eqb (length X) 0) eqn:E0; [discriminate|].
  destruct (Nat.eqb (length X) (length y)) eqn:E1; [|discriminate].
  apply Nat.eqb_neq in E0. apply Nat.eqb_eq in E1. cbn [orb negb].
  assert (Hne : combine X y <> []).
  { destruct X, y; cbn in *; try discriminate; congruence. }
  assert (H := centred_slope_least_squares (combine X y) Hne).
  rewrite length_combine, <- E1, Nat.min_id in H.
  rewrite (map_fst_combine_same X y E1), (map_snd_combine_same X y E1) in H.
  unfold mean. rewrite <- E1.
  replace (Qcsum (map (fun x => (x - Qcsum X / Qc_of_nat (length X))
                                * (x - Qcsum X / Qc_of_nat (length X))) X))
    with (Qcsum (map (fun p : Qc * Qc =>
                        (fst p - Qcsum X / Qc_of_nat (length X))
                        * (fst p - Qcsum X / Qc_of_nat (length X))) (combine X y))).
  - intros Hb. destruct (Qceqb _ 0); injection Hb as <-; exact H.
  - rewrite <- (map_map fst (fun x => (x - Qcsum X / Qc_of_nat (length X))
                                       * (x - Qcsum X / Qc_of_nat (length X)))).
    rewrite (map_fst_combine_same X y E1). reflexivity.
Qed.

Lemma fitted_slope_least_squares (logs : list SensorLog) (b : Qc) :
  fitted_slope logs = Some b -> least_squares_slope (points logs) b.
Proof.
  destruct logs as [|log0 logs]; [discriminate|].
  unfold fitted_slope, points. intros H.
  apply LinearRegression_coef_least_squares in H.
  rewrite combine_map_same in H. exact H.
Qed.

Lemma fitted_slope_defined (logs : list SensorLog) :
  logs <> [] -> exists b, fitted_slope logs = Some b.
Proof.
  destruct logs as [|log0 logs]; [contradiction|]. intros _.
  unfold fitted_slope, LinearRegression_coef.
  rewrite !length_map, Nat.eqb_refl. cbn [length Nat.eqb orb negb].
  destruct (Qceqb _ 0); eauto.
Qed.

(** *** The order of the final sort *)

Lemma key_lt_irrefl (k : Z * Qc) : key_lt k k = false.
Proof.
  unfold key_lt. rewrite Z.eqb_refl. apply Qcltb_ge. apply Qcle_refl.
Qed.

Lemma key_lt_asym (j k : Z * Qc) : key_lt j k = true -> key_lt k j = false.
Proof.
  unfold key_lt. rewrite (Z.eqb_sym (fst k)).
  destruct (Z.eqb_spec (fst j) (fst k)) as [E|E].
  - intros H. apply Qcltb_lt in H. apply Qcltb_ge. apply Qclt_le_weak. exact H.
  - intros H. apply Z.ltb_lt in H. apply Z.ltb_ge. lia.
Qed.

Lemma key_lt_negtrans (i j k : Z * Qc) :
  key_lt j i = false -> key_lt k j = false -> key_lt k i = false.
Proof.
  unfold key_lt.
  destruct (Z.eqb_spec (fst j) (fst i)) as [E1|E1];
    destruct (Z.eqb_spec (fst k) (fst j)) as [E2|E2];
    destruct (Z.eqb_spec (fst k) (fst i)) as [E3|E3];
    rewrite ?Qcltb_ge, ?Z.ltb_ge; intros H1 H2; try lia.
  eapply Qcle_trans; eassumption.
Qed.

Lemma key_lt_ranked_before (a b : Prediction) :
  key_lt (sort_key b) (sort_key a) = false <-> ranked_before a b.
Proof.
  unfold key_lt, sort_key, ranked_before. cbn [fst snd].
  destruct (Z.eqb_spec (priority_order (priority b)) (priority_order (priority a))) as [E|E].
  - rewrite Qcltb_ge. split.
    + intros H. right. split; [congruence|].
      apply Qcopp_le_compat in H. rewrite !Qcopp_involutive in H. exact H.
    + intros [H|[_ H]]; [lia|]. apply Qcopp_le_compat. exact H.
  - rewrite Z.ltb_ge. split.
    + intros H. left. lia.
    + intros [H|[H _]]; lia.
Qed.

Lemma StronglySorted_impl {A : Type} (R R' : A -> A -> Prop) (l : list A) :
  (forall a b, R a b -> R' a b) -> StronglySorted R l -> StronglySorted R' l.
Proof.
  intros HR. induction 1 as [|x l Hl IH Hx]; constructor.
  - exact IH.
  - eapply Forall_impl; [|exact Hx]. apply HR.
Qed.

Lemma collect_predictions_In (db : Database) (th : Qc) (rows : list BinRow) (p : Prediction) :
  In p (collect_predictions db th rows)
  <-> exists row, In row rows /\ predict_bin db th row = Some p.
Proof.
  induction rows as [|r rows IH]; cbn [collect_predictions].
  - split; [intros [] | intros (row & [] & _)].
  - destruct (predict_bin db th r) as [q|] eqn:E.
    + cbn [In]. rewrite IH. split.
      * intros [<-|(row & Hr & Hp)]; [exists r | exists row]; cbn [In]; auto.
      * intros (row & [<-|Hr] & Hp); [left; congruence | right; eauto].
    + rewrite IH. split.
      * intros (row & Hr & Hp). exists row. cbn [In]. auto.
      * intros (row & [<-|Hr] & Hp); [congruence | eauto].
Qed.

(** The loop produces the predictions in the order of the bins. *)
Lemma collect_predictions_order (db : Database) (th : Qc) (rows : list BinRow) :
  map bin_id (collect_predictions db th rows)
  = map row_bin_id
      (filter (fun row => match predict_bin db th row with
                          | Some _ => true
                          | None => false
                          end) rows).
Proof.
  induction rows as [|r rows IH]; cbn [collect_predictions filter]; [reflexivity|].
  destruct (predict_bin db th r) as [p|] eqn:E; [|exact IH].
  cbn [map]. rewrite IH. f_equal.
  unfold predict_bin in E.
  destruct (negb _) in E; [discriminate|].
  destruct (orb _ _) in E; [|discriminate].
  injection E as <-. reflexivity.
Qed.

Lemma predictions_perm (db : Database) (th : Qc) :
  Permutation (collect_predictions db th (get_all_bins db))
              (predict_bins_needing_collection db th).
Proof.
  unfold predict_bins_needing_collection.
  apply (list_sort_perm sort_key key_lt).
Qed.

Lemma bound_fill_rate_range (b : Qc) :
  0 < bound_fill_rate b /\ bound_fill_rate b <= Qc_of_Z 10.
Proof.
  unfold bound_fill_rate.
  destruct (Qcleb b 0) eqn:H0.
  - split; [reflexivity | discriminate].
  - destruct (Qcltb (Qc_of_Z 10) b) eqn:H10.
    + split; [reflexivity | discriminate].
    + apply Qcleb_gt in H0. apply Qcltb_ge in H10. split; assumption.
Qed.

Lemma estimate_range (logs : option (list SensorLog)) :
  0 < estimate logs /\ estimate logs <= Qc_of_Z 10.
Proof.
  assert (D : 0 < Qc_of_Z 2 /\ Qc_of_Z 2 <= Qc_of_Z 10)
    by (split; [reflexivity | discriminate]).
  unfold estimate. destruct logs as [logs|]; [|exact D].
  destruct (length logs <? 2)%nat; [exact D|].
  destruct (fitted_slope logs) as [b|]; [apply bound_fill_rate_range | exact D].
Qed.





(** C5.  With fewer than two readings the estimate is the default 2; the
    fit is not attempted, so nothing can be raised. *)
Theorem get_fill_rate_insufficient_data (db : Database) (bin_id : Z) (logs : list SensorLog) :
  sensor_logs_of db bin_id = Some logs ->
  (length logs < 2)%nat ->
  get_fill_rate db bin_id = Qc_of_Z 2.
Proof.
  intros Hq Hlen. unfold get_fill_rate, estimate. rewrite Hq.
  apply Nat.ltb_lt in Hlen. rewrite Hlen. reflexivity.
Qed.

Lemma get_fill_rate_insufficient_data_witness :
  get_fill_rate (Samples.logs_only Samples.single_log) 1 = Qc_of_Z 2.
Proof.
  apply (get_fill_rate_insufficient_data
           (Samples.logs_only Samples.single_log) 1 Samples.single_log).
  - reflexivity.
  - cbn. lia.
Defined.

(** C6.  [predict_time_to_full] is 0 from level 100 on; below 100 it
    divides the remaining capacity by the fill rate, with 2 in place of
    a rate that is 0 or less. *)
Theorem predict_time_to_full_spec (bin_id : Z) (current_level fill_rate : Qc) :
  (Qc_of_Z 100 <= current_level ->
     predict_time_to_full bin_id current_level fill_rate = 0)
  /\ (current_level < Qc_of_Z 100 -> fill_rate <= 0 ->
        predict_time_to_full bin_id current_level fill_rate
        = (Qc_of_Z 100 - current_level) / Qc_of_Z 2)
  /\ (current_level < Qc_of_Z 100 -> 0 < fill_rate ->
        predict_time_to_full bin_id current_level fill_rate
        = (Qc_of_Z 100 - current_level) / fill_rate).
Proof.
  unfold predict_time_to_full. repeat split.
  - intros H. apply Qcleb_le in H. rewrite H. reflexivity.
  - intros H H'. apply Qcleb_gt in H. apply Qcleb_le in H'. rewrite H, H'. reflexivity.
  - intros H H'. apply Qcleb_gt in H. apply Qcleb_gt in H'. rewrite H, H'. reflexivity.
Qed.

Lemma predict_time_to_full_spec_witness :
  predict_time_to_full 1 (Qc_of_Z 100) (Qc_of_Z 3) = 0
  /\ predict_time_to_full 1 (Qc_of_Z 40) (Qc_of_Z (-1))
     = (Qc_of_Z 100 - Qc_of_Z 40) / Qc_of_Z 2
  /\ predict_time_to_full 1 (Qc_of_Z 40) (Qc_of_Z 3)
     = (Qc_of_Z 100 - Qc_of_Z 40) / Qc_of_Z 3.
Proof.
  split; [|split].
  - apply (proj1 (predict_time_to_full_spec 1 (Qc_of_Z 100) (Qc_of_Z 3))).
    discriminate.
  - apply (proj1 (proj2 (predict_time_to_full_spec 1 (Qc_of_Z 40) (Qc_of_Z (-1))))).
    + reflexivity.
    + discriminate.
  - apply (proj2 (proj2 (predict_time_to_full_spec 1 (Qc_of_Z 40) (Qc_of_Z 3)))).
    + reflexivity.
    + reflexivity.
Defined.

(** A full bin needs no time, whatever its fill rate. *)
Example time_to_full_at_100 (bin_id : Z) (fill_rate : Qc) :
  predict_time_to_full bin_id (Qc_of_Z 100) fill_rate = 0.
Proof. reflexivity. Qed.

(** At 40 % and 3 % an hour, 20 hours remain. *)
Example time_to_full_at_40 :
  predict_time_to_full 1 (Qc_of_Z 40) (Qc_of_Z 3) = Qc_of_Z 20.
Proof. qc_eval. Qed.

(** The estimate is not always a least-squares slope.  On a falling
    series, 20 % at hour 0 and 10 % at hour 1, the estimate is the
    default 2, which is not a least-squares slope: the line through the
    two points has slope -10 and squared error 0. *)
Lemma falling_series_estimate_not_slope :
  ~ least_squares_slope (points Samples.falling_logs)
      (get_fill_rate (Samples.logs_only Samples.falling_logs) 1).
Proof.
  intros [a H]. specialize (H (Qc_of_Z 20) (Qc_of_Z (-10))).
  replace (get_fill_rate (Samples.logs_only Samples.falling_logs) 1)
    with (Qc_of_Z 2) in H by qc_eval.
  replace (points Samples.falling_logs)
    with [(0, Qc_of_Z 20); (1, Qc_of_Z 10)] in H
    by (unfold points, Samples.falling_logs, Samples.reading;
        cbn [map log_timestamp log_waste_level]; repeat f_equal; qc_eval).
  unfold squared_error in H. cbn [map fst snd] in H.
  rewrite !Qcsum_cons in H. change (Qcsum []) with 0 in H.
  revert H. generalize (Qc_square_nonneg (a - Qc_of_Z 14)).
  qc_to_q. generalize (this a). intros q H0 H.
  setoid_replace ((20 - (q + 2 * 0)) * (20 - (q + 2 * 0))
                  + ((10 - (q + 2 * 1)) * (10 - (q + 2 * 1)) + 0))%Q
    with (2 * ((q - 14) * (q - 14)) + 72)%Q in H by ring.
  lra.
Qed.

(** *** Tiers, ranking and the collection set *)

(** The tier rules, first match first. *)
Lemma priority_of_first_match (level hours threshold_hours : Qc) :
  (Qc_of_Z 90 <= level -> priority_of level hours threshold_hours = critical)
  /\ (level < Qc_of_Z 90 -> Qc_of_Z 80 <= level ->
        priority_of level hours threshold_hours = high)
  /\ (level < Qc_of_Z 80 -> hours <= threshold_hours ->
        priority_of level hours threshold_hours = medium)
  /\ (level < Qc_of_Z 80 -> threshold_hours < hours ->
        priority_of level hours threshold_hours = low).
Proof.
  assert (H89 : level < Qc_of_Z 80 -> Qcleb (Qc_of_Z 90) level = false).
  { intros H. apply Qcleb_gt. eapply Qclt_trans; [exact H | reflexivity]. }
  unfold priority_of. repeat split.
  - intros H. apply Qcleb_le in H. rewrite H. reflexivity.
  - intros H H'. apply Qcleb_gt in H. apply Qcleb_le in H'. rewrite H, H'. reflexivity.
  - intros H H'. rewrite (H89 H).
    apply Qcleb_gt in H. apply Qcleb_le in H'. rewrite H, H'. reflexivity.
  - intros H H'. rewrite (H89 H).
    apply Qcleb_gt in H. apply Qcleb_gt in H'. rewrite H, H'. reflexivity.
Qed.

(** C7.  The tier computed for a bin is that of the first rule which its
    level and hours to full meet: level 90 or more, critical; else level
    80 or more, high; else hours to full within the threshold, medium;
    else low.  Every prediction returned comes from an active bin and
    carries the tier so computed from the level of the bin and its hours
    to full.  An active bin at level 95 is returned as critical whatever
    its sensor log says. *)
Theorem priority_tiers (db : Database) (threshold_hours : Qc) :
  (forall level hours,
     (Qc_of_Z 90 <= level -> priority_of level hours threshold_hours = critical)
     /\ (level < Qc_of_Z 90 -> Qc_of_Z 80 <= level ->
           priority_of level hours threshold_hours = high)
     /\ (level < Qc_of_Z 80 -> hours <= threshold_hours ->
           priority_of level hours threshold_hours = medium)
     /\ (level < Qc_of_Z 80 -> threshold_hours < hours ->
           priority_of level hours threshold_hours = low))
  /\ (forall p, In p (predict_bins_needing_collection db threshold_hours) ->
        exists row,
          In row (get_all_bins db)
          /\ row_status row = "active"%string
          /\ bin_id p = row_bin_id row
          /\ priority p
             = priority_of (row_waste_level row)
                 (predict_time_to_full (row_bin_id row) (row_waste_level row)
                    (get_fill_rate db (row_bin_id row)))
                 threshold_hours)
  /\ (forall row,
        In row (get_all_bins db) ->
        row_status row = "active"%string ->
        row_waste_level row = Qc_of_Z 95 ->
        exists p,
          In p (predict_bins_needing_collection db threshold_hours)
          /\ bin_id p = row_bin_id row
          /\ priority p = critical).
Proof.
  split; [intros level hours; apply priority_of_first_match|]. split.
  - intros p Hp.
    apply (Permutation_in p (Permutation_sym (predictions_perm db threshold_hours))) in Hp.
    apply collect_predictions_In in Hp. destruct Hp as (row & Hrow & Hpb).
    exists row. split; [exact Hrow|].
    unfold predict_bin in Hpb.
    destruct (String.eqb (row_status row) "active") eqn:Es; [|discriminate].
    cbn [negb] in Hpb.
    destruct (orb _ _) in Hpb; [|discriminate].
    injection Hpb as <-. cbn [bin_id priority].
    split; [apply String.eqb_eq; exact Es|]. split; reflexivity.
  - intros row Hrow Hs Hl.
    destruct (predict_bin db threshold_hours row) as [p|] eqn:Hpb.
    + exists p. split.
      * apply (Permutation_in p (predictions_perm db threshold_hours)).
        apply collect_predictions_In. eauto.
      * unfold predict_bin in Hpb. rewrite Hs, Hl in Hpb.
        cbn [String.eqb Ascii.eqb Bool.eqb negb] in Hpb.
        change (Qcleb (Qc_of_Z 70) (Qc_of_Z 95)) with true in Hpb.
        cbn [orb] in Hpb. injection Hpb as <-. split; reflexivity.
    + unfold predict_bin in Hpb. rewrite Hs, Hl in Hpb.
      cbn [String.eqb Ascii.eqb Bool.eqb negb] in Hpb.
      change (Qcleb (Qc_of_Z 70) (Qc_of_Z 95)) with true in Hpb.
      discriminate.
Qed.

Lemma priority_tiers_witness :
  exists p,
    In p (predict_bins_needing_collection Samples.town (Qc_of_Z 24))
    /\ bin_id p = 1%Z
    /\ priority p = critical.
Proof.
  apply (proj2 (proj2 (priority_tiers Samples.town (Qc_of_Z 24)))
           (Samples.bin_row 1 "BIN-001" "active"
              (Samples.deg 286139 10000) (Samples.deg 772090 10000) (Qc_of_Z 95))).
  - left. reflexivity.
  - reflexivity.
  - reflexivity.
Defined.

(** In the sample town the three active bins are returned, the one at
    95 % first, then the two at 85 % in the order of the table. *)
Example town_ranking :
  map (fun p => (bin_id p, priority p))
    (predict_bins_needing_collection Samples.town (Qc_of_Z 24))
  = [(1%Z, critical); (2%Z, high); (3%Z, high)].
Proof. vm_compute. reflexivity. Qed.

(** C8.  The returned list is the list of predictions in another order,
    sorted on (tier rank, minus level): ranks 0 to 3 for critical, high,
    medium and low, and the higher level first within a tier.  Any two
    predictions are comparable, and predictions with the same rank and
    level stand in the order in which the loop produced them. *)
Theorem predictions_sorted_stable (db : Database) (threshold_hours : Qc) :
  Permutation (collect_predictions db threshold_hours (get_all_bins db))
              (predict_bins_needing_collection db threshold_hours)
  /\ StronglySorted ranked_before (predict_bins_needing_collection db threshold_hours)
  /\ (forall a b, ranked_before a b \/ ranked_before b a)
  /\ (forall (rank : Z) (level : Qc),
        filter (fun p => Z.eqb (priority_order (priority p)) rank
                         && Qceqb (current_level p) level)
          (predict_bins_needing_collection db threshold_hours)
        = filter (fun p => Z.eqb (priority_order (priority p)) rank
                           && Qceqb (current_level p) level)
            (collect_predictions db threshold_hours (get_all_bins db)))
  /\ map bin_id (collect_predictions db threshold_hours (get_all_bins db))
     = map row_bin_id
         (filter (fun row => match predict_bin db threshold_hours row with
                             | Some _ => true
                             | None => false
                             end) (get_all_bins db))
  /\ (priority_order critical = 0 /\ priority_order high = 1
      /\ priority_order medium = 2 /\ priority_order low = 3)%Z.
Proof.
  split; [apply predictions_perm|]. split; [|split; [|split; [|split]]].
  - apply StronglySorted_impl with (R := fun a b => key_lt (sort_key b) (sort_key a) = false).
    + intros a b. apply key_lt_ranked_before.
    + apply (list_sort_sorted sort_key key_lt key_lt_asym key_lt_negtrans).
  - intros a b.
    destruct (key_lt (sort_key b) (sort_key a)) eqn:E.
    + right. apply key_lt_ranked_before. apply key_lt_asym. exact E.
    + left. apply key_lt_ranked_before. exact E.
  - intros rank level. unfold predict_bins_needing_collection.
    apply (list_sort_filter sort_key key_lt key_lt_irrefl).
    intros a b Ha Hb. apply andb_true_iff in Ha, Hb.
    destruct Ha as [Ha1 Ha2], Hb as [Hb1 Hb2].
    apply Z.eqb_eq in Ha1, Hb1. apply Qceqb_eq in Ha2, Hb2.
    unfold sort_key. congruence.
  - apply collect_predictions_order.
  - repeat split.
Qed.

Lemma slice_to_length {A : Type} (l : list A) (k : Z) :
  (0 <= k)%Z -> (Z.of_nat (length (slice_to l k)) <= k)%Z.
Proof.
  intros Hk. unfold slice_to.
  destruct (Z.leb_spec 0 k) as [_|H]; [|lia].
  rewrite length_firstn. lia.
Qed.

Lemma slice_to_prefix {A : Type} (l : list A) (k : Z) :
  exists rest, l = slice_to l k ++ rest.
Proof.
  unfold slice_to. destruct (0 <=? k)%Z.
  - exists (skipn (Z.to_nat k) l). symmetry. apply firstn_skipn.
  - exists (skipn (length l - Z.to_nat (- k)) l). symmetry. apply firstn_skipn.
Qed.

(** C10, as the code has it.  For a [max_bins] of 0 or more the result
    has at most [max_bins] entries.  For every [max_bins] each entry has
    [needs_collection] true, and the result is a prefix of the ranked
    predictions that need collection, so its entries stand in the order
    of [predict_bins_needing_collection]. *)
Theorem get_optimal_collection_bins_spec (db : Database) (max_bins : Z) :
  ((0 <= max_bins)%Z ->
     (Z.of_nat (length (get_optimal_collection_bins db max_bins)) <= max_bins)%Z)
  /\ (forall p, In p (get_optimal_collection_bins db max_bins) -> needs_collection p = true)
  /\ (exists rest,
        filter needs_collection (predict_bins_needing_collection db (Qc_of_Z 24))
        = get_optimal_collection_bins db max_bins ++ rest).
Proof.
  unfold get_optimal_collection_bins. split; [apply slice_to_length|].
  destruct (slice_to_prefix
              (filter needs_collection (predict_bins_needing_collection db (Qc_of_Z 24)))
              max_bins) as [rest Hrest].
  split; [|exists rest; exact Hrest].
  intros p Hp.
  assert (Hin : In p (filter needs_collection
                        (predict_bins_needing_collection db (Qc_of_Z 24)))).
  { rewrite Hrest. apply in_or_app. left. exact Hp. }
  apply filter_In in Hin. apply Hin.
Qed.

Lemma get_optimal_collection_bins_witness :
  (Z.of_nat (length (get_optimal_collection_bins Samples.town 2)) <= 2)%Z
  /\ map bin_id (get_optimal_collection_bins Samples.town 2) = [1; 2]%Z.
Proof.
  split.
  - apply (proj1 (get_optimal_collection_bins_spec Samples.town 2)). lia.
  - vm_compute. reflexivity.
Defined.

(** C10 as stated fails for a negative [max_bins]: [l[:-1]] drops the last
    entry only, and two entries (more than -1) are returned. *)
Lemma negative_max_bins_returns_entries :
  length (get_optimal_collection_bins Samples.town (-1)) = 2%nat
  /\ ~ (Z.of_nat (length (get_optimal_collection_bins Samples.town (-1))) <= -1)%Z.
Proof.
  assert (E : length (get_optimal_collection_bins Samples.town (-1)) = 2%nat)
    by (vm_compute; reflexivity).
  split; [exact E|]. rewrite E. lia.
Qed.

End PredictorFacts.

(** ** route_optimizer.py *)

Module RouteFacts.
Import RouteOptimizer.

Lemma RouteBin_eqb_eq (a b : RouteBin) : RouteBin_eqb a b = true <-> a = b.
Proof.
  unfold RouteBin_eqb.
  rewrite !andb_true_iff, !Z.eqb_eq, !String.eqb_eq, !Qceqb_eq.
  destruct a, b; cbn. split.
  - intros [[[[[[-> ->] ->] ->] ->] ->] ->]. reflexivity.
  - intros [= -> -> -> -> -> -> ->]. repeat split.
Qed.

Example priority_score_steps :
  map (fun level => get_bin_priority_score (Qc_of_Z level)) [95; 90; 85; 75; 65; 59]%Z
  = [100; 100; 80; 60; 40; 20]%Z.
Proof. reflexivity. Qed.

Section ListRemove.
Context {A : Type} (eqb : A -> A -> bool).
Hypothesis eqb_eq : forall a b, eqb a b = true <-> a = b.

Lemma list_remove_perm (x : A) (l : list A) :
  In x l -> Permutation l (x :: list_remove eqb x l).
Proof.
  induction l as [|y l IH]; intros H; [destruct H|].
  cbn [list_remove]. destruct (eqb y x) eqn:E.
  - apply eqb_eq in E. subst y. reflexivity.
  - destruct H as [->|H].
    + rewrite (proj2 (eqb_eq x x) eq_refl) in E. discriminate.
    + rewrite perm_swap. apply perm_skip. apply IH. exact H.
Qed.

Lemma list_remove_length (x : A) (l : list A) :
  In x l -> S (length (list_remove eqb x l)) = length l.
Proof.
  intros H. apply list_remove_perm in H. apply Permutation_length in H.
  cbn [length] in H. symmetry. exact H.
Qed.
End ListRemove.

Lemma py_round_0 (ndigits : nat) : py_round 0 ndigits = 0.
Proof.
  unfold py_round. apply Qc_is_canon. cbn [this Q2Qc].
  rewrite Qred_correct.
  generalize (10 ^ Z.of_nat ndigits)%Z. intros z.
  change (round_half_even (0%Qc * inject_Z z)) with 0%Z.
  unfold Qdiv. apply Qmult_0_l.
Qed.

Section RouteLoop.
Variable calculate_distance : Qc -> Qc -> Qc -> Qc -> Qc.

Local Abbreviation distance_to := (fun (lat lon : Qc) (b : RouteBin) =>
  calculate_distance lat lon (latitude b) (longitude b)).
Local Abbreviation score := (fun (lat lon : Qc) (b : RouteBin) =>
  Qc_of_Z (priority_score b)
  - calculate_distance lat lon (latitude b) (longitude b) * distance_weight).

(** *** The pass that selects the next stop *)

Lemma fold_consider_sound (lat lon : Qc) (l : list RouteBin)
    (acc : option (RouteBin * Qc * Qc)) (b : RouteBin) (s d : Qc) :
  fold_left (consider calculate_distance lat lon) l acc = Some (b, s, d) ->
  acc = Some (b, s, d)
  \/ (In b l /\ s = score lat lon b /\ d = distance_to lat lon b).
Proof.
  revert acc. induction l as [|x l IH]; intros acc H; cbn [fold_left] in H.
  - left. exact H.
  - destruct (IH _ H) as [E|(Hin & Hs & Hd)].
    + unfold consider in E. destruct acc as [[[b0 s0] d0]|].
      * destruct (Qcltb s0 _).
        -- injection E as <- <- <-. right. cbn [In]. auto.
        -- left. exact E.
      * injection E as <- <- <-. right. cbn [In]. auto.
    + right. cbn [In]. auto.
Qed.

Lemma fold_consider_some (lat lon : Qc) (l : list RouteBin) (r : RouteBin * Qc * Qc) :
  exists r', fold_left (consider calculate_distance lat lon) l (Some r) = Some r'.
Proof.
  revert r. induction l as [|x l IH]; intros r; cbn [fold_left]; [eauto|].
  unfold consider at 2. destruct r as [[b0 s0] d0].
  destruct (Qcltb s0 _); apply IH.
Qed.

(** A pool that is not empty always yields a best bin, which is in the
    pool; the distance kept with it is the distance to it. *)
Lemma select_best_nonempty (lat lon : Qc) (x : RouteBin) (rest : list RouteBin) :
  exists b s,
    select_best calculate_distance lat lon (x :: rest) = Some (b, s, distance_to lat lon b)
    /\ In b (x :: rest).
Proof.
  unfold select_best. cbn [fold_left]. unfold consider at 2.
  destruct (fold_consider_some lat lon rest
              (x, score lat lon x, distance_to lat lon x)) as [[[b s] d] E].
  assert (E' := E). apply fold_consider_sound in E'.
  exists b, s. rewrite E. destruct E' as [[= <- <- <-]|(Hin & _ & ->)].
  - split; [reflexivity | left; reflexivity].
  - split; [reflexivity | right; exact Hin].
Qed.

(** The head of the pool is selected when no later bin scores strictly
    more. *)
Lemma select_best_head (lat lon : Qc) (x : RouteBin) (rest : list RouteBin) :
  (forall z, In z rest -> score lat lon z <= score lat lon x) ->
  select_best calculate_distance lat lon (x :: rest)
  = Some (x, score lat lon x, distance_to lat lon x).
Proof.
  unfold select_best. cbn [fold_left]. unfold consider at 2.
  generalize (distance_to lat lon x). intros d.
  induction rest as [|y rest IH]; intros H; cbn [fold_left]; [reflexivity|].
  unfold consider at 2.
  assert (Hy : Qcltb (score lat lon x) (score lat lon y) = false)
    by (apply Qcltb_ge; apply H; left; reflexivity).
  rewrite Hy. apply IH. intros z Hz. apply H. right. exact Hz.
Qed.

(** *** The loop *)

(** A turn on a pool that is not empty moves one bin of the pool to the
    end of the route. *)
Lemma loop_body_turn (st : LoopState) (x : RouteBin) (rest : list RouteBin) :
  remaining_bins st = x :: rest ->
  exists best,
    In best (remaining_bins st)
    /\ loop_body calculate_distance st = {|
         optimized_route :=
           optimized_route st
           ++ [route_stop (length (optimized_route st) + 1) best
                 (distance_to (current_lat st) (current_lon st) best)];
         remaining_bins := list_remove RouteBin_eqb best (remaining_bins st);
         total_distance_acc :=
           total_distance_acc st + distance_to (current_lat st) (current_lon st) best;
         current_lat := latitude best;
         current_lon := longitude best
       |}.
Proof.
  intros E. unfold loop_body. rewrite E.
  destruct (select_best_nonempty (current_lat st) (current_lon st) x rest)
    as (best & s & Hs & Hin).
  rewrite Hs. exists best. split; [exact Hin | reflexivity].
Qed.

Lemma while_remaining_ind (P : LoopState -> Prop) :
  (forall st x rest, remaining_bins st = x :: rest -> P st ->
     P (loop_body calculate_distance st)) ->
  forall fuel st, P st -> P (while_remaining calculate_distance fuel st).
Proof.
  intros Hstep. induction fuel as [|fuel IH]; intros st H; cbn [while_remaining].
  - exact H.
  - destruct (remaining_bins st) as [|x rest] eqn:E; [exact H|].
    apply IH. eapply Hstep; eassumption.
Qed.

(** The loop ends: with one unit of fuel for each bin of the pool, the
    pool is empty when [while_remaining] returns. *)
Lemma while_remaining_exhausts (fuel : nat) (st : LoopState) :
  (length (remaining_bins st) <= fuel)%nat ->
  remaining_bins (while_remaining calculate_distance fuel st) = [].
Proof.
  revert st. induction fuel as [|fuel IH]; intros st H; cbn [while_remaining].
  - destruct (remaining_bins st); [reflexivity | cbn in H; lia].
  - destruct (remaining_bins st) as [|x rest] eqn:E; [exact E|].
    apply IH. destruct (loop_body_turn st x rest E) as (best & Hin & ->).
    cbn [remaining_bins].
    assert (L := list_remove_length RouteBin_eqb RouteBin_eqb_eq best _ Hin).
    rewrite E in L. cbn [length] in H, L. rewrite E. lia.
Qed.

Lemma stop_fields_route_stop (n : nat) (b : RouteBin) (d : Qc) :
  stop_fields (route_stop n b d) = bin_fields b.
Proof. reflexivity. Qed.

(** Stops and pool together always hold the same bins. *)
Lemma while_remaining_perm (fuel : nat) (st : LoopState) :
  Permutation
    (map stop_fields (optimized_route st) ++ map bin_fields (remaining_bins st))
    (map stop_fields (optimized_route (while_remaining calculate_distance fuel st))
     ++ map bin_fields (remaining_bins (while_remaining calculate_distance fuel st))).
Proof.
  apply (while_remaining_ind (fun st' =>
    Permutation
      (map stop_fields (optimized_route st) ++ map bin_fields (remaining_bins st))
      (map stop_fields (optimized_route st') ++ map bin_fields (remaining_bins st'))));
    [|reflexivity].
  intros st' x rest E H. rewrite H.
  destruct (loop_body_turn st' x rest E) as (best & Hin & ->).
  cbn [optimized_route remaining_bins].
  rewrite map_app. cbn [map]. rewrite stop_fields_route_stop, <- app_assoc.
  apply Permutation_app_head. cbn [app].
  change (bin_fields best :: map bin_fields (list_remove RouteBin_eqb best (remaining_bins st')))
    with (map bin_fields (best :: list_remove RouteBin_eqb best (remaining_bins st'))).
  apply Permutation_map. apply list_remove_perm; [exact RouteBin_eqb_eq | exact Hin].
Qed.

(** The route only grows. *)
Lemma while_remaining_extends (fuel : nat) (st : LoopState) :
  exists rest,
    optimized_route (while_remaining calculate_distance fuel st)
    = optimized_route st ++ rest.
Proof.
  apply (while_remaining_ind (fun st' =>
    exists rest, optimized_route st' = optimized_route st ++ rest)).
  - intros st' x rest E [r Hr].
    destruct (loop_body_turn st' x rest E) as (best & _ & ->).
    cbn [optimized_route]. rewrite Hr, <- app_assoc. eauto.
  - exists []. symmetry. apply app_nil_r.
Qed.

Lemma last_position_snoc (lat lon : Qc) (route : list RouteStop) (stop : RouteStop) :
  last_position lat lon (route ++ [stop]) = (stop_latitude stop, stop_longitude stop).
Proof. unfold last_position. rewrite fold_left_app. reflexivity. Qed.

Lemma hop_distances_snoc (lat lon : Qc) (route : list RouteStop) (stop : RouteStop) :
  hop_distances calculate_distance lat lon (route ++ [stop])
  = hop_distances calculate_distance lat lon route
    ++ [calculate_distance (fst (last_position lat lon route))
          (snd (last_position lat lon route))
          (stop_latitude stop) (stop_longitude stop)].
Proof.
  revert lat lon. induction route as [|s route IH]; intros lat lon.
  - reflexivity.
  - cbn [app hop_distances]. rewrite IH. reflexivity.
Qed.

(** What the loop keeps true of the legs of the route that starts at
    [(lat0, lon0)]: the running total is their sum, each stop reports its
    leg rounded to two digits, the current position is the last stop, and
    the stops are numbered from 1. *)
Local Abbreviation legs_kept := (fun (lat0 lon0 : Qc) (st : LoopState) =>
  total_distance_acc st
  = Qcsum (hop_distances calculate_distance lat0 lon0 (optimized_route st))
  /\ map distance_from_previous (optimized_route st)
     = map (fun d => py_round d 2)
         (hop_distances calculate_distance lat0 lon0 (optimized_route st))
  /\ last_position lat0 lon0 (optimized_route st) = (current_lat st, current_lon st)
  /\ map sequence (optimized_route st) = seq 1 (length (optimized_route st))).

Lemma while_remaining_legs (lat0 lon0 : Qc) (fuel : nat) (st : LoopState) :
  legs_kept lat0 lon0 st ->
  legs_kept lat0 lon0 (while_remaining calculate_distance fuel st).
Proof.
  apply (while_remaining_ind (legs_kept lat0 lon0)).
  intros st' x rest E (Ht & Hd & Hp & Hs).
  destruct (loop_body_turn st' x rest E) as (best & _ & ->).
  cbn [optimized_route total_distance_acc current_lat current_lon].
  rewrite hop_distances_snoc, Hp. cbn [fst snd]. repeat split.
  - rewrite Qcsum_app, Ht, Qcsum_cons. change (Qcsum []) with 0.
    cbn [route_stop stop_latitude stop_longitude]. ring.
  - rewrite !map_app, Hd. reflexivity.
  - apply last_position_snoc.
  - rewrite map_app, Hs, length_app. cbn [map length route_stop sequence].
    rewrite seq_app. cbn [seq]. rewrite Nat.add_comm. reflexivity.
Qed.

(** *** The route returned *)

Lemma Qcsum_perm (l l' : list Qc) : Permutation l l' -> Qcsum l = Qcsum l'.
Proof.
  induction 1 as [|x l l' _ IH|x y l|l l' l'' _ IH1 _ IH2].
  - reflexivity.
  - rewrite !Qcsum_cons, IH. reflexivity.
  - rewrite !Qcsum_cons. ring.
  - congruence.
Qed.

Lemma load_bins_nil (db : Database) : load_bins db [] = [].
Proof. reflexivity. Qed.

Lemma optimize_route_nothing_loaded (db : Database) (bin_ids : list Z)
    (start_location : option (Qc * Qc)) :
  load_bins db bin_ids = [] ->
  optimize_route calculate_distance db bin_ids start_location = empty_route.
Proof.
  intros H. unfold optimize_route. destruct bin_ids; [reflexivity|].
  rewrite H. reflexivity.
Qed.

Lemma loop_entry_pool (pool : list RouteBin) (start_location : option (Qc * Qc)) :
  Permutation pool (remaining_bins (loop_entry pool start_location))
  /\ optimized_route (loop_entry pool start_location) = []
  /\ total_distance_acc (loop_entry pool start_location) = 0.
Proof.
  destruct start_location as [[lat lon]|]; cbn [loop_entry remaining_bins optimized_route
                                                total_distance_acc].
  - repeat split. reflexivity.
  - repeat split. apply (list_sort_perm priority_score (fun j k => Z.ltb k j)).
Qed.

(** The route of a call that loaded at least one bin: its stops are the
    loaded bins in some order, numbered from 1; the total is the rounded
    sum of the legs from the entry position, each stop reports its own
    leg rounded, and the average is the rounded mean of the levels. *)
Lemma optimize_route_loaded (db : Database) (bin_ids : list Z)
    (start_location : option (Qc * Qc)) :
  load_bins db bin_ids <> [] ->
  let r := optimize_route calculate_distance db bin_ids start_location in
  let entry := loop_entry (load_bins db bin_ids) start_location in
  let hops :=
    hop_distances calculate_distance (current_lat entry) (current_lon entry) (bins r) in
  Permutation (map bin_fields (load_bins db bin_ids)) (map stop_fields (bins r))
  /\ bins r = optimized_route
                (while_remaining calculate_distance (length (remaining_bins entry)) entry)
  /\ total_distance r = py_round (Qcsum hops) 2
  /\ map distance_from_previous (bins r) = map (fun d => py_round d 2) hops
  /\ map sequence (bins r) = seq 1 (length (bins r))
  /\ total_bins r = Some (length (bins r))
  /\ average_waste_level r
     = Some (py_round (Qcsum (map stop_waste_level (bins r))
                       / Qc_of_nat (length (bins r))) 2).
Proof.
  intros Hne r entry hops.
  assert (Er : r = let final := while_remaining calculate_distance
                                  (length (remaining_bins entry)) entry in
                   {| bins := optimized_route final;
                      total_bins := Some (length (optimized_route final));
                      total_distance := py_round (total_distance_acc final) 2;
                      optimization_method := "nearest_neighbor_priority_weighted";
                      average_waste_level :=
                        Some (match optimized_route final with
                              | [] => 0
                              | _ :: _ =>
                                  py_round (Qcsum (map stop_waste_level (optimized_route final))
                                            / Qc_of_nat (length (optimized_route final))) 2
                              end) |}).
  { subst r entry. unfold optimize_route.
    destruct bin_ids as [|id ids]; [contradiction Hne; reflexivity|].
    destruct (load_bins db (id :: ids)); [contradiction Hne; reflexivity | reflexivity]. }
  cbv zeta in Er.
  set (final := while_remaining calculate_distance (length (remaining_bins entry)) entry) in *.
  destruct (loop_entry_pool (load_bins db bin_ids) start_location) as (Hpool & Hroute & Htotal).
  fold entry in Hpool, Hroute, Htotal.
  assert (Hperm : Permutation (map bin_fields (load_bins db bin_ids))
                    (map stop_fields (optimized_route final))).
  { assert (P := while_remaining_perm (length (remaining_bins entry)) entry).
    assert (Hex : remaining_bins final = [])
      by (apply while_remaining_exhausts; apply le_n).
    fold final in P. rewrite Hex, Hroute in P. cbn [map app] in P. rewrite app_nil_r in P.
    rewrite <- P. apply Permutation_map. exact Hpool. }
  assert (Hlegs : legs_kept (current_lat entry) (current_lon entry) final).
  { apply while_remaining_legs. rewrite Hroute, Htotal. repeat split. }
  destruct Hlegs as (Ht & Hd & _ & Hs).
  assert (Hfin : optimized_route final <> []).
  { intros E. rewrite E in Hperm. apply Permutation_sym, Permutation_nil in Hperm.
    apply map_eq_nil in Hperm. contradiction. }
  subst hops. rewrite Er. cbn [bins total_bins total_distance average_waste_level].
  repeat split; try assumption.
  - rewrite Ht. reflexivity.
  - destruct (optimized_route final); [contradiction Hfin; reflexivity | reflexivity].
Qed.

End RouteLoop.

(** Whatever the start, the stops of the route are the loaded bins, each
    one once. *)
Lemma route_visits_each_loaded_bin_once
    (calculate_distance : Qc -> Qc -> Qc -> Qc -> Qc)
    (db : Database) (bin_ids : list Z) (start_location : option (Qc * Qc)) :
  Permutation (map bin_fields (load_bins db bin_ids))
    (map stop_fields (bins (optimize_route calculate_distance db bin_ids start_location))).
Proof.
  destruct (load_bins db bin_ids) as [|b bs] eqn:E.
  - rewrite (optimize_route_nothing_loaded calculate_distance db bin_ids start_location E).
    reflexivity.
  - rewrite <- E. apply optimize_route_loaded. rewrite E. discriminate.
Qed.

(** The bins loaded are those found with both coordinates present and
    other than 0, in the order of [bin_ids]. *)
Lemma load_bins_keeps (db : Database) (bin_ids : list Z) :
  map bin_id (load_bins db bin_ids)
  = map row_bin_id
      (flat_map (fun id => match get_bin_by_id db id with
                           | Some row =>
                               if truthy (row_latitude row) && truthy (row_longitude row)
                               then [row] else []
                           | None => []
                           end) bin_ids).
Proof.
  induction bin_ids as [|id ids IH]; cbn [load_bins flat_map]; [reflexivity|].
  destruct (get_bin_by_id db id) as [row|]; [|exact IH].
  destruct (truthy (row_latitude row) && truthy (row_longitude row)); [|exact IH].
  cbn [app map bin_id]. rewrite IH. reflexivity.
Qed.

(** C1, at the input where the code departs from it.  The only bin asked
    for lies on the equator: its latitude is present and is 0, its
    longitude is 36.8.  [bin_data['latitude']] is then false, the bin is
    not loaded, and the route returned is the empty one. *)
Theorem equator_bin_is_dropped (calculate_distance : Qc -> Qc -> Qc -> Qc -> Qc) :
  (exists row,
     get_bin_by_id Samples.equator 1 = Some row
     /\ row_latitude row = Some 0
     /\ row_longitude row = Samples.deg 368000 10000)
  /\ load_bins Samples.equator [1%Z] = []
  /\ optimize_route calculate_distance Samples.equator [1%Z] None = empty_route.
Proof.
  split; [eexists; repeat split|].
  split; [reflexivity|].
  apply optimize_route_nothing_loaded. reflexivity.
Qed.

(** *** The start of a route without a start location *)

Lemma Qc_of_Z_le (a b : Z) : (a <= b)%Z -> Qc_of_Z a <= Qc_of_Z b.
Proof. intros H. qc_to_q. unfold Qle. cbn [Qnum Qden]. lia. Qed.

Lemma Qc_abs_nonneg (x : Qc) : 0 <= Samples.Qc_abs x.
Proof.
  unfold Samples.Qc_abs. destruct (Qcleb 0 x) eqn:E.
  - apply Qcleb_le. exact E.
  - apply Qcleb_gt in E. qc_to_q. lra.
Qed.

Lemma grid_distance_self (lat lon : Qc) : Samples.grid_distance lat lon lat lon = 0.
Proof.
  unfold Samples.grid_distance.
  replace (lat - lat) with 0 by ring. replace (lon - lon) with 0 by ring.
  change (Samples.Qc_abs 0) with 0. ring.
Qed.

Lemma grid_distance_nonneg (lat1 lon1 lat2 lon2 : Qc) :
  0 <= Samples.grid_distance lat1 lon1 lat2 lon2.
Proof.
  unfold Samples.grid_distance.
  assert (H1 := Qc_abs_nonneg (lat2 - lat1)).
  assert (H2 := Qc_abs_nonneg (lon2 - lon1)).
  revert H1 H2.
  generalize (Samples.Qc_abs (lat2 - lat1)) (Samples.Qc_abs (lon2 - lon1)).
  intros a b Ha Hb. qc_to_q. lra.
Qed.

(** C2, as the code has it.  Without a start location the bin with the
    highest priority score, the first such bin of the input, is stop 1,
    at distance 0.  It gets there through the loop: on entry no stop is
    placed and the bin heads the pool; the first turn scores it like any
    other bin, from its own position, so with distance 0 and a score
    equal to its priority score, which no other bin exceeds; that turn
    removes it from the pool, and the rest of the route is what the loop
    builds from there.  The distance function is 0 from a point to itself
    and never negative. *)
Theorem highest_priority_bin_wins_first_turn
    (calculate_distance : Qc -> Qc -> Qc -> Qc -> Qc)
    (db : Database) (bin_ids : list Z) :
  (forall lat lon, calculate_distance lat lon lat lon = 0) ->
  (forall lat1 lon1 lat2 lon2, 0 <= calculate_distance lat1 lon1 lat2 lon2) ->
  load_bins db bin_ids <> [] ->
  let entry := loop_entry (load_bins db bin_ids) None in
  exists top before after pool rest,
    load_bins db bin_ids = before ++ top :: after
    /\ (forall z, In z before -> (priority_score z < priority_score top)%Z)
    /\ (forall z, In z after -> (priority_score z <= priority_score top)%Z)
    /\ optimized_route entry = []
    /\ remaining_bins entry = top :: pool
    /\ current_lat entry = latitude top
    /\ current_lon entry = longitude top
    /\ select_best calculate_distance (current_lat entry) (current_lon entry)
         (remaining_bins entry)
       = Some (top, Qc_of_Z (priority_score top), 0)
    /\ remaining_bins (loop_body calculate_distance entry) = pool
    /\ bins (optimize_route calculate_distance db bin_ids None)
       = route_stop 1 top 0 :: rest
    /\ distance_from_previous (route_stop 1 top 0) = 0
    /\ bins (optimize_route calculate_distance db bin_ids None)
       = optimized_route
           (while_remaining calculate_distance (length pool)
              {| optimized_route := [route_stop 1 top 0];
                 remaining_bins := pool;
                 total_distance_acc := 0;
                 current_lat := latitude top;
                 current_lon := longitude top |}).
Proof.
  intros Hself Hnonneg Hne entry.
  set (loaded := load_bins db bin_ids) in *.
  set (sorted := list_sort (fun x y => Z.ltb (priority_score y) (priority_score x)) loaded).
  assert (Hperm : Permutation loaded sorted)
    by apply (list_sort_perm priority_score (fun j k => Z.ltb k j)).
  destruct sorted as [|top pool] eqn:Es.
  { apply Permutation_sym, Permutation_nil in Hperm. contradiction. }
  destruct (list_sort_head priority_score (fun j k => Z.ltb k j)
              (fun k => Z.ltb_irrefl k)
              (fun j k H => proj2 (Z.ltb_ge j k) (Z.lt_le_incl _ _ (proj1 (Z.ltb_lt k j) H)))
              (fun i j k H1 H2 =>
                 proj2 (Z.ltb_ge i k)
                   (Z.le_trans _ _ _ (proj1 (Z.ltb_ge j k) H2) (proj1 (Z.ltb_ge i j) H1)))
              Z.eqb loaded top pool Z.eqb_eq Es)
    as (Hmax & before & after & Hsplit & Hbefore).
  assert (Hle : forall z, In z loaded -> (priority_score z <= priority_score top)%Z).
  { intros z Hz. apply Z.ltb_ge. exact (Hmax z Hz). }
  assert (Eentry : entry = {| optimized_route := [];
                              remaining_bins := top :: pool;
                              total_distance_acc := 0;
                              current_lat := latitude top;
                              current_lon := longitude top |}).
  { subst entry. unfold loop_entry. fold sorted. rewrite Es. reflexivity. }
  assert (Hsel : select_best calculate_distance (latitude top) (longitude top) (top :: pool)
                 = Some (top, Qc_of_Z (priority_score top), 0)).
  { rewrite select_best_head.
    - rewrite Hself. repeat f_equal. ring.
    - intros z Hz. rewrite Hself.
      assert (Hz' : In z loaded).
      { apply (Permutation_in z (Permutation_sym Hperm)). right. exact Hz. }
      assert (H1 := Qc_of_Z_le _ _ (Hle z Hz')).
      assert (H2 := Hnonneg (latitude top) (longitude top) (latitude z) (longitude z)).
      revert H1 H2. unfold distance_weight.
      generalize (calculate_distance (latitude top) (longitude top) (latitude z) (longitude z)).
      generalize (Qc_of_Z (priority_score z)) (Qc_of_Z (priority_score top)).
      intros pz pt d H1 H2. qc_to_q. lra. }
  assert (Hbody : loop_body calculate_distance entry
                  = {| optimized_route := [route_stop 1 top 0];
                       remaining_bins := pool;
                       total_distance_acc := 0 + 0;
                       current_lat := latitude top;
                       current_lon := longitude top |}).
  { rewrite Eentry. unfold loop_body.
    cbn [current_lat current_lon remaining_bins optimized_route total_distance_acc].
    rewrite Hsel. cbn [list_remove app length Nat.add].
    rewrite (proj2 (RouteBin_eqb_eq top top) eq_refl). reflexivity. }
  destruct (optimize_route_loaded calculate_distance db bin_ids None Hne)
    as (_ & Hbins & _).
  fold loaded entry in Hbins.
  assert (Hrun : while_remaining calculate_distance (length (remaining_bins entry)) entry
                 = while_remaining calculate_distance (length pool)
                     (loop_body calculate_distance entry)).
  { rewrite Eentry. reflexivity. }
  rewrite Hrun in Hbins.
  assert (Hrest_of_route := Hbins). rewrite Hbody in Hrest_of_route.
  replace (0 + 0) with 0 in Hrest_of_route by ring.
  destruct (while_remaining_extends calculate_distance (length pool)
              (loop_body calculate_distance entry)) as [rest Hrest].
  rewrite Hrest, Hbody in Hbins. cbn [optimized_route app] in Hbins.
  exists top, before, after, pool, rest.
  split; [exact Hsplit|]. split.
  { intros z Hz.
    assert (Hz' : In z loaded) by (rewrite Hsplit; apply in_or_app; left; exact Hz).
    specialize (Hle z Hz'). specialize (Hbefore z Hz). lia. }
  split.
  { intros z Hz. apply Hle. rewrite Hsplit. apply in_or_app. right. right. exact Hz. }
  rewrite Hbody. rewrite Eentry.
  cbn [optimized_route remaining_bins current_lat current_lon].
  repeat split; try assumption.
  apply py_round_0.
Qed.

Lemma highest_priority_bin_wins_first_turn_witness :
  exists top rest,
    bins (optimize_route Samples.grid_distance Samples.town [3; 2; 1]%Z None)
    = route_stop 1 top 0 :: rest.
Proof.
  destruct (highest_priority_bin_wins_first_turn Samples.grid_distance Samples.town
              [3; 2; 1]%Z grid_distance_self grid_distance_nonneg)
    as (top & before & after & pool & rest & H).
  - vm_compute. discriminate.
  - exists top, rest. apply H.
Defined.

(** C2 as stated fails in its mechanism: when the loop is entered no stop
    has been placed, and the bin with the highest priority score (bin 1,
    loaded last) is in the pool, at its head. *)
Lemma start_bin_is_in_the_pool_on_entry :
  map priority_score (load_bins Samples.town [3; 2; 1]%Z) = [80; 80; 100]%Z
  /\ optimized_route (loop_entry (load_bins Samples.town [3; 2; 1]%Z) None) = []
  /\ map bin_id (remaining_bins (loop_entry (load_bins Samples.town [3; 2; 1]%Z) None))
     = [1; 3; 2]%Z.
Proof. repeat split. Qed.

End RouteFacts.

(** ** Rounding *)

Lemma round_half_even_floor (q : Q) :
  (Qfloor q <= round_half_even q <= Qfloor q + 1)%Z.
Proof.
  unfold round_half_even.
  destruct (Qcompare _ _); [destruct (Z.even _)| |]; lia.
Qed.

Lemma round_half_even_ge (n : Z) (q : Q) :
  (inject_Z n <= q)%Q -> (n <= round_half_even q)%Z.
Proof.
  intros H. apply Qfloor_resp_le in H. rewrite Qfloor_Z in H.
  destruct (round_half_even_floor q). lia.
Qed.

Lemma round_half_even_le (n : Z) (q : Q) :
  (q <= inject_Z n)%Q -> (round_half_even q <= n)%Z.
Proof.
  intros H. assert (F := Qfloor_resp_le _ _ H). rewrite Qfloor_Z in F.
  destruct (Z.eq_dec (Qfloor q) n) as [E|E].
  - unfold round_half_even.
    destruct (Qcompare_spec (q - inject_Z (Qfloor q)) (1 # 2)) as [C|C|C]; try lia.
    + rewrite E in C. lra.
    + rewrite E in C. lra.
  - destruct (round_half_even_floor q). lia.
Qed.

Lemma round_half_even_mono (q q' : Q) :
  (q <= q')%Q -> (round_half_even q <= round_half_even q')%Z.
Proof.
  intros H. assert (F := Qfloor_resp_le _ _ H).
  destruct (Z.eq_dec (Qfloor q) (Qfloor q')) as [E|E].
  - unfold round_half_even. rewrite <- E.
    destruct (Qcompare_spec (q - inject_Z (Qfloor q)) (1 # 2)) as [C|C|C];
      destruct (Qcompare_spec (q' - inject_Z (Qfloor q)) (1 # 2)) as [C'|C'|C'];
      try destruct (Z.even (Qfloor q)); try lia; lra.
  - destruct (round_half_even_floor q), (round_half_even_floor q'). lia.
Qed.

Lemma pow10_pos (nd : nat) : (0 < inject_Z (10 ^ Z.of_nat nd))%Q.
Proof.
  change 0%Q with (inject_Z 0). rewrite <- Zlt_Qlt.
  apply Z.pow_pos_nonneg; lia.
Qed.

Lemma this_py_round (x : Qc) (nd : nat) :
  (this (py_round x nd)
   == inject_Z (round_half_even (x * inject_Z (10 ^ Z.of_nat nd)))
      / inject_Z (10 ^ Z.of_nat nd))%Q.
Proof. unfold py_round, Q2Qc; cbn [this]. apply Qred_correct. Qed.

(** Rounding keeps the order, and never crosses a whole number. *)
Lemma py_round_mono (x y : Qc) (nd : nat) : x <= y -> py_round x nd <= py_round y nd.
Proof.
  intros H. unfold Qcle in *. rewrite !this_py_round.
  assert (P := pow10_pos nd). set (s := inject_Z (10 ^ Z.of_nat nd)) in *.
  apply Qle_shift_div_l; [exact P|].
  unfold Qdiv. rewrite <- Qmult_assoc, (Qmult_comm (/ s)), Qmult_inv_r, Qmult_1_r by lra.
  rewrite <- Zle_Qle. apply round_half_even_mono.
  apply Qmult_le_compat_r; [exact H | lra].
Qed.

Lemma py_round_le_Z (x : Qc) (n : Z) (nd : nat) :
  x <= Qc_of_Z n -> py_round x nd <= Qc_of_Z n.
Proof.
  intros H. unfold Qcle in *. rewrite this_py_round. rewrite this_of_Z in *.
  assert (P := pow10_pos nd).
  apply Qle_shift_div_r; [exact P|].
  rewrite <- inject_Z_mult, <- Zle_Qle. apply round_half_even_le.
  rewrite inject_Z_mult. apply Qmult_le_compat_r; [exact H | lra].
Qed.

Lemma py_round_ge_Z (x : Qc) (n : Z) (nd : nat) :
  Qc_of_Z n <= x -> Qc_of_Z n <= py_round x nd.
Proof.
  intros H. unfold Qcle in *. rewrite this_py_round. rewrite this_of_Z in *.
  assert (P := pow10_pos nd).
  apply Qle_shift_div_l; [exact P|].
  rewrite <- inject_Z_mult, <- Zle_Qle. apply round_half_even_ge.
  rewrite inject_Z_mult. apply Qmult_le_compat_r; [exact H | lra].
Qed.

Lemma Qcdiv_pos (a r : Qc) : 0 < a -> 0 < r -> 0 < a / r.
Proof.
  intros Ha Hr.
  assert (Hne : r <> 0) by (intros ->; exact (Qclt_not_eq _ _ Hr eq_refl)).
  apply Qcnot_le_lt. intros H.
  assert (H' := Qcmult_le_compat_r _ _ r H (Qclt_le_weak _ _ Hr)).
  replace (a / r * r) with a in H' by (field; exact Hne).
  replace (0 * r) with 0 in H' by ring.
  exact (Qclt_not_le _ _ Ha H').
Qed.

(** ** predictor.py, further properties *)

Module PredictorMore.
Import Predictor.

Lemma prediction_origin (db : Database) (th : Qc) (p : Prediction) :
  In p (predict_bins_needing_collection db th) ->
  exists row, In row (get_all_bins db) /\ predict_bin db th row = Some p.
Proof.
  intros Hp.
  apply (Permutation_in p (Permutation_sym (PredictorFacts.predictions_perm db th))) in Hp.
  apply PredictorFacts.collect_predictions_In in Hp. exact Hp.
Qed.

(** Whether the loop keeps a bin. *)
Lemma predict_bin_kept (db : Database) (th : Qc) (row : BinRow) :
  match predict_bin db th row with Some _ => true | None => false end
  = String.eqb (row_status row) "active"
    && (Qcleb (Qc_of_Z 70) (row_waste_level row)
        || Qcleb (predict_time_to_full (row_bin_id row) (row_waste_level row)
                    (get_fill_rate db (row_bin_id row))) th).
Proof.
  unfold predict_bin. destruct (String.eqb (row_status row) "active"); cbn [negb andb].
  - destruct (orb _ _); reflexivity.
  - reflexivity.
Qed.

(** X1.  The bins of the predictions are the active bins of the table
    whose level is 70 or more or whose hours to full are within the
    threshold, each one once; a bin that is not active never appears. *)
Theorem predictions_inclusion (db : Database) (threshold_hours : Qc) :
  Permutation
    (map bin_id (predict_bins_needing_collection db threshold_hours))
    (map row_bin_id
       (filter (fun row =>
                  String.eqb (row_status row) "active"
                  && (Qcleb (Qc_of_Z 70) (row_waste_level row)
                      || Qcleb (predict_time_to_full (row_bin_id row) (row_waste_level row)
                                  (get_fill_rate db (row_bin_id row))) threshold_hours))
          (get_all_bins db))).
Proof.
  rewrite <- (Permutation_map bin_id (PredictorFacts.predictions_perm db threshold_hours)).
  rewrite PredictorFacts.collect_predictions_order.
  rewrite (filter_ext _ _ (predict_bin_kept db threshold_hours)). reflexivity.
Qed.

Lemma time_to_full_nonneg (bin_id : Z) (level rate : Qc) :
  0 <= predict_time_to_full bin_id level rate.
Proof.
  unfold predict_time_to_full.
  destruct (Qcleb (Qc_of_Z 100) level) eqn:E; [discriminate|].
  apply Qcleb_gt in E. apply Qclt_le_weak. apply Qcdiv_pos.
  - qc_to_q. lra.
  - destruct (Qcleb rate 0) eqn:R; [reflexivity | apply Qcleb_gt; exact R].
Qed.

Lemma Qcdiv_le_compat_r (a b d : Qc) : 0 < d -> a <= b -> a / d <= b / d.
Proof.
  intros Hd Hab. unfold Qcdiv. apply Qcmult_le_compat_r; [exact Hab|].
  apply Qclt_le_weak. replace (/ d) with (1 / d) by (unfold Qcdiv; ring).
  apply Qcdiv_pos; [reflexivity | exact Hd].
Qed.

Lemma Qcdiv_le_compat_l (c d d' : Qc) : 0 <= c -> 0 < d -> d <= d' -> c / d' <= c / d.
Proof.
  intros Hc Hd Hdd'.
  assert (Hd' : 0 < d') by (eapply Qclt_le_trans; eassumption).
  assert (Nd : d <> 0) by (intros E; rewrite E in Hd; exact (Qclt_not_eq _ _ Hd eq_refl)).
  assert (Nd' : d' <> 0) by (intros E; rewrite E in Hd'; exact (Qclt_not_eq _ _ Hd' eq_refl)).
  replace (c / d') with (c * d / (d * d')) by (field; split; assumption).
  replace (c / d) with (c * d' / (d * d')) by (field; split; assumption).
  apply Qcdiv_le_compat_r.
  - replace 0 with (0 * d') by ring. apply Qcmult_lt_compat_r; assumption.
  - rewrite (Qcmult_comm c d), (Qcmult_comm c d').
    apply Qcmult_le_compat_r; assumption.
Qed.

(** X2.  [predict_time_to_full] is never negative and is 0 exactly from
    level 100 on.  At one rate a fuller bin never has more hours left,
    and for one level a faster rate never gives more hours. *)
Theorem time_to_full_decreases (bin_id : Z) (current_level fuller fill_rate faster : Qc) :
  0 <= predict_time_to_full bin_id current_level fill_rate
  /\ (predict_time_to_full bin_id current_level fill_rate = 0
      <-> Qc_of_Z 100 <= current_level)
  /\ (current_level <= fuller ->
      predict_time_to_full bin_id fuller fill_rate
      <= predict_time_to_full bin_id current_level fill_rate)
  /\ (0 < fill_rate -> fill_rate <= faster ->
      predict_time_to_full bin_id current_level faster
      <= predict_time_to_full bin_id current_level fill_rate).
Proof.
  split; [apply time_to_full_nonneg|].
  assert (Hr : 0 < (if Qcleb fill_rate 0 then Qc_of_Z 2 else fill_rate)).
  { destruct (Qcleb fill_rate 0) eqn:R; [reflexivity | apply Qcleb_gt; exact R]. }
  split; [|split].
  - unfold predict_time_to_full.
    destruct (Qcleb (Qc_of_Z 100) current_level) eqn:E.
    + apply Qcleb_le in E. split; auto.
    + apply Qcleb_gt in E. split.
      * intros H0.
        assert (P : 0 < (Qc_of_Z 100 - current_level)
                        / (if Qcleb fill_rate 0 then Qc_of_Z 2 else fill_rate)).
        { apply Qcdiv_pos; [qc_to_q; lra | exact Hr]. }
        rewrite H0 in P. contradiction (Qclt_not_eq _ _ P eq_refl).
      * intros H. contradiction (Qclt_not_le _ _ E H).
  - intros Hl. unfold predict_time_to_full at 1.
    destruct (Qcleb (Qc_of_Z 100) fuller) eqn:E; [apply time_to_full_nonneg|].
    apply Qcleb_gt in E. unfold predict_time_to_full.
    assert (E' : Qcleb (Qc_of_Z 100) current_level = false).
    { apply Qcleb_gt. eapply Qcle_lt_trans; eassumption. }
    rewrite E'. apply Qcdiv_le_compat_r; [exact Hr|].
    clear - Hl. qc_to_q. lra.
  - intros H0 Hf. unfold predict_time_to_full.
    destruct (Qcleb (Qc_of_Z 100) current_level) eqn:E; [apply Qcle_refl|].
    apply Qcleb_gt in E.
    assert (H0' : 0 < faster) by (eapply Qclt_le_trans; eassumption).
    apply Qcleb_gt in H0. apply Qcleb_gt in H0'. rewrite H0, H0'.
    apply Qcleb_gt in H0.
    apply Qcdiv_le_compat_l; [|exact H0 | exact Hf].
    clear - E. qc_to_q. lra.
Qed.

(** What a prediction holds, from the row it was made of. *)
Lemma predict_bin_fields (db : Database) (th : Qc) (row : BinRow) (p : Prediction) :
  predict_bin db th row = Some p ->
  let level := row_waste_level row in
  let rate := get_fill_rate db (row_bin_id row) in
  let hours := predict_time_to_full (row_bin_id row) level rate in
  row_status row = "active"%string
  /\ Qcleb (Qc_of_Z 70) level || Qcleb hours th = true
  /\ bin_id p = row_bin_id row
  /\ current_level p = py_round level 2
  /\ fill_rate p = py_round rate 2
  /\ hours_to_full p = py_round hours 1
  /\ predicted_level_24h p
     = py_round (if Qcltb (Qc_of_Z 100) (level + rate * th)
                 then Qc_of_Z 100 else level + rate * th) 2
  /\ priority p = priority_of level hours th
  /\ needs_collection p = Qcleb hours th || Qcleb (Qc_of_Z 80) level.
Proof.
  unfold predict_bin. intros H.
  destruct (String.eqb (row_status row) "active") eqn:Es; [|discriminate].
  cbn [negb] in H.
  destruct (orb _ _) eqn:Ei in H; [|discriminate].
  injection H as <-. cbv zeta. cbn.
  apply String.eqb_eq in Es. repeat split; assumption.
Qed.

(** X3.  In every prediction returned: [needs_collection] is true exactly
    when the tier is not low; a critical bin is reported at 90 or more, a
    high one between 80 and 90, a low one between 70 and 80, a medium one
    at 80 or less. *)
Theorem tier_bands (db : Database) (threshold_hours : Qc) (p : Prediction) :
  In p (predict_bins_needing_collection db threshold_hours) ->
  (needs_collection p = true <-> priority p <> low)
  /\ (priority p = critical -> Qc_of_Z 90 <= current_level p)
  /\ (priority p = high -> Qc_of_Z 80 <= current_level p <= Qc_of_Z 90)
  /\ (priority p = low -> Qc_of_Z 70 <= current_level p <= Qc_of_Z 80)
  /\ (priority p = medium -> current_level p <= Qc_of_Z 80).
Proof.
  intros Hp. destruct (prediction_origin db threshold_hours p Hp) as (row & _ & Hpb).
  destruct (predict_bin_fields db threshold_hours row p Hpb)
    as (_ & Hin & _ & -> & _ & _ & _ & -> & ->).
  set (level := row_waste_level row) in *.
  set (hours := predict_time_to_full (row_bin_id row) level
                  (get_fill_rate db (row_bin_id row))) in *.
  unfold priority_of.
  assert (L90 : Qcleb (Qc_of_Z 90) level = true -> Qc_of_Z 90 <= py_round level 2)
    by (intros H; apply py_round_ge_Z, Qcleb_le, H).
  assert (L80 : Qcleb (Qc_of_Z 80) level = true -> Qc_of_Z 80 <= py_round level 2)
    by (intros H; apply py_round_ge_Z, Qcleb_le, H).
  assert (L70 : Qcleb (Qc_of_Z 70) level = true -> Qc_of_Z 70 <= py_round level 2)
    by (intros H; apply py_round_ge_Z, Qcleb_le, H).
  assert (U90 : Qcleb (Qc_of_Z 90) level = false -> py_round level 2 <= Qc_of_Z 90)
    by (intros H; apply py_round_le_Z, Qclt_le_weak, Qcleb_gt, H).
  assert (U80 : Qcleb (Qc_of_Z 80) level = false -> py_round level 2 <= Qc_of_Z 80)
    by (intros H; apply py_round_le_Z, Qclt_le_weak, Qcleb_gt, H).
  assert (M : Qcleb (Qc_of_Z 90) level = true -> Qcleb (Qc_of_Z 80) level = true).
  { intros H. apply Qcleb_le in H. apply Qcleb_le.
    eapply Qcle_trans; [|exact H]. discriminate. }
  destruct (Qcleb (Qc_of_Z 90) level) eqn:E90;
    destruct (Qcleb (Qc_of_Z 80) level) eqn:E80;
    destruct (Qcleb hours threshold_hours) eqn:Eh;
    destruct (Qcleb (Qc_of_Z 70) level) eqn:E70;
    cbn [orb] in *;
    try discriminate;
    try (specialize (M eq_refl); discriminate);
    repeat split; intros; try discriminate; try congruence; auto.
Qed.

Lemma tier_bands_witness :
  exists p,
    In p (predict_bins_needing_collection Samples.town (Qc_of_Z 24))
    /\ priority p = high
    /\ Qc_of_Z 80 <= current_level p <= Qc_of_Z 90.
Proof.
  set (p := nth 1 (predict_bins_needing_collection Samples.town (Qc_of_Z 24))
              (nth 0 (predict_bins_needing_collection Samples.town (Qc_of_Z 24))
                 (mkPrediction 0 "" "" "" 0 0 0 0 low false None None))).
  assert (Hin : In p (predict_bins_needing_collection Samples.town (Qc_of_Z 24))).
  { subst p. apply nth_In. vm_compute. lia. }
  exists p. split; [exact Hin|].
  assert (Hh : priority p = high) by (vm_compute; reflexivity).
  split; [exact Hh|].
  exact (proj1 (proj2 (proj2 (tier_bands Samples.town (Qc_of_Z 24) p Hin))) Hh).
Defined.

(** X4.  The numbers of a prediction returned stay in range: the fill
    rate between 0 and 10, the hours to full at 0 or more, the predicted
    level at 100 or less; and with a threshold of 0 hours or more and
    levels of the table at 100 or less, the predicted level is not below
    the current one. *)
Theorem reported_ranges (db : Database) (threshold_hours : Qc) (p : Prediction) :
  In p (predict_bins_needing_collection db threshold_hours) ->
  (0 <= fill_rate p /\ fill_rate p <= Qc_of_Z 10)
  /\ 0 <= hours_to_full p
  /\ predicted_level_24h p <= Qc_of_Z 100
  /\ (0 <= threshold_hours ->
      (forall row, In row (get_all_bins db) -> row_waste_level row <= Qc_of_Z 100) ->
      current_level p <= predicted_level_24h p).
Proof.
  intros Hp. destruct (prediction_origin db threshold_hours p Hp) as (row & Hrow & Hpb).
  destruct (predict_bin_fields db threshold_hours row p Hpb)
    as (_ & _ & _ & -> & -> & -> & -> & _ & _).
  destruct (PredictorFacts.estimate_range (sensor_logs_of db (row_bin_id row)))
    as [R0 R10].
  fold (get_fill_rate db (row_bin_id row)) in R0, R10.
  set (rate := get_fill_rate db (row_bin_id row)) in *.
  set (level := row_waste_level row) in *.
  repeat split.
  - apply (py_round_ge_Z rate 0 2). apply Qclt_le_weak. exact R0.
  - apply py_round_le_Z. exact R10.
  - apply (py_round_ge_Z _ 0 1). apply time_to_full_nonneg.
  - apply py_round_le_Z.
    destruct (Qcltb (Qc_of_Z 100) (level + rate * threshold_hours)) eqn:E.
    + apply Qcle_refl.
    + apply Qcltb_ge. exact E.
  - intros Hth Hlevels. apply py_round_mono.
    assert (Hl : level <= Qc_of_Z 100) by (apply Hlevels; exact Hrow).
    destruct (Qcltb (Qc_of_Z 100) (level + rate * threshold_hours)); [exact Hl|].
    assert (Hm : 0 <= rate * threshold_hours).
    { replace 0 with (0 * threshold_hours) by ring.
      apply Qcmult_le_compat_r; [apply Qclt_le_weak; exact R0 | exact Hth]. }
    revert Hm. generalize (rate * threshold_hours). intros m Hm.
    clear - Hm. qc_to_q. lra.
Qed.

Lemma reported_ranges_witness :
  exists p,
    In p (predict_bins_needing_collection Samples.town (Qc_of_Z 24))
    /\ predicted_level_24h p <= Qc_of_Z 100.
Proof.
  set (p := nth 0 (predict_bins_needing_collection Samples.town (Qc_of_Z 24))
              (mkPrediction 0 "" "" "" 0 0 0 0 low false None None)).
  assert (Hin : In p (predict_bins_needing_collection Samples.town (Qc_of_Z 24))).
  { subst p. apply nth_In. vm_compute. lia. }
  exists p. split; [exact Hin|].
  apply (reported_ranges Samples.town (Qc_of_Z 24) p Hin).
Defined.

(** *** The fit *)

Lemma fitted_slope_shift (d : Z) (logs : list SensorLog) :
  fitted_slope (map (shift_log d) logs) = fitted_slope logs.
Proof.
  destruct logs as [|log0 logs]; [reflexivity|].
  unfold fitted_slope. cbn [map]. rewrite !map_map.
  f_equal. cbn [map shift_log log_timestamp].
  f_equal.
  - f_equal. f_equal. lia.
  - apply map_ext. intros log. cbn. f_equal. f_equal. lia.
Qed.

(** X5.  The estimate depends on the times of the readings only through
    the time elapsed since the first one: moving every reading by the
    same number of seconds leaves it as it is. *)
Theorem get_fill_rate_shift (db db' : Database) (bin_id d : Z) (logs : list SensorLog) :
  sensor_logs_of db bin_id = Some logs ->
  sensor_logs_of db' bin_id = Some (map (shift_log d) logs) ->
  get_fill_rate db' bin_id = get_fill_rate db bin_id.
Proof.
  intros H H'. unfold get_fill_rate, estimate. rewrite H, H'.
  rewrite length_map, fitted_slope_shift. reflexivity.
Qed.

Lemma get_fill_rate_shift_witness :
  get_fill_rate (Samples.logs_only (map (shift_log 86400) (Samples.rising_logs 0))) 1
  = get_fill_rate (Samples.logs_only (Samples.rising_logs 0)) 1.
Proof.
  apply (get_fill_rate_shift _ _ 1 86400 (Samples.rising_logs 0)); reflexivity.
Defined.

Lemma fitted_slope_one_instant (t : Z) (log0 : SensorLog) (rest : list SensorLog) :
  (forall log, In log (log0 :: rest) -> log_timestamp log = t) ->
  fitted_slope (log0 :: rest) = Some 0.
Proof.
  intros Ht. unfold fitted_slope, LinearRegression_coef.
  rewrite !length_map, Nat.eqb_refl. cbn [length Nat.eqb orb negb].
  set (X := map (fun log => Qc_of_Z (log_timestamp log - log_timestamp log0) / Qc_of_Z 3600)
              (log0 :: rest)).
  assert (EX : X = map (fun _ => 0) (log0 :: rest)).
  { subst X. apply map_ext_in. intros log Hlog.
    rewrite (Ht log Hlog), (Ht log0 (or_introl eq_refl)), Z.sub_diag.
    apply Qc_is_canon. reflexivity. }
  assert (Em : mean X = 0).
  { unfold mean. rewrite EX, Qcsum_map_const. unfold Qcdiv. ring. }
  assert (Es : Qcsum (map (fun x => (x - mean X) * (x - mean X)) X) = 0).
  { rewrite Em, EX, map_map.
    rewrite (Qcsum_map_ext _ (fun _ => 0)) by (intros; ring).
    rewrite Qcsum_map_const. ring. }
  rewrite Es. reflexivity.
Qed.

(** X7.  A fit without spread gives no estimate but the default: when
    all the readings of a bin carry one time, whatever their levels, the
    estimate is 2. *)
Theorem get_fill_rate_no_trend (db : Database) (bin_id : Z) (logs : list SensorLog) :
  sensor_logs_of db bin_id = Some logs ->
  (exists t, forall log, In log logs -> log_timestamp log = t) ->
  get_fill_rate db bin_id = Qc_of_Z 2.
Proof.
  intros Hq [t Ht]. unfold get_fill_rate, estimate. rewrite Hq.
  destruct (length logs <? 2)%nat; [reflexivity|].
  destruct logs as [|log0 rest]; [reflexivity|].
  rewrite (fitted_slope_one_instant t log0 rest Ht). reflexivity.
Qed.

Lemma get_fill_rate_no_trend_witness :
  get_fill_rate
    (Samples.logs_only [Samples.reading 40 0; Samples.reading 55 0; Samples.reading 47 0])
    1 = Qc_of_Z 2.
Proof.
  apply (get_fill_rate_no_trend _ 1
           [Samples.reading 40 0; Samples.reading 55 0; Samples.reading 47 0]).
  - reflexivity.
  - exists 0%Z. intros log [<-|[<-|[<-|[]]]]; reflexivity.
Defined.

(** *** The collection set *)

Lemma predictions_strongly_sorted (db : Database) (th : Qc) :
  StronglySorted ranked_before (predict_bins_needing_collection db th).
Proof.
  apply PredictorFacts.StronglySorted_impl
    with (R := fun a b => key_lt (sort_key b) (sort_key a) = false).
  - intros a b. apply PredictorFacts.key_lt_ranked_before.
  - apply (list_sort_sorted sort_key key_lt
             PredictorFacts.key_lt_asym PredictorFacts.key_lt_negtrans).
Qed.

Lemma StronglySorted_filter {A : Type} (R : A -> A -> Prop) (P : A -> bool) (l : list A) :
  StronglySorted R l -> StronglySorted R (filter P l).
Proof.
  induction 1 as [|x l Hl IH Hx]; cbn [filter]; [constructor|].
  destruct (P x); [|exact IH].
  constructor; [exact IH|].
  rewrite Forall_forall in *. intros y Hy. apply filter_In in Hy. apply Hx, Hy.
Qed.

Lemma StronglySorted_app_l {A : Type} (R : A -> A -> Prop) (l l' : list A) :
  StronglySorted R (l ++ l') -> StronglySorted R l.
Proof.
  induction l as [|x l IH]; cbn [app]; intros H; [constructor|].
  apply StronglySorted_inv in H. destruct H as [H1 H2].
  constructor; [apply IH; exact H1|].
  apply Forall_app in H2. apply H2.
Qed.

(** X8.  The collection set is ranked like the predictions (tier first,
    then the higher level), holds no bin of the low tier, and holds every
    prediction that needs collection when there are no more than
    [max_bins] of them. *)
Theorem collection_set_ranked (db : Database) (max_bins : Z) :
  StronglySorted ranked_before (get_optimal_collection_bins db max_bins)
  /\ (forall p, In p (get_optimal_collection_bins db max_bins) -> priority p <> low)
  /\ ((Z.of_nat (length (filter needs_collection
                           (predict_bins_needing_collection db (Qc_of_Z 24))))
       <= max_bins)%Z ->
      get_optimal_collection_bins db max_bins
      = filter needs_collection (predict_bins_needing_collection db (Qc_of_Z 24))).
Proof.
  unfold get_optimal_collection_bins.
  set (needing := filter needs_collection (predict_bins_needing_collection db (Qc_of_Z 24))).
  destruct (PredictorFacts.slice_to_prefix needing max_bins) as [rest Hrest].
  assert (Hs : StronglySorted ranked_before needing)
    by (apply StronglySorted_filter, predictions_strongly_sorted).
  split; [|split].
  - rewrite Hrest in Hs. apply StronglySorted_app_l in Hs. exact Hs.
  - intros p Hp.
    assert (Hin : In p needing) by (rewrite Hrest; apply in_or_app; left; exact Hp).
    apply filter_In in Hin. destruct Hin as [Hin Hn].
    destruct (prediction_origin db (Qc_of_Z 24) p Hin) as (row & _ & Hpb).
    destruct (predict_bin_fields db (Qc_of_Z 24) row p Hpb)
      as (_ & _ & _ & _ & _ & _ & _ & Ep & En).
    rewrite En in Hn. rewrite Ep. unfold priority_of.
    set (level := row_waste_level row) in *.
    assert (M : Qcleb (Qc_of_Z 90) level = true -> Qcleb (Qc_of_Z 80) level = true).
    { intros H. apply Qcleb_le in H. apply Qcleb_le.
      eapply Qcle_trans; [|exact H]. discriminate. }
    destruct (Qcleb (Qc_of_Z 90) level); [discriminate|].
    destruct (Qcleb (Qc_of_Z 80) level); [discriminate|].
    rewrite orb_false_r in Hn. rewrite Hn. discriminate.
  - intros Hlen. unfold slice_to.
    destruct (Z.leb_spec 0 max_bins) as [H0|H0]; [|lia].
    apply firstn_all2. lia.
Qed.

Lemma collection_set_ranked_witness :
  map bin_id (get_optimal_collection_bins Samples.town 5) = [1; 2; 3]%Z.
Proof.
  rewrite (proj2 (proj2 (collection_set_ranked Samples.town 5))).
  - vm_compute. reflexivity.
  - vm_compute. discriminate.
Defined.

End PredictorMore.

(** ** route_optimizer.py, further properties *)

Module RouteMore.
Import RouteOptimizer.

Lemma list_remove_In {A : Type} (eqb : A -> A -> bool) (x b : A) (l : list A) :
  In b (list_remove eqb x l) -> In b l.
Proof.
  induction l as [|y l IH]; cbn [list_remove]; [auto|].
  destruct (eqb y x); cbn [In]; intuition.
Qed.

Lemma snoc_split {A : Type} (pre post route : list A) (s x : A) :
  pre ++ s :: post = route ++ [x] ->
  (post = [] /\ pre = route /\ s = x)
  \/ (exists post0, route = pre ++ s :: post0 /\ post = post0 ++ [x]).
Proof.
  destruct post as [|y post'] using rev_ind.
  - intros H. apply app_inj_tail in H. left. intuition.
  - clear IHpost'. intros H.
    change (pre ++ s :: post' ++ [y]) with (pre ++ (s :: post') ++ [y]) in H.
    rewrite app_assoc in H. apply app_inj_tail in H. destruct H as [<- <-].
    right. exists post'. split; reflexivity.
Qed.

Lemma load_bins_scored (db : Database) (bin_ids : list Z) (b : RouteBin) :
  In b (load_bins db bin_ids) ->
  priority_score b = get_bin_priority_score (waste_level b).
Proof.
  induction bin_ids as [|id ids IH]; cbn [load_bins]; [intros []|].
  destruct (get_bin_by_id db id) as [row|]; [|exact IH].
  destruct (truthy (row_latitude row) && truthy (row_longitude row)); [|exact IH].
  intros [<-|H]; [reflexivity | exact (IH H)].
Qed.

Section Greedy.
Variable calculate_distance : Qc -> Qc -> Qc -> Qc -> Qc.

Local Abbreviation score := (fun (lat lon : Qc) (b : RouteBin) =>
  Qc_of_Z (priority_score b)
  - calculate_distance lat lon (latitude b) (longitude b) * distance_weight).

Lemma select_best_snoc (lat lon : Qc) (l : list RouteBin) (x : RouteBin) :
  select_best calculate_distance lat lon (l ++ [x])
  = consider calculate_distance lat lon (select_best calculate_distance lat lon l) x.
Proof. unfold select_best. rewrite fold_left_app. reflexivity. Qed.

(** The bin selected is the first of the pool among those of the greatest
    score. *)
Lemma select_best_first_max (lat lon : Qc) (l : list RouteBin)
    (b : RouteBin) (s d : Qc) :
  select_best calculate_distance lat lon l = Some (b, s, d) ->
  s = score lat lon b
  /\ d = calculate_distance lat lon (latitude b) (longitude b)
  /\ exists l1 l2,
       l = l1 ++ b :: l2
       /\ (forall z, In z l1 -> score lat lon z < s)
       /\ (forall z, In z l2 -> score lat lon z <= s).
Proof.
  revert b s d. induction l as [|x l IH] using rev_ind; intros b s d H.
  - discriminate.
  - rewrite select_best_snoc in H.
    destruct (select_best calculate_distance lat lon l) as [[[b0 s0] d0]|] eqn:E.
    + destruct (IH b0 s0 d0 eq_refl) as (Hs & Hd & l1 & l2 & El & H1 & H2).
      unfold consider in H.
      destruct (Qcltb s0 _) eqn:C.
      * injection H as <- <- <-. apply Qcltb_lt in C.
        split; [reflexivity|]. split; [reflexivity|].
        exists l, []. split; [reflexivity|]. split; [|intros z []].
        intros z Hz. rewrite El in Hz. apply in_app_or in Hz.
        destruct Hz as [Hz|[<-|Hz]].
        -- eapply Qclt_trans; [apply H1; exact Hz | exact C].
        -- rewrite <- Hs. exact C.
        -- eapply Qcle_lt_trans; [apply H2; exact Hz | exact C].
      * injection H as <- <- <-. apply Qcltb_ge in C.
        split; [exact Hs|]. split; [exact Hd|].
        exists l1, (l2 ++ [x]). split; [rewrite El, <- app_assoc; reflexivity|].
        split; [exact H1|].
        intros z Hz. apply in_app_or in Hz. destruct Hz as [Hz|[<-|[]]].
        -- apply H2. exact Hz.
        -- exact C.
    + destruct l as [|y l'].
      * cbn in H. injection H as <- <- <-.
        split; [reflexivity|]. split; [reflexivity|].
        exists [], []. split; [reflexivity|]. split; intros z [].
      * destruct (RouteFacts.select_best_nonempty calculate_distance lat lon y l')
          as (b' & s' & E' & _).
        rewrite E' in E. discriminate.
Qed.

(** A turn moves to the end of the route a bin that no bin of the pool
    outscores from the current position. *)
Lemma loop_body_turn_best (st : LoopState) (x : RouteBin) (rest : list RouteBin) :
  remaining_bins st = x :: rest ->
  exists best,
    In best (remaining_bins st)
    /\ (forall z, In z (remaining_bins st) ->
          score (current_lat st) (current_lon st) z
          <= score (current_lat st) (current_lon st) best)
    /\ loop_body calculate_distance st = {|
         optimized_route :=
           optimized_route st
           ++ [route_stop (length (optimized_route st) + 1) best
                 (calculate_distance (current_lat st) (current_lon st)
                    (latitude best) (longitude best))];
         remaining_bins := list_remove RouteBin_eqb best (remaining_bins st);
         total_distance_acc :=
           total_distance_acc st
           + calculate_distance (current_lat st) (current_lon st)
               (latitude best) (longitude best);
         current_lat := latitude best;
         current_lon := longitude best
       |}.
Proof.
  intros E. unfold loop_body.
  destruct (select_best calculate_distance (current_lat st) (current_lon st)
              (remaining_bins st)) as [[[b s] d]|] eqn:Es.
  - destruct (select_best_first_max _ _ _ _ _ _ Es) as (Hs & Hd & l1 & l2 & El & H1 & H2).
    exists b. split; [rewrite El; apply in_or_app; right; left; reflexivity|].
    split; [|rewrite Hd; reflexivity].
    intros z Hz. rewrite El in Hz. apply in_app_or in Hz. rewrite <- Hs.
    destruct Hz as [Hz|[<-|Hz]].
    + apply Qclt_le_weak, H1, Hz.
    + rewrite Hs. apply Qcle_refl.
    + apply H2, Hz.
  - rewrite E in Es.
    destruct (RouteFacts.select_best_nonempty calculate_distance
                (current_lat st) (current_lon st) x rest) as (b' & s' & E' & _).
    rewrite E' in Es. discriminate.
Qed.

Lemma stop_score_route_stop (lat lon : Qc) (n : nat) (b : RouteBin) (d : Qc) :
  priority_score b = get_bin_priority_score (waste_level b) ->
  stop_score calculate_distance lat lon (route_stop n b d) = score lat lon b.
Proof. intros H. unfold stop_score. cbn. rewrite H. reflexivity. Qed.

(** What the loop keeps true of the choices made: the bins of the pool
    carry the score of their level, the current position is the last
    stop, and from the position before any stop neither a later stop nor
    a bin still in the pool outscores that stop. *)
Local Abbreviation choices_kept := (fun (lat0 lon0 : Qc) (st : LoopState) =>
  (forall b, In b (remaining_bins st) ->
     priority_score b = get_bin_priority_score (waste_level b))
  /\ last_position lat0 lon0 (optimized_route st) = (current_lat st, current_lon st)
  /\ (forall pre s post, optimized_route st = pre ++ s :: post ->
        (forall t, In t post ->
           stop_score calculate_distance (fst (last_position lat0 lon0 pre))
             (snd (last_position lat0 lon0 pre)) t
           <= stop_score calculate_distance (fst (last_position lat0 lon0 pre))
                (snd (last_position lat0 lon0 pre)) s)
        /\ (forall b, In b (remaining_bins st) ->
              score (fst (last_position lat0 lon0 pre))
                (snd (last_position lat0 lon0 pre)) b
              <= stop_score calculate_distance (fst (last_position lat0 lon0 pre))
                   (snd (last_position lat0 lon0 pre)) s))).

Lemma while_remaining_choices (lat0 lon0 : Qc) (fuel : nat) (st : LoopState) :
  choices_kept lat0 lon0 st ->
  choices_kept lat0 lon0 (while_remaining calculate_distance fuel st).
Proof.
  apply (RouteFacts.while_remaining_ind calculate_distance (choices_kept lat0 lon0)).
  clear st. intros st x rest E (Hwf & Hpos & Hch).
  destruct (loop_body_turn_best st x rest E) as (best & Hin & Hmax & ->).
  cbn [optimized_route remaining_bins current_lat current_lon].
  assert (Hsub : forall b, In b (list_remove RouteBin_eqb best (remaining_bins st)) ->
                           In b (remaining_bins st))
    by (intros b; apply list_remove_In).
  split; [intros b Hb; apply Hwf, Hsub, Hb|].
  split; [apply RouteFacts.last_position_snoc|].
  intros pre s post Hsplit. symmetry in Hsplit.
  apply snoc_split in Hsplit.
  destruct Hsplit as [(-> & -> & ->)|(post0 & Eroute & ->)].
  - split; [intros t []|].
    intros b Hb. rewrite Hpos. cbn [fst snd].
    rewrite stop_score_route_stop by (apply Hwf; exact Hin).
    apply Hmax, Hsub, Hb.
  - destruct (Hch pre s post0 Eroute) as [Hpost Hpool].
    split.
    + intros t Ht. apply in_app_or in Ht. destruct Ht as [Ht|[<-|[]]].
      * apply Hpost, Ht.
      * rewrite stop_score_route_stop by (apply Hwf; exact Hin).
        apply Hpool, Hin.
    + intros b Hb. apply Hpool, Hsub, Hb.
Qed.

(** X9.  Every stop is the best of what was left: seen from the position
    before a stop (the entry position, or the stop before), no later stop
    of the route has a greater score, priority score of the level minus 5
    for each kilometre, than that stop. *)
Theorem each_stop_is_best_of_the_rest
    (db : Database) (bin_ids : list Z) (start_location : option (Qc * Qc))
    (pre : list RouteStop) (s : RouteStop) (post : list RouteStop) :
  bins (optimize_route calculate_distance db bin_ids start_location) = pre ++ s :: post ->
  let entry := loop_entry (load_bins db bin_ids) start_location in
  let position := last_position (current_lat entry) (current_lon entry) pre in
  forall t, In t post ->
    stop_score calculate_distance (fst position) (snd position) t
    <= stop_score calculate_distance (fst position) (snd position) s.
Proof.
  intros Hsplit entry position.
  assert (Hne : load_bins db bin_ids <> []).
  { intros E.
    rewrite (RouteFacts.optimize_route_nothing_loaded calculate_distance db bin_ids
               start_location E) in Hsplit.
    destruct pre; discriminate. }
  destruct (RouteFacts.optimize_route_loaded calculate_distance db bin_ids
              start_location Hne) as (_ & Hbins & _).
  fold entry in Hbins.
  destruct (RouteFacts.loop_entry_pool (load_bins db bin_ids) start_location)
    as (Hpool & Hroute & _).
  fold entry in Hpool, Hroute.
  assert (K : choices_kept (current_lat entry) (current_lon entry)
                (while_remaining calculate_distance (length (remaining_bins entry)) entry)).
  { apply while_remaining_choices. split; [|split].
    - intros b Hb. apply (load_bins_scored db bin_ids).
      apply (Permutation_in b (Permutation_sym Hpool)). exact Hb.
    - rewrite Hroute. reflexivity.
    - intros pre' s' post' E. rewrite Hroute in E. destruct pre'; discriminate. }
  destruct K as (_ & _ & K). rewrite <- Hbins in K.
  intros t Ht. exact (proj1 (K pre s post Hsplit) t Ht).
Qed.

(** With a start location the first stop is the first loaded bin among
    those of the greatest score from that location. *)
Lemma first_turn_from_start (loaded : list RouteBin) (lat lon : Qc) :
  loaded <> [] ->
  exists b before after,
    loaded = before ++ b :: after
    /\ (forall z, In z before -> score lat lon z < score lat lon b)
    /\ (forall z, In z after -> score lat lon z <= score lat lon b)
    /\ optimized_route (loop_body calculate_distance (loop_entry loaded (Some (lat, lon))))
       = [route_stop 1 b (calculate_distance lat lon (latitude b) (longitude b))].
Proof.
  intros Hne. unfold loop_entry, loop_body.
  cbn [current_lat current_lon remaining_bins optimized_route total_distance_acc].
  destruct (select_best calculate_distance lat lon loaded) as [[[b s] d]|] eqn:E.
  - destruct (select_best_first_max lat lon loaded b s d E)
      as (Hs & Hd & l1 & l2 & El & H1 & H2).
    exists b, l1, l2. rewrite <- Hs, Hd. repeat split; assumption.
  - destruct loaded as [|x rest]; [contradiction|].
    destruct (RouteFacts.select_best_nonempty calculate_distance lat lon x rest)
      as (b' & s' & E' & _).
    rewrite E' in E. discriminate.
Qed.

(** X10.  With a start location, stop 1 is the loaded bin with the
    greatest score seen from the start, the first such bin in the order
    of the request, and it reports its distance from the start rounded
    to two digits. *)
Theorem first_stop_from_start (db : Database) (bin_ids : list Z) (lat lon : Qc) :
  load_bins db bin_ids <> [] ->
  exists b before after rest,
    load_bins db bin_ids = before ++ b :: after
    /\ (forall z, In z before -> score lat lon z < score lat lon b)
    /\ (forall z, In z after -> score lat lon z <= score lat lon b)
    /\ bins (optimize_route calculate_distance db bin_ids (Some (lat, lon)))
       = route_stop 1 b (calculate_distance lat lon (latitude b) (longitude b)) :: rest.
Proof.
  intros Hne.
  destruct (first_turn_from_start (load_bins db bin_ids) lat lon Hne)
    as (b & before & after & Hsplit & H1 & H2 & Hbody).
  destruct (RouteFacts.optimize_route_loaded calculate_distance db bin_ids
              (Some (lat, lon)) Hne) as (_ & Hbins & _).
  set (entry := loop_entry (load_bins db bin_ids) (Some (lat, lon))) in *.
  assert (Hrun : while_remaining calculate_distance (length (remaining_bins entry)) entry
                 = while_remaining calculate_distance
                     (length (before ++ after)) (loop_body calculate_distance entry)).
  { assert (Er : remaining_bins entry = load_bins db bin_ids) by reflexivity.
    assert (El : length (remaining_bins entry) = S (length (before ++ after))).
    { rewrite Er, Hsplit, !length_app. cbn [length]. lia. }
    rewrite El. cbn [while_remaining].
    destruct (remaining_bins entry) eqn:E; [|reflexivity].
    rewrite <- Er in Hne. contradiction. }
  rewrite Hrun in Hbins.
  destruct (RouteFacts.while_remaining_extends calculate_distance
              (length (before ++ after)) (loop_body calculate_distance entry))
    as [rest Hrest].
  rewrite Hrest, Hbody in Hbins. cbn [app] in Hbins.
  exists b, before, after, rest. repeat split; assumption.
Qed.

End Greedy.

Lemma each_stop_is_best_of_the_rest_witness :
  stop_score Samples.grid_distance
    (fst (last_position
            (current_lat (loop_entry (load_bins Samples.town [3; 2; 1]%Z) None))
            (current_lon (loop_entry (load_bins Samples.town [3; 2; 1]%Z) None)) []))
    (snd (last_position
            (current_lat (loop_entry (load_bins Samples.town [3; 2; 1]%Z) None))
            (current_lon (loop_entry (load_bins Samples.town [3; 2; 1]%Z) None)) []))
    (nth 1 Samples.town_stops Samples.no_stop)
  <= stop_score Samples.grid_distance
       (fst (last_position
               (current_lat (loop_entry (load_bins Samples.town [3; 2; 1]%Z) None))
               (current_lon (loop_entry (load_bins Samples.town [3; 2; 1]%Z) None)) []))
       (snd (last_position
               (current_lat (loop_entry (load_bins Samples.town [3; 2; 1]%Z) None))
               (current_lon (loop_entry (load_bins Samples.town [3; 2; 1]%Z) None)) []))
       (nth 0 Samples.town_stops Samples.no_stop).
Proof.
  assert (Heq : bins (optimize_route Samples.grid_distance Samples.town [3; 2; 1]%Z None)
                = [] ++ nth 0 Samples.town_stops Samples.no_stop :: tl Samples.town_stops)
    by (vm_compute; reflexivity).
  assert (Hin : In (nth 1 Samples.town_stops Samples.no_stop) (tl Samples.town_stops))
    by (vm_compute; left; reflexivity).
  exact (each_stop_is_best_of_the_rest Samples.grid_distance Samples.town [3; 2; 1]%Z None
           [] (nth 0 Samples.town_stops Samples.no_stop) (tl Samples.town_stops) Heq
           (nth 1 Samples.town_stops Samples.no_stop) Hin).
Defined.

Lemma first_stop_from_start_witness :
  exists b rest,
    bins (optimize_route Samples.grid_distance Samples.town [3; 2; 1]%Z
            (Some (Q2Qc (286300 # 10000), Q2Qc (772200 # 10000))))
    = route_stop 1 b
        (Samples.grid_distance (Q2Qc (286300 # 10000)) (Q2Qc (772200 # 10000))
           (latitude b) (longitude b)) :: rest.
Proof.
  destruct (first_stop_from_start Samples.grid_distance Samples.town [3; 2; 1]%Z
              (Q2Qc (286300 # 10000)) (Q2Qc (772200 # 10000)))
    as (b & before & after & rest & _ & _ & _ & H).
  - vm_compute. discriminate.
  - exists b, rest. exact H.
Defined.

(** X11.  The priority score never decreases when the level rises, and
    is one of 20, 40, 60, 80 and 100. *)
Theorem priority_score_monotone (waste_level waste_level' : Qc) :
  (waste_level <= waste_level' ->
   (get_bin_priority_score waste_level <= get_bin_priority_score waste_level')%Z)
  /\ In (get_bin_priority_score waste_level) [20; 40; 60; 80; 100]%Z.
Proof.
  unfold get_bin_priority_score. split.
  - intros H.
    destruct (Qcleb (Qc_of_Z 90) waste_level) eqn:A90;
      destruct (Qcleb (Qc_of_Z 80) waste_level) eqn:A80;
      destruct (Qcleb (Qc_of_Z 70) waste_level) eqn:A70;
      destruct (Qcleb (Qc_of_Z 60) waste_level) eqn:A60;
      destruct (Qcleb (Qc_of_Z 90) waste_level') eqn:B90;
      destruct (Qcleb (Qc_of_Z 80) waste_level') eqn:B80;
      destruct (Qcleb (Qc_of_Z 70) waste_level') eqn:B70;
      destruct (Qcleb (Qc_of_Z 60) waste_level') eqn:B60;
      try (cbv; discriminate);
      exfalso;
      repeat match goal with
             | H : Qcleb _ _ = true |- _ => apply Qcleb_le in H
             | H : Qcleb _ _ = false |- _ => apply Qcleb_gt in H
             end;
      qc_to_q; lra.
  - destruct (Qcleb (Qc_of_Z 90) waste_level); [cbn; tauto|].
    destruct (Qcleb (Qc_of_Z 80) waste_level); [cbn; tauto|].
    destruct (Qcleb (Qc_of_Z 70) waste_level); [cbn; tauto|].
    destruct (Qcleb (Qc_of_Z 60) waste_level); cbn; tauto.
Qed.

Lemma priority_score_monotone_witness :
  (get_bin_priority_score (Qc_of_Z 65) <= get_bin_priority_score (Qc_of_Z 85))%Z.
Proof.
  apply (proj1 (priority_score_monotone (Qc_of_Z 65) (Qc_of_Z 85))). discriminate.
Defined.

Lemma load_bins_app (db : Database) (l l' : list Z) :
  load_bins db (l ++ l') = load_bins db l ++ load_bins db l'.
Proof.
  induction l as [|id l IH]; cbn [app load_bins]; [reflexivity|].
  destruct (get_bin_by_id db id) as [row|]; [|exact IH].
  destruct (truthy (row_latitude row) && truthy (row_longitude row)); [|exact IH].
  cbn [app]. rewrite IH. reflexivity.
Qed.

Lemma load_bins_length (db : Database) (bin_ids : list Z) :
  (length (load_bins db bin_ids) <= length bin_ids)%nat.
Proof.
  induction bin_ids as [|id ids IH]; cbn [load_bins length]; [lia|].
  destruct (get_bin_by_id db id) as [row|]; [|lia].
  destruct (truthy (row_latitude row) && truthy (row_longitude row)); cbn [length]; lia.
Qed.

(** The route is a function of the bins loaded. *)
Lemma optimize_route_of_loaded (calculate_distance : Qc -> Qc -> Qc -> Qc -> Qc)
    (db : Database) (bin_ids bin_ids' : list Z) (start_location : option (Qc * Qc)) :
  load_bins db bin_ids = load_bins db bin_ids' ->
  optimize_route calculate_distance db bin_ids start_location
  = optimize_route calculate_distance db bin_ids' start_location.
Proof.
  intros H.
  destruct (load_bins db bin_ids) as [|b bs] eqn:E.
  - rewrite !RouteFacts.optimize_route_nothing_loaded; auto.
  - unfold optimize_route.
    destruct bin_ids as [|i l]; [discriminate|].
    destruct bin_ids' as [|i' l']; [discriminate|].
    rewrite E, <- H. reflexivity.
Qed.

Lemma load_bins_skip (db : Database) (id : Z) :
  loads db id = false -> load_bins db [id] = [].
Proof.
  unfold loads. cbn [load_bins].
  destruct (get_bin_by_id db id) as [row|]; [|reflexivity].
  intros ->. reflexivity.
Qed.

Lemma load_bins_nil_iff (db : Database) (bin_ids : list Z) :
  load_bins db bin_ids = [] <-> forall id, In id bin_ids -> loads db id = false.
Proof.
  induction bin_ids as [|id ids IH]; cbn [load_bins].
  - split; [intros _ id [] | reflexivity].
  - unfold loads at 1. destruct (get_bin_by_id db id) as [row|] eqn:E.
    + destruct (truthy (row_latitude row) && truthy (row_longitude row)) eqn:T.
      * split; [discriminate|]. intros H. specialize (H id (or_introl eq_refl)).
        unfold loads in H. rewrite E, T in H. discriminate.
      * rewrite IH. split.
        -- intros H i [<-|Hi]; [unfold loads; rewrite E; exact T | exact (H i Hi)].
        -- intros H i Hi. apply H. right. exact Hi.
    + rewrite IH. split.
      * intros H i [<-|Hi]; [unfold loads; rewrite E; reflexivity | exact (H i Hi)].
      * intros H i Hi. apply H. right. exact Hi.
Qed.

(** X12.  An id that matches no row, or a row with a coordinate missing
    or 0, changes nothing: the route is the one of the request without
    it. *)
Theorem unusable_id_is_ignored (calculate_distance : Qc -> Qc -> Qc -> Qc -> Qc)
    (db : Database) (before : list Z) (id : Z) (after : list Z)
    (start_location : option (Qc * Qc)) :
  loads db id = false ->
  optimize_route calculate_distance db (before ++ id :: after) start_location
  = optimize_route calculate_distance db (before ++ after) start_location.
Proof.
  intros H. apply optimize_route_of_loaded.
  change (id :: after) with ([id] ++ after).
  rewrite !load_bins_app, (load_bins_skip db id H). reflexivity.
Qed.

Lemma unusable_id_is_ignored_witness :
  optimize_route Samples.grid_distance Samples.town ([3; 2] ++ 9 :: [1])%Z None
  = optimize_route Samples.grid_distance Samples.town ([3; 2] ++ [1])%Z None.
Proof.
  apply (unusable_id_is_ignored Samples.grid_distance Samples.town [3; 2]%Z 9 [1]%Z None).
  vm_compute. reflexivity.
Defined.

(** X13.  The route has no stop exactly when no requested id brings a
    bin: the list of ids is empty, or each id matches no row or a row
    with a coordinate missing or 0.  The answer is then the empty route,
    with total distance 0 and neither a count nor an average. *)
Theorem empty_route_iff (calculate_distance : Qc -> Qc -> Qc -> Qc -> Qc)
    (db : Database) (bin_ids : list Z) (start_location : option (Qc * Qc)) :
  (bins (optimize_route calculate_distance db bin_ids start_location) = []
   <-> forall id, In id bin_ids -> loads db id = false)
  /\ (bins (optimize_route calculate_distance db bin_ids start_location) = [] ->
      optimize_route calculate_distance db bin_ids start_location = empty_route).
Proof.
  assert (K : bins (optimize_route calculate_distance db bin_ids start_location) = []
              <-> load_bins db bin_ids = []).
  { split.
    - intros H. destruct (load_bins db bin_ids) as [|b bs] eqn:E; [reflexivity|].
      assert (P := RouteFacts.route_visits_each_loaded_bin_once calculate_distance db
                     bin_ids start_location).
      rewrite H, E in P. apply Permutation_sym, Permutation_nil in P. discriminate.
    - intros H. rewrite RouteFacts.optimize_route_nothing_loaded by exact H. reflexivity. }
  split.
  - rewrite K. apply load_bins_nil_iff.
  - intros H. apply RouteFacts.optimize_route_nothing_loaded. apply K. exact H.
Qed.

(** X14.  The stops are numbered 1, 2, ... in the order of the route;
    there is one stop for each bin loaded, so no more stops than ids
    requested, and on a route with stops [total_bins] is their number. *)
Theorem stops_are_numbered (calculate_distance : Qc -> Qc -> Qc -> Qc -> Qc)
    (db : Database) (bin_ids : list Z) (start_location : option (Qc * Qc)) :
  map sequence (bins (optimize_route calculate_distance db bin_ids start_location))
  = seq 1 (length (bins (optimize_route calculate_distance db bin_ids start_location)))
  /\ length (bins (optimize_route calculate_distance db bin_ids start_location))
     = length (load_bins db bin_ids)
  /\ (length (bins (optimize_route calculate_distance db bin_ids start_location))
      <= length bin_ids)%nat
  /\ (bins (optimize_route calculate_distance db bin_ids start_location) <> [] ->
      total_bins (optimize_route calculate_distance db bin_ids start_location)
      = Some (length (bins (optimize_route calculate_distance db bin_ids start_location)))).
Proof.
  assert (L : length (bins (optimize_route calculate_distance db bin_ids start_location))
              = length (load_bins db bin_ids)).
  { assert (P := RouteFacts.route_visits_each_loaded_bin_once calculate_distance db
                   bin_ids start_location).
    apply Permutation_length in P. rewrite !length_map in P. symmetry. exact P. }
  destruct (load_bins db bin_ids) as [|b bs] eqn:E.
  - rewrite (RouteFacts.optimize_route_nothing_loaded calculate_distance db bin_ids
               start_location E).
    cbn. repeat split; try lia. intros H. contradiction.
  - assert (Hne : load_bins db bin_ids <> []) by (rewrite E; discriminate).
    destruct (RouteFacts.optimize_route_loaded calculate_distance db bin_ids
                start_location Hne) as (_ & _ & _ & _ & Hs & Ht & _).
    split; [exact Hs|]. split; [exact L|]. split; [|intros _; exact Ht].
    rewrite L, <- E. apply load_bins_length.
Qed.

Lemma hop_distances_nonneg (calculate_distance : Qc -> Qc -> Qc -> Qc -> Qc)
    (lat lon : Qc) (route : list RouteStop) :
  (forall lat1 lon1 lat2 lon2, 0 <= calculate_distance lat1 lon1 lat2 lon2) ->
  Forall (fun d => 0 <= d) (hop_distances calculate_distance lat lon route).
Proof.
  intros H. revert lat lon. induction route as [|s route IH]; intros lat lon;
    cbn [hop_distances]; constructor; [apply H | apply IH].
Qed.

Lemma Qcsum_nonneg (l : list Qc) : Forall (fun d => 0 <= d) l -> 0 <= Qcsum l.
Proof.
  induction 1 as [|x l Hx _ IH]; [discriminate|].
  rewrite Qcsum_cons. revert Hx IH. generalize (Qcsum l). intros t Hx Ht.
  qc_to_q. lra.
Qed.

(** X15.  With a distance function that is never negative, neither is the
    total distance of a route nor the distance reported by a stop. *)
Theorem distances_nonneg (calculate_distance : Qc -> Qc -> Qc -> Qc -> Qc)
    (db : Database) (bin_ids : list Z) (start_location : option (Qc * Qc)) :
  (forall lat1 lon1 lat2 lon2, 0 <= calculate_distance lat1 lon1 lat2 lon2) ->
  0 <= total_distance (optimize_route calculate_distance db bin_ids start_location)
  /\ (forall stop,
        In stop (bins (optimize_route calculate_distance db bin_ids start_location)) ->
        0 <= distance_from_previous stop).
Proof.
  intros Hd.
  destruct (load_bins db bin_ids) as [|b bs] eqn:E.
  - rewrite (RouteFacts.optimize_route_nothing_loaded calculate_distance db bin_ids
               start_location E).
    split; [discriminate | intros stop []].
  - assert (Hne : load_bins db bin_ids <> []) by (rewrite E; discriminate).
    destruct (RouteFacts.optimize_route_loaded calculate_distance db bin_ids
                start_location Hne) as (_ & _ & Ht & Hh & _).
    set (r := optimize_route calculate_distance db bin_ids start_location) in *.
    set (hops := hop_distances calculate_distance _ _ (bins r)) in *.
    assert (F : Forall (fun d => 0 <= d) hops) by (apply hop_distances_nonneg; exact Hd).
    split.
    + rewrite Ht. apply (py_round_ge_Z _ 0 2). apply Qcsum_nonneg. exact F.
    + intros stop Hs.
      assert (Hin : In (distance_from_previous stop) (map distance_from_previous (bins r)))
        by (apply in_map; exact Hs).
      rewrite Hh in Hin. apply in_map_iff in Hin. destruct Hin as (d & <- & Hd').
      apply (py_round_ge_Z _ 0 2). rewrite Forall_forall in F. apply F. exact Hd'.
Qed.

Lemma distances_nonneg_witness :
  0 <= total_distance
         (optimize_route Samples.grid_distance Samples.town [3; 2; 1]%Z None).
Proof.
  exact (proj1 (distances_nonneg Samples.grid_distance Samples.town [3; 2; 1]%Z None
                  RouteFacts.grid_distance_nonneg)).
Defined.

Lemma get_bin_by_id_found (db : Database) (id : Z) (row : BinRow) :
  get_bin_by_id db id = Some row -> In row (bins_table db) /\ row_bin_id row = id.
Proof.
  unfold get_bin_by_id. intros H. apply find_some in H.
  destruct H as [Hin He]. apply Z.eqb_eq in He. auto.
Qed.

Lemma load_bins_from_rows (db : Database) (bin_ids : list Z) (b : RouteBin) :
  In b (load_bins db bin_ids) ->
  exists row,
    In (bin_id b) bin_ids
    /\ get_bin_by_id db (bin_id b) = Some row
    /\ bin_fields b
       = (row_bin_id row, row_bin_code row, row_location row,
          float_of (row_latitude row), float_of (row_longitude row),
          row_waste_level row).
Proof.
  induction bin_ids as [|id ids IH]; cbn [load_bins]; [intros []|].
  assert (R : In b (load_bins db ids) ->
              exists row,
                In (bin_id b) (id :: ids)
                /\ get_bin_by_id db (bin_id b) = Some row
                /\ bin_fields b
                   = (row_bin_id row, row_bin_code row, row_location row,
                      float_of (row_latitude row), float_of (row_longitude row),
                      row_waste_level row)).
  { intros H. destruct (IH H) as (row & H1 & H2 & H3).
    exists row. cbn [In]. auto. }
  destruct (get_bin_by_id db id) as [row|] eqn:E; [|exact R].
  destruct (truthy (row_latitude row) && truthy (row_longitude row)); [|exact R].
  intros [<-|H]; [|exact (R H)].
  destruct (get_bin_by_id_found db id row E) as [_ Hid].
  exists row. cbn [bin_id In]. rewrite Hid. repeat split; auto.
Qed.

Lemma stop_from_row (calculate_distance : Qc -> Qc -> Qc -> Qc -> Qc)
    (db : Database) (bin_ids : list Z) (start_location : option (Qc * Qc))
    (stop : RouteStop) :
  In stop (bins (optimize_route calculate_distance db bin_ids start_location)) ->
  In (stop_bin_id stop) bin_ids
  /\ exists row,
       get_bin_by_id db (stop_bin_id stop) = Some row
       /\ stop_bin_code stop = row_bin_code row
       /\ stop_location stop = row_location row
       /\ row_latitude row = Some (stop_latitude stop)
       /\ row_longitude row = Some (stop_longitude stop)
       /\ stop_waste_level stop = row_waste_level row.
Proof.
  intros Hs.
  assert (Hf : In (stop_fields stop)
                 (map stop_fields
                    (bins (optimize_route calculate_distance db bin_ids start_location))))
    by (apply in_map; exact Hs).
  apply (Permutation_in _ (Permutation_sym
           (RouteFacts.route_visits_each_loaded_bin_once calculate_distance db bin_ids
              start_location))) in Hf.
  apply in_map_iff in Hf. destruct Hf as (b & Hb & Hin).
  assert (Hl := Hin).
  destruct (load_bins_from_rows db bin_ids b Hin) as (row & Hid & Hrow & Hfields).
  rewrite Hfields in Hb. unfold stop_fields in Hb.
  injection Hb as E1 E2 E3 E4 E5 E6.
  assert (Eid : bin_id b = stop_bin_id stop).
  { destruct (get_bin_by_id_found db _ row Hrow) as [_ H']. congruence. }
  rewrite Eid in Hid, Hrow. split; [exact Hid|].
  exists row. split; [exact Hrow|].
  assert (T : loads db (stop_bin_id stop) = true).
  { destruct (loads db (stop_bin_id stop)) eqn:L; [reflexivity|].
    exfalso. clear - Hl L Eid.
    induction bin_ids as [|id ids IH]; cbn [load_bins] in Hl; [destruct Hl|].
    destruct (get_bin_by_id db id) as [r|] eqn:E; [|exact (IH Hl)].
    destruct (truthy (row_latitude r) && truthy (row_longitude r)) eqn:T; [|exact (IH Hl)].
    destruct Hl as [<-|Hl]; [|exact (IH Hl)].
    cbn [bin_id] in Eid. unfold loads in L.
    destruct (get_bin_by_id_found db id r E) as [_ Hr].
    rewrite <- Eid, Hr, E, T in L. discriminate. }
  unfold loads in T. rewrite Hrow in T. apply andb_true_iff in T. destruct T as [T1 T2].
  destruct (row_latitude row) as [la|]; [|discriminate].
  destruct (row_longitude row) as [lo|]; [|discriminate].
  cbn [float_of] in *.
  split; [symmetry; exact E2|]. split; [symmetry; exact E3|].
  split; [f_equal; exact E4|]. split; [f_equal; exact E5|].
  symmetry; exact E6.
Qed.

Lemma route_length (calculate_distance : Qc -> Qc -> Qc -> Qc -> Qc)
    (db : Database) (bin_ids : list Z) (start_location : option (Qc * Qc)) :
  length (bins (optimize_route calculate_distance db bin_ids start_location))
  = length (load_bins db bin_ids).
Proof.
  assert (P := RouteFacts.route_visits_each_loaded_bin_once calculate_distance db
                 bin_ids start_location).
  apply Permutation_length in P. rewrite !length_map in P. symmetry. exact P.
Qed.

(** X16.  Every stop is a bin that was asked for and carries what the
    table says of it: its id is among the requested ids, and its code,
    location, coordinates and level are those of the row with that id. *)
Theorem stops_come_from_rows (calculate_distance : Qc -> Qc -> Qc -> Qc -> Qc)
    (db : Database) (bin_ids : list Z) (start_location : option (Qc * Qc))
    (stop : RouteStop) :
  In stop (bins (optimize_route calculate_distance db bin_ids start_location)) ->
  In (stop_bin_id stop) bin_ids
  /\ exists row,
       get_bin_by_id db (stop_bin_id stop) = Some row
       /\ stop_bin_code stop = row_bin_code row
       /\ stop_location stop = row_location row
       /\ row_latitude row = Some (stop_latitude stop)
       /\ row_longitude row = Some (stop_longitude stop)
       /\ stop_waste_level stop = row_waste_level row.
Proof. apply stop_from_row. Qed.

Lemma stops_come_from_rows_witness :
  In (stop_bin_id (nth 0 Samples.town_stops Samples.no_stop)) [3; 2; 1]%Z.
Proof.
  assert (Hin : In (nth 0 Samples.town_stops Samples.no_stop)
                   (bins (optimize_route Samples.grid_distance Samples.town
                            [3; 2; 1]%Z None)))
    by (vm_compute; left; reflexivity).
  exact (proj1 (stops_come_from_rows Samples.grid_distance Samples.town [3; 2; 1]%Z None
                  (nth 0 Samples.town_stops Samples.no_stop) Hin)).
Defined.

(** *** Routes by zone *)

Section Zones.
Variable calculate_distance : Qc -> Qc -> Qc -> Qc -> Qc.
Variable db : Database.
Variable answers : ZoneAnswers.

Lemma zone_route_zone (z : string) (max_bins : Z) :
  zone (optimize_route_by_zone calculate_distance db answers z max_bins) = z.
Proof.
  unfold optimize_route_by_zone.
  destruct (zone_bins_of answers z max_bins) as [[|b bs]|]; reflexivity.
Qed.

(** X17.  The route of a zone stays within the answer of the zone query:
    it has no more stops than the answer has rows, and every stop is a
    bin of the answer.  When the query fails or answers with no row, the
    route has no stop, total distance 0 and no method; in every case it
    carries the zone asked for. *)
Theorem zone_route_within_answer (z : string) (max_bins : Z) :
  (forall rows, zone_bins_of answers z max_bins = Some rows ->
     (length (zone_bins (optimize_route_by_zone calculate_distance db answers z max_bins))
      <= length rows)%nat
     /\ (forall stop,
           In stop (zone_bins (optimize_route_by_zone calculate_distance db answers
                                 z max_bins)) ->
           In (stop_bin_id stop) (map row_bin_id rows)))
  /\ (zone_bins_of answers z max_bins = None \/ zone_bins_of answers z max_bins = Some [] ->
      zone_bins (optimize_route_by_zone calculate_distance db answers z max_bins) = []
      /\ zone_total_distance (optimize_route_by_zone calculate_distance db answers
                                z max_bins) = 0
      /\ zone_optimization_method (optimize_route_by_zone calculate_distance db answers
                                     z max_bins) = None)
  /\ zone (optimize_route_by_zone calculate_distance db answers z max_bins) = z.
Proof.
  split; [|split; [|apply zone_route_zone]].
  - intros rows Hq. unfold optimize_route_by_zone. rewrite Hq.
    destruct rows as [|b bs]; [cbn; split; [lia | intros stop []]|].
    cbn [zone_bins]. split.
    + rewrite route_length. rewrite <- (length_map row_bin_id (b :: bs)).
      apply load_bins_length.
    + intros stop Hs.
      exact (proj1 (stop_from_row calculate_distance db _ None stop Hs)).
  - unfold optimize_route_by_zone. intros [-> | ->]; repeat split.
Qed.

Lemma daily_routes_of_In (zones : list string) (n : Z) (r : ZoneRoute) :
  In r (daily_routes_of calculate_distance db answers zones n) ->
  zone_bins r <> []
  /\ In (zone r) zones
  /\ r = optimize_route_by_zone calculate_distance db answers (zone r) n.
Proof.
  induction zones as [|z zones IH]; cbn [daily_routes_of]; [intros []|].
  destruct (zone_bins (optimize_route_by_zone calculate_distance db answers z n)) eqn:E.
  - intros H. destruct (IH H) as (H1 & H2 & H3). cbn [In]. auto.
  - intros [<-|H].
    + rewrite zone_route_zone. split; [rewrite E; discriminate|].
      split; [left; reflexivity | reflexivity].
    + destruct (IH H) as (H1 & H2 & H3). cbn [In]. auto.
Qed.

Lemma daily_routes_of_zones (zones : list string) (n : Z) :
  map zone (daily_routes_of calculate_distance db answers zones n)
  = filter (fun z =>
              match zone_bins (optimize_route_by_zone calculate_distance db answers z n) with
              | [] => false
              | _ :: _ => true
              end) zones.
Proof.
  induction zones as [|z zones IH]; cbn [daily_routes_of filter]; [reflexivity|].
  destruct (zone_bins (optimize_route_by_zone calculate_distance db answers z n)) eqn:E.
  - exact IH.
  - cbn [map]. rewrite zone_route_zone, IH. reflexivity.
Qed.

(** X18.  [create_daily_routes] returns no route without stops.  Its
    routes are the routes of the zones of the list (the list given, or
    the answer of the zone query, or no zone when that query fails) that
    have a stop, in the order of the list, one for each such zone. *)
Theorem daily_routes_have_stops (zones : option (list string)) (bins_per_route : Z) :
  (forall r,
     In r (create_daily_routes calculate_distance db answers zones bins_per_route) ->
     zone_bins r <> []
     /\ r = optimize_route_by_zone calculate_distance db answers (zone r) bins_per_route)
  /\ map zone (create_daily_routes calculate_distance db answers zones bins_per_route)
     = filter (fun z =>
                 match zone_bins (optimize_route_by_zone calculate_distance db answers
                                    z bins_per_route) with
                 | [] => false
                 | _ :: _ => true
                 end)
         (match zones with
          | Some zones => zones
          | None => match active_zones answers with
                    | Some zone_result => zone_result
                    | None => []
                    end
          end).
Proof.
  unfold create_daily_routes. split.
  - intros r Hr. apply daily_routes_of_In in Hr. tauto.
  - apply daily_routes_of_zones.
Qed.

End Zones.

End RouteMore.

(** ** The sensor simulator *)

Module SimulatorFacts.
Import Simulator.

Lemma this_dec (n : Z) (d : positive) : (this (dec n d) == n # d)%Q.
Proof. unfold dec, Q2Qc; cbn [this]. apply Qred_correct. Qed.

Lemma py_clamp_range (x : Qc) :
  0 <= py_max 0 (py_min (Qc_of_Z 100) x) /\ py_max 0 (py_min (Qc_of_Z 100) x) <= Qc_of_Z 100.
Proof.
  unfold py_max, py_min.
  destruct (Qcltb x (Qc_of_Z 100)) eqn:A.
  - apply Qcltb_lt in A. destruct (Qcltb 0 x) eqn:B.
    + apply Qcltb_lt in B. split; apply Qclt_le_weak; assumption.
    + split; [apply Qcle_refl | discriminate].
  - destruct (Qcltb 0 (Qc_of_Z 100)) eqn:B; [|discriminate].
    split; [discriminate | apply Qcle_refl].
Qed.

Lemma py_clamp_mono (x y : Qc) :
  x <= y ->
  py_max 0 (py_min (Qc_of_Z 100) x) <= py_max 0 (py_min (Qc_of_Z 100) y).
Proof.
  intros H. unfold py_max, py_min.
  destruct (Qcltb x (Qc_of_Z 100)) eqn:A; destruct (Qcltb y (Qc_of_Z 100)) eqn:B;
    repeat match goal with
           | |- context [Qcltb ?a ?b] => let E := fresh "E" in destruct (Qcltb a b) eqn:E
           end;
    repeat match goal with
           | H : Qcltb _ _ = true |- _ => apply Qcltb_lt in H
           | H : Qcltb _ _ = false |- _ => apply Qcltb_ge in H
           end;
    qc_to_q; lra.
Qed.

Lemma py_clamp_id (x : Qc) :
  0 <= x -> x <= Qc_of_Z 100 -> py_max 0 (py_min (Qc_of_Z 100) x) = x.
Proof.
  intros H0 H1. unfold py_max, py_min.
  destruct (Qcltb x (Qc_of_Z 100)) eqn:A.
  - destruct (Qcltb 0 x) eqn:B; [reflexivity|].
    apply Qcltb_ge in B. apply Qcle_antisym; assumption.
  - apply Qcltb_ge in A. change (Qcltb 0 (Qc_of_Z 100)) with true. cbv iota.
    apply Qcle_antisym; assumption.
Qed.

(** The reading, from the three values drawn at most. *)
Lemma generate_sensor_reading_eq (current_level : Qc) (bin_type : string) (g : Rng) :
  let range := match fill_rates bin_type with
               | Some range => range
               | None => (Qc_of_Z 1, Qc_of_Z 3)
               end in
  let r1 := source g (used g) in
  let r2 := source g (S (used g)) in
  let r3 := source g (S (S (used g))) in
  generate_sensor_reading current_level bin_type g
  = if Qcltb r2 (dec 5 100)
    then (py_round (py_max 0 (py_min (Qc_of_Z 100)
                      (current_level
                       + - (dec 5 10 + (Qc_of_Z 2 - dec 5 10) * r3)))) 2,
          {| source := source g; used := S (S (S (used g))) |})
    else (py_round (py_max 0 (py_min (Qc_of_Z 100)
                      (current_level
                       + (fst range + (snd range - fst range) * r1)))) 2,
          {| source := source g; used := S (S (used g)) |}).
Proof.
  cbv zeta. unfold generate_sensor_reading, uniform, random. cbn [source used].
  destruct (match fill_rates bin_type with Some range => range | None => _ end) as [lo hi].
  cbn [fst snd].
  destruct (Qcltb (source g (S (used g))) (dec 5 100)); reflexivity.
Qed.

Lemma generated_level_range (current_level : Qc) (bin_type : string) (g : Rng) :
  0 <= fst (generate_sensor_reading current_level bin_type g)
  /\ fst (generate_sensor_reading current_level bin_type g) <= Qc_of_Z 100.
Proof.
  rewrite generate_sensor_reading_eq. cbv zeta.
  destruct (Qcltb _ (dec 5 100)); cbn [fst];
    (split; [apply (py_round_ge_Z _ 0 2) | apply py_round_le_Z]);
    apply py_clamp_range.
Qed.

(** X19.  Whatever the level before and whatever is drawn, a generated
    level lies between 0 and 100. *)
Theorem generated_level_in_range (current_level : Qc) (bin_type : string) (g : Rng) :
  0 <= fst (generate_sensor_reading current_level bin_type g)
  /\ fst (generate_sensor_reading current_level bin_type g) <= Qc_of_Z 100.
Proof. apply generated_level_range. Qed.

Lemma steady_fair : fair Samples.steady.
Proof. intros n. split; [discriminate | reflexivity]. Qed.

Lemma uniform_range (a b r : Qc) :
  a <= b -> 0 <= r -> r <= 1 -> a <= a + (b - a) * r /\ a + (b - a) * r <= b.
Proof.
  intros Hab H0 H1.
  assert (Hd : 0 <= b - a) by (qc_to_q; lra).
  assert (P0 : 0 <= (b - a) * r).
  { replace 0 with (0 * r) by ring. apply Qcmult_le_compat_r; assumption. }
  assert (P1 : (b - a) * r <= b - a).
  { replace ((b - a) * r) with (r * (b - a)) by ring.
    replace (b - a) with (1 * (b - a)) at 2 by ring.
    apply Qcmult_le_compat_r; assumption. }
  revert P0 P1. generalize ((b - a) * r). intros m P0 P1.
  split; qc_to_q; lra.
Qed.

Lemma fill_range (bin_type : string) :
  let range := match fill_rates bin_type with
               | Some range => range
               | None => (Qc_of_Z 1, Qc_of_Z 3)
               end in
  0 <= fst range /\ fst range <= snd range.
Proof.
  cbv zeta. unfold fill_rates.
  repeat match goal with
         | |- context [String.eqb ?a ?b] => destruct (String.eqb a b)
         end; cbn [fst snd]; split; discriminate.
Qed.

(** X20.  With values drawn in [0, 1), a generated temperature lies
    between 24 and 32 and a generated humidity between 45 and 75; the
    status of a level with such a temperature is therefore decided by the
    level alone: error from 95, warning from 85, normal below. *)
Theorem generated_climate_in_range (g : Rng) (waste_level : Qc) :
  fair g ->
  (Qc_of_Z 24 <= fst (generate_temperature g)
   /\ fst (generate_temperature g) <= Qc_of_Z 32)
  /\ (Qc_of_Z 45 <= fst (generate_humidity g)
      /\ fst (generate_humidity g) <= Qc_of_Z 75)
  /\ determine_sensor_status waste_level (fst (generate_temperature g))
       (fst (generate_humidity g))
     = (if Qcleb (Qc_of_Z 95) waste_level then "error"
        else if Qcleb (Qc_of_Z 85) waste_level then "warning"
        else "normal")%string.
Proof.
  intros Hg. destruct (Hg (used g)) as [H0 H1]. apply Qclt_le_weak in H1.
  assert (T : Qc_of_Z 24 <= fst (generate_temperature g)
              /\ fst (generate_temperature g) <= Qc_of_Z 32).
  { unfold generate_temperature, uniform, random. cbn [fst].
    destruct (uniform_range (Qc_of_Z (-3)) (Qc_of_Z 5) (source g (used g)))
      as [A B]; [discriminate | exact H0 | exact H1 |].
    revert A B. generalize (Qc_of_Z (-3) + (Qc_of_Z 5 - Qc_of_Z (-3)) * source g (used g)).
    intros v A B.
    split; [apply py_round_ge_Z | apply py_round_le_Z]; qc_to_q; lra. }
  split; [exact T|]. split.
  - unfold generate_humidity, uniform, random. cbn [fst].
    destruct (uniform_range (Qc_of_Z (-15)) (Qc_of_Z 15) (source g (used g)))
      as [A B]; [discriminate | exact H0 | exact H1 |].
    revert A B. generalize (Qc_of_Z (-15) + (Qc_of_Z 15 - Qc_of_Z (-15)) * source g (used g)).
    intros v A B.
    split; [apply py_round_ge_Z | apply py_round_le_Z]; qc_to_q; lra.
  - unfold determine_sensor_status. destruct T as [_ T].
    apply Qcltb_ge in T. rewrite T, orb_false_r. reflexivity.
Qed.

(** X21.  A reading moves the level one way only: with values drawn in
    [0, 1) and a level between 0 and 100 before, the new level is not
    below the old one rounded unless the value drawn for the 5 % chance
    is under 0.05, and is then not above it. *)
Theorem generated_level_direction (current_level : Qc) (bin_type : string) (g : Rng) :
  fair g ->
  0 <= current_level -> current_level <= Qc_of_Z 100 ->
  if Qcltb (source g (S (used g))) (dec 5 100)
  then fst (generate_sensor_reading current_level bin_type g) <= py_round current_level 2
  else py_round current_level 2 <= fst (generate_sensor_reading current_level bin_type g).
Proof.
  intros Hg H0 H100. rewrite generate_sensor_reading_eq. cbv zeta.
  assert (C : forall x,
             (x <= current_level ->
              py_max 0 (py_min (Qc_of_Z 100) x) <= current_level)
             /\ (current_level <= x ->
                 current_level <= py_max 0 (py_min (Qc_of_Z 100) x))).
  { intros x. split; intros Hx; apply py_clamp_mono in Hx;
      rewrite (py_clamp_id current_level H0 H100) in Hx; exact Hx. }
  destruct (Qcltb (source g (S (used g))) (dec 5 100)); cbn [fst];
    apply py_round_mono; apply C.
  - destruct (Hg (S (S (used g)))) as [R0 R1]. apply Qclt_le_weak in R1.
    destruct (uniform_range (dec 5 10) (Qc_of_Z 2) _ ltac:(discriminate) R0 R1) as [A _].
    revert A. generalize (dec 5 10 + (Qc_of_Z 2 - dec 5 10) * source g (S (S (used g)))).
    intros v A. assert (D : 0 <= dec 5 10) by discriminate.
    revert D A. generalize (dec 5 10). intros h D A. qc_to_q. lra.
  - destruct (Hg (used g)) as [R0 R1]. apply Qclt_le_weak in R1.
    destruct (fill_range bin_type) as [F0 F1].
    destruct (uniform_range _ _ _ F1 R0 R1) as [A _].
    revert F0 A.
    generalize (fst match fill_rates bin_type with
                    | Some range => range
                    | None => (Qc_of_Z 1, Qc_of_Z 3)
                    end).
    intros lo.
    generalize (snd match fill_rates bin_type with
                    | Some range => range
                    | None => (Qc_of_Z 1, Qc_of_Z 3)
                    end).
    intros hi. generalize ((hi - lo) * source g (used g)). intros m F0 A.
    qc_to_q. lra.
Qed.

(** *** The tables *)

Lemma find_map_update (id id' : Z) (level : Qc) (l : list SimBin) :
  find (fun b => Z.eqb (row_bin_id (bin b)) id')
    (map (fun b => if Z.eqb (row_bin_id (bin b)) id then set_waste_level level b else b) l)
  = option_map (fun b => if Z.eqb (row_bin_id (bin b)) id then set_waste_level level b else b)
      (find (fun b => Z.eqb (row_bin_id (bin b)) id') l).
Proof.
  induction l as [|b l IH]; cbn [map find option_map]; [reflexivity|].
  destruct (Z.eqb (row_bin_id (bin b)) id) eqn:E; cbn [set_waste_level bin row_bin_id];
    destruct (Z.eqb (row_bin_id (bin b)) id') eqn:E'; cbn [option_map];
    rewrite ?E; auto.
Qed.

Lemma get_bin_by_id_id (st : Store) (id : Z) (b : SimBin) :
  get_bin_by_id st id = Some b -> row_bin_id (bin b) = id.
Proof.
  unfold get_bin_by_id. intros H. apply find_some in H. apply Z.eqb_eq, H.
Qed.

(** What [update_waste_level] does to the tables. *)
Lemma update_waste_level_tables (st : Store) (id : Z) (level : Qc) :
  bins (update_waste_level st id level)
  = map (fun b => if Z.eqb (row_bin_id (bin b)) id then set_waste_level level b else b)
      (bins st)
  /\ sensor_logs (update_waste_level st id level) = sensor_logs st
  /\ collection_logs (update_waste_level st id level) = collection_logs st
  /\ alerts (update_waste_level st id level)
     = alerts st
       ++ match get_bin_by_id st id with
          | Some b =>
              if Qcleb (Qc_of_Z 80) level
              then [{| alert_bin_id := id;
                       alert_type := "full_bin";
                       message_bin_code := row_bin_code (bin b);
                       message_location := row_location (bin b);
                       message_waste_level := level;
                       severity := if Qcleb (Qc_of_Z 90) level
                                   then "critical"%string else "warning"%string;
                       alert_status := "active" |}]
              else []
          | None => []
          end.
Proof.
  unfold update_waste_level, create_full_bin_alert, get_bin_by_id.
  cbn [bins]. rewrite find_map_update.
  destruct (find (fun b => Z.eqb (row_bin_id (bin b)) id) (bins st)) as [b|] eqn:F;
    cbn [option_map]; destruct (Qcleb (Qc_of_Z 80) level);
    cbn [bins sensor_logs alerts collection_logs]; rewrite ?app_nil_r; repeat split.
  apply find_some in F. destruct F as [_ F]. rewrite F.
  reflexivity.
Qed.

Lemma get_bin_by_id_updated (st : Store) (id id' : Z) (level : Qc) :
  get_bin_by_id (update_waste_level st id level) id'
  = option_map (fun b => if Z.eqb (row_bin_id (bin b)) id then set_waste_level level b else b)
      (get_bin_by_id st id').
Proof.
  unfold get_bin_by_id at 1.
  rewrite (proj1 (update_waste_level_tables st id level)). apply find_map_update.
Qed.

(** X22.  [update_waste_level] sets the level of the bin with the id and
    leaves every other bin as it is; it writes one alert when the level is
    80 or more and the bin exists, critical from 90 and a warning below,
    and no alert otherwise. *)
Theorem update_waste_level_effect (st : Store) (bin_id : Z) (waste_level : Qc) :
  (forall b, get_bin_by_id st bin_id = Some b ->
     get_bin_by_id (update_waste_level st bin_id waste_level) bin_id
     = Some (set_waste_level waste_level b))
  /\ (forall id', id' <> bin_id ->
        get_bin_by_id (update_waste_level st bin_id waste_level) id'
        = get_bin_by_id st id')
  /\ (Qc_of_Z 80 <= waste_level ->
      forall b, get_bin_by_id st bin_id = Some b ->
      exists alert,
        alerts (update_waste_level st bin_id waste_level) = alerts st ++ [alert]
        /\ alert_bin_id alert = bin_id
        /\ message_waste_level alert = waste_level
        /\ (severity alert = "critical"%string <-> Qc_of_Z 90 <= waste_level)
        /\ (severity alert = "warning"%string <-> waste_level < Qc_of_Z 90))
  /\ (waste_level < Qc_of_Z 80 \/ get_bin_by_id st bin_id = None ->
      alerts (update_waste_level st bin_id waste_level) = alerts st).
Proof.
  destruct (update_waste_level_tables st bin_id waste_level) as (_ & _ & _ & Ha).
  split; [|split; [|split]].
  - intros b Hb. rewrite get_bin_by_id_updated, Hb. cbn [option_map].
    rewrite (get_bin_by_id_id st bin_id b Hb), Z.eqb_refl. reflexivity.
  - intros id' Hne. rewrite get_bin_by_id_updated.
    destruct (get_bin_by_id st id') as [b|] eqn:E; [|reflexivity].
    cbn [option_map]. rewrite (get_bin_by_id_id st id' b E).
    destruct (Z.eqb_spec id' bin_id); [contradiction | reflexivity].
  - intros H80 b Hb. rewrite Hb in Ha. apply Qcleb_le in H80. rewrite H80 in Ha.
    eexists. split; [exact Ha|]. cbn [alert_bin_id message_waste_level severity].
    split; [reflexivity|]. split; [reflexivity|].
    destruct (Qcleb (Qc_of_Z 90) waste_level) eqn:E.
    + apply Qcleb_le in E. split; split; auto; try discriminate.
      intros H. contradiction (Qclt_not_le _ _ H E).
    + apply Qcleb_gt in E. split; split; auto; try discriminate.
      intros H. contradiction (Qclt_not_le _ _ E H).
  - intros [H|H].
    + apply Qcleb_gt in H. rewrite H in Ha.
      destruct (get_bin_by_id st bin_id); rewrite Ha; apply app_nil_r.
    + rewrite H in Ha. rewrite Ha. apply app_nil_r.
Qed.

(** [update_bin_sensor] on an active bin, step by step. *)
Lemma update_bin_sensor_active (st : Store) (g : Rng) (id : Z) (b : SimBin) :
  get_bin_by_id st id = Some b ->
  row_status (bin b) = "active"%string ->
  let reading := generate_sensor_reading (row_waste_level (bin b)) (bin_type b) g in
  let temp := generate_temperature (snd reading) in
  let hum := generate_humidity (snd temp) in
  update_bin_sensor st g id
  = ({| bins := bins (update_waste_level st id (fst reading));
        sensor_logs :=
          sensor_logs (update_waste_level st id (fst reading))
          ++ [{| sensor_bin_id := id;
                 sensor_waste_level := fst reading;
                 temperature := fst temp;
                 humidity := fst hum;
                 sensor_status :=
                   determine_sensor_status (fst reading) (fst temp) (fst hum) |}];
        alerts := alerts (update_waste_level st id (fst reading));
        collection_logs := collection_logs (update_waste_level st id (fst reading)) |},
     snd hum).
Proof.
  intros Hb Hs. cbv zeta. unfold update_bin_sensor. rewrite Hb, Hs.
  cbn [String.eqb Ascii.eqb Bool.eqb negb].
  destruct (generate_sensor_reading _ _ g) as [new g1]. cbn [fst snd].
  destruct (generate_temperature g1) as [t g2]. cbn [fst snd].
  destruct (generate_humidity g2) as [h g3]. reflexivity.
Qed.

Lemma update_bin_sensor_idle (st : Store) (g : Rng) (id : Z) :
  (get_bin_by_id st id = None
   \/ exists b, get_bin_by_id st id = Some b /\ row_status (bin b) <> "active"%string) ->
  update_bin_sensor st g id = (st, g).
Proof.
  unfold update_bin_sensor. intros [->|(b & -> & Hs)]; [reflexivity|].
  destruct (String.eqb (row_status (bin b)) "active") eqn:E; [|reflexivity].
  apply String.eqb_eq in E. contradiction.
Qed.

(** [update_bin_sensor], case by case. *)
Lemma update_bin_sensor_cases (st : Store) (g : Rng) (bin_id : Z) :
  ((get_bin_by_id st bin_id = None
    \/ exists b, get_bin_by_id st bin_id = Some b
                 /\ row_status (bin b) <> "active"%string) ->
   update_bin_sensor st g bin_id = (st, g))
  /\ (forall b,
        get_bin_by_id st bin_id = Some b ->
        row_status (bin b) = "active"%string ->
        exists log,
          sensor_logs (fst (update_bin_sensor st g bin_id)) = sensor_logs st ++ [log]
          /\ sensor_bin_id log = bin_id
          /\ sensor_waste_level log
             = fst (generate_sensor_reading (row_waste_level (bin b)) (bin_type b) g)
          /\ 0 <= sensor_waste_level log <= Qc_of_Z 100
          /\ get_bin_by_id (fst (update_bin_sensor st g bin_id)) bin_id
             = Some (set_waste_level (sensor_waste_level log) b)
          /\ (forall id', id' <> bin_id ->
                get_bin_by_id (fst (update_bin_sensor st g bin_id)) id'
                = get_bin_by_id st id')
          /\ collection_logs (fst (update_bin_sensor st g bin_id)) = collection_logs st
          /\ (alerts (fst (update_bin_sensor st g bin_id)) = alerts st
              \/ exists alert,
                   alerts (fst (update_bin_sensor st g bin_id)) = alerts st ++ [alert]
                   /\ Qc_of_Z 80 <= sensor_waste_level log)).
Proof.
  split; [apply update_bin_sensor_idle|].
  intros b Hb Hs. rewrite (update_bin_sensor_active st g bin_id b Hb Hs). cbv zeta.
  set (new := fst (generate_sensor_reading (row_waste_level (bin b)) (bin_type b) g)).
  destruct (update_waste_level_tables st bin_id new) as (Eb & El & Ec & Ea).
  eexists. cbn [fst sensor_logs]. split; [rewrite El; reflexivity|].
  cbn [sensor_bin_id sensor_waste_level collection_logs alerts].
  split; [reflexivity|]. split; [reflexivity|].
  split; [apply generated_level_range|].
  assert (G : forall id',
             get_bin_by_id
               {| bins := bins (update_waste_level st bin_id new);
                  sensor_logs := sensor_logs (update_waste_level st bin_id new)
                                 ++ [{| sensor_bin_id := bin_id;
                                        sensor_waste_level := new;
                                        temperature := fst (generate_temperature
                                          (snd (generate_sensor_reading
                                                  (row_waste_level (bin b)) (bin_type b) g)));
                                        humidity := fst (generate_humidity
                                          (snd (generate_temperature
                                            (snd (generate_sensor_reading
                                                    (row_waste_level (bin b)) (bin_type b) g)))));
                                        sensor_status := determine_sensor_status new
                                          (fst (generate_temperature
                                            (snd (generate_sensor_reading
                                                    (row_waste_level (bin b)) (bin_type b) g))))
                                          (fst (generate_humidity
                                            (snd (generate_temperature
                                              (snd (generate_sensor_reading
                                                (row_waste_level (bin b)) (bin_type b) g)))))) |}];
                  alerts := alerts (update_waste_level st bin_id new);
                  collection_logs := collection_logs (update_waste_level st bin_id new) |} id'
             = get_bin_by_id (update_waste_level st bin_id new) id') by reflexivity.
  split.
  { rewrite G, get_bin_by_id_updated, Hb. cbn [option_map].
    rewrite (get_bin_by_id_id st bin_id b Hb), Z.eqb_refl. reflexivity. }
  split.
  { intros id' Hne. rewrite G, get_bin_by_id_updated.
    destruct (get_bin_by_id st id') as [b'|] eqn:E; [|reflexivity].
    cbn [option_map]. rewrite (get_bin_by_id_id st id' b' E).
    destruct (Z.eqb_spec id' bin_id); [contradiction | reflexivity]. }
  split; [exact Ec|].
  rewrite Ea, Hb. destruct (Qcleb (Qc_of_Z 80) new) eqn:E80.
  - right. eexists. split; [reflexivity | apply Qcleb_le; exact E80].
  - left. apply app_nil_r.
Qed.

(** X23.  [update_bin_sensor] does nothing for an id without a row and
    for a bin that is not active.  For an active bin it writes one sensor
    log, with a level between 0 and 100, sets the bin to the level of
    that log, leaves the other bins and the collection logs as they are,
    and adds at most one alert. *)
Theorem update_bin_sensor_effect (st : Store) (g : Rng) (bin_id : Z) :
  ((get_bin_by_id st bin_id = None
    \/ exists b, get_bin_by_id st bin_id = Some b
                 /\ row_status (bin b) <> "active"%string) ->
   update_bin_sensor st g bin_id = (st, g))
  /\ (forall b,
        get_bin_by_id st bin_id = Some b ->
        row_status (bin b) = "active"%string ->
        exists log,
          sensor_logs (fst (update_bin_sensor st g bin_id)) = sensor_logs st ++ [log]
          /\ sensor_bin_id log = bin_id
          /\ sensor_waste_level log
             = fst (generate_sensor_reading (row_waste_level (bin b)) (bin_type b) g)
          /\ 0 <= sensor_waste_level log <= Qc_of_Z 100
          /\ get_bin_by_id (fst (update_bin_sensor st g bin_id)) bin_id
             = Some (set_waste_level (sensor_waste_level log) b)
          /\ (forall id', id' <> bin_id ->
                get_bin_by_id (fst (update_bin_sensor st g bin_id)) id'
                = get_bin_by_id st id')
          /\ collection_logs (fst (update_bin_sensor st g bin_id)) = collection_logs st
          /\ (alerts (fst (update_bin_sensor st g bin_id)) = alerts st
              \/ exists alert,
                   alerts (fst (update_bin_sensor st g bin_id)) = alerts st ++ [alert]
                   /\ Qc_of_Z 80 <= sensor_waste_level log)).
Proof. apply update_bin_sensor_cases. Qed.

Lemma generated_climate_in_range_witness :
  Qc_of_Z 24 <= fst (generate_temperature Samples.steady)
  /\ fst (generate_temperature Samples.steady) <= Qc_of_Z 32.
Proof.
  exact (proj1 (generated_climate_in_range Samples.steady (Qc_of_Z 50) steady_fair)).
Defined.

Lemma generated_level_direction_witness :
  py_round (Qc_of_Z 50) 2
  <= fst (generate_sensor_reading (Qc_of_Z 50) "general" Samples.steady).
Proof.
  assert (H0 : 0 <= Qc_of_Z 50) by discriminate.
  assert (H1 : Qc_of_Z 50 <= Qc_of_Z 100) by discriminate.
  exact (generated_level_direction (Qc_of_Z 50) "general" Samples.steady
           steady_fair H0 H1).
Defined.

(** X24.  A collection does nothing for an id without a row.  For a bin
    that has a row, in service or not, and values drawn in [0, 1), it
    leaves between 2 and 8 % in the bin, logs the level before and after
    and the amount taken as that share of the capacity, and raises no
    alert and writes no sensor log. *)
Theorem simulate_collection_effect (st : Store) (g : Rng) (bin_id : Z)
    (vehicle : option Z) :
  fair g ->
  (get_bin_by_id st bin_id = None ->
   simulate_collection st g bin_id vehicle = (st, g))
  /\ (forall b,
        get_bin_by_id st bin_id = Some b ->
        exists log,
          collection_logs (fst (simulate_collection st g bin_id vehicle))
          = collection_logs st ++ [log]
          /\ collected_bin_id log = bin_id
          /\ vehicle_id log = vehicle
          /\ before_level log = row_waste_level (bin b)
          /\ (Qc_of_Z 2 <= after_level log /\ after_level log < Qc_of_Z 8)
          /\ waste_amount log
             = (before_level log - after_level log) * capacity b / Qc_of_Z 100
          /\ get_bin_by_id (fst (simulate_collection st g bin_id vehicle)) bin_id
             = Some (set_waste_level (after_level log) b)
          /\ alerts (fst (simulate_collection st g bin_id vehicle)) = alerts st
          /\ sensor_logs (fst (simulate_collection st g bin_id vehicle))
             = sensor_logs st).
Proof.
  intros Hg. split.
  { intros E. unfold simulate_collection. rewrite E. reflexivity. }
  intros b Hb. unfold simulate_collection. rewrite Hb.
  unfold uniform, random. cbn [fst snd].
  set (after := Qc_of_Z 2 + (Qc_of_Z 8 - Qc_of_Z 2) * source g (used g)).
  assert (R : Qc_of_Z 2 <= after /\ after < Qc_of_Z 8).
  { destruct (Hg (used g)) as [R0 R1]. subst after.
    revert R0 R1. generalize (source g (used g)). intros r R0 R1.
    split; qc_to_q; lra. }
  destruct (update_waste_level_tables st bin_id after) as (Eb & El & Ec & Ea).
  eexists. cbn [collection_logs]. split; [rewrite Ec; reflexivity|].
  cbn [collected_bin_id vehicle_id before_level after_level waste_amount alerts sensor_logs].
  repeat (split; [reflexivity|]).
  split; [exact R|]. split; [reflexivity|].
  split.
  { change (get_bin_by_id (update_waste_level st bin_id after) bin_id
            = Some (set_waste_level after b)).
    rewrite get_bin_by_id_updated, Hb. cbn [option_map].
    rewrite (get_bin_by_id_id st bin_id b Hb), Z.eqb_refl. reflexivity. }
  split; [|exact El].
  rewrite Ea, Hb. destruct (Qcleb (Qc_of_Z 80) after) eqn:E80; [|apply app_nil_r].
  apply Qcleb_le in E80. destruct R as [_ R]. exfalso.
  revert E80 R. generalize after. intros a E80 R. qc_to_q. lra.
Qed.

Lemma simulate_collection_effect_witness :
  simulate_collection Samples.depot Samples.steady 7 None
  = (Samples.depot, Samples.steady).
Proof.
  assert (E : get_bin_by_id Samples.depot 7 = None) by (vm_compute; reflexivity).
  exact (proj1 (simulate_collection_effect Samples.depot Samples.steady 7 None
                  steady_fair) E).
Defined.

(** One pass of [update_bin_sensor] and a bin out of service. *)
Lemma update_bin_sensor_spares (st : Store) (g : Rng) (id0 id : Z) (b : SimBin) :
  get_bin_by_id st id = Some b ->
  row_status (bin b) <> "active"%string ->
  get_bin_by_id (fst (update_bin_sensor st g id0)) id = Some b
  /\ filter (fun log => Z.eqb (sensor_bin_id log) id)
       (sensor_logs (fst (update_bin_sensor st g id0)))
     = filter (fun log => Z.eqb (sensor_bin_id log) id) (sensor_logs st)
  /\ filter (fun alert => Z.eqb (alert_bin_id alert) id)
       (alerts (fst (update_bin_sensor st g id0)))
     = filter (fun alert => Z.eqb (alert_bin_id alert) id) (alerts st).
Proof.
  intros Hb Hs.
  destruct (get_bin_by_id st id0) as [b0|] eqn:E0.
  2:{ rewrite (update_bin_sensor_idle st g id0) by (left; exact E0).
      cbn [fst]. auto. }
  destruct (String.eqb (row_status (bin b0)) "active") eqn:Es.
  2:{ rewrite (update_bin_sensor_idle st g id0).
      - cbn [fst]. auto.
      - right. exists b0. split; [exact E0|]. intros C.
        apply String.eqb_eq in C. congruence. }
  apply String.eqb_eq in Es.
  assert (Hne : id <> id0) by (intros ->; congruence).
  destruct (proj2 (update_bin_sensor_cases st g id0) b0 E0 Es)
    as (log & L1 & L2 & _ & _ & _ & L6 & _ & L8).
  split; [rewrite (L6 id Hne); exact Hb|].
  assert (Hz : Z.eqb id0 id = false) by (apply Z.eqb_neq; congruence).
  split.
  - rewrite L1, filter_app. cbn [filter]. rewrite L2, Hz. apply app_nil_r.
  - rewrite (update_bin_sensor_active st g id0 b0 E0 Es). cbv zeta. cbn [fst alerts].
    destruct (update_waste_level_tables st id0
                (fst (generate_sensor_reading (row_waste_level (bin b0)) (bin_type b0) g)))
      as (_ & _ & _ & Ea).
    rewrite Ea, E0, filter_app.
    destruct (Qcleb (Qc_of_Z 80) _); [|cbn [filter]; apply app_nil_r].
    cbn [filter alert_bin_id]. rewrite Hz. apply app_nil_r.
Qed.

(** X25.  [update_all_bins] leaves a bin that is not active as it is,
    whatever rows the list of bins holds: its row is unchanged and no
    sensor log and no alert is written for it. *)
Theorem update_all_bins_spares_inactive (all_bins : list SimBin) (st : Store) (g : Rng)
    (bin_id : Z) (b : SimBin) :
  get_bin_by_id st bin_id = Some b ->
  row_status (bin b) <> "active"%string ->
  get_bin_by_id (fst (update_all_bins all_bins st g)) bin_id = Some b
  /\ filter (fun log => Z.eqb (sensor_bin_id log) bin_id)
       (sensor_logs (fst (update_all_bins all_bins st g)))
     = filter (fun log => Z.eqb (sensor_bin_id log) bin_id) (sensor_logs st)
  /\ filter (fun alert => Z.eqb (alert_bin_id alert) bin_id)
       (alerts (fst (update_all_bins all_bins st g)))
     = filter (fun alert => Z.eqb (alert_bin_id alert) bin_id) (alerts st).
Proof.
  intros Hb Hs. revert st g Hb.
  induction all_bins as [|bin_data rest IH]; intros st g Hb; cbn [update_all_bins].
  - cbn [fst]. auto.
  - destruct (String.eqb (row_status (bin bin_data)) "active"); [|apply IH; exact Hb].
    destruct (update_bin_sensor_spares st g (row_bin_id (bin bin_data)) bin_id b Hb Hs)
      as (S1 & S2 & S3).
    destruct (update_bin_sensor st g (row_bin_id (bin bin_data))) as [st1 g1].
    cbn [fst] in S1, S2, S3.
    destruct (IH st1 g1 S1) as (I1 & I2 & I3).
    split; [exact I1|]. split; congruence.
Qed.

Lemma update_all_bins_spares_inactive_witness :
  get_bin_by_id
    (fst (update_all_bins (bins Samples.depot) Samples.depot Samples.steady)) 4
  = get_bin_by_id Samples.depot 4.
Proof.
  assert (Hs : row_status
                 (bin (nth 1 (bins Samples.depot)
                         (mkSimBin (Samples.bin_row 0 "none" "none" None None 0)
                            "none" 0)))
               <> "active"%string) by (vm_compute; discriminate).
  assert (Hb : get_bin_by_id Samples.depot 4
               = Some (nth 1 (bins Samples.depot)
                         (mkSimBin (Samples.bin_row 0 "none" "none" None None 0)
                            "none" 0)))
    by (vm_compute; reflexivity).
  rewrite Hb.
  exact (proj1 (update_all_bins_spares_inactive (bins Samples.depot) Samples.depot
                  Samples.steady 4 _ Hb Hs)).
Defined.

(** X26.  [update_all_bins] adds and removes no bin and changes no id,
    code, location, zone, status, coordinate, type or capacity: the
    table has the same rows in the same order, up to the levels (and to
    the stamp [last_updated], which the rows here do not carry); sensor
    logs are only added, and the collection logs are as they were. *)
Theorem update_all_bins_keeps_rows (all_bins : list SimBin) (st : Store) (g : Rng) :
  map (set_waste_level 0) (bins (fst (update_all_bins all_bins st g)))
  = map (set_waste_level 0) (bins st)
  /\ (exists added, sensor_logs (fst (update_all_bins all_bins st g))
                    = sensor_logs st ++ added)
  /\ collection_logs (fst (update_all_bins all_bins st g)) = collection_logs st.
Proof.
  revert st g. induction all_bins as [|bin_data rest IH]; intros st g;
    cbn [update_all_bins].
  - cbn [fst]. split; [reflexivity|]. split; [exists []; symmetry; apply app_nil_r|].
    reflexivity.
  - destruct (String.eqb (row_status (bin bin_data)) "active"); [|apply IH].
    assert (K : map (set_waste_level 0)
                  (bins (fst (update_bin_sensor st g (row_bin_id (bin bin_data)))))
                = map (set_waste_level 0) (bins st)
                /\ (exists added,
                      sensor_logs (fst (update_bin_sensor st g (row_bin_id (bin bin_data))))
                      = sensor_logs st ++ added)
                /\ collection_logs (fst (update_bin_sensor st g (row_bin_id (bin bin_data))))
                   = collection_logs st).
    { destruct (get_bin_by_id st (row_bin_id (bin bin_data))) as [b0|] eqn:E0.
      2:{ rewrite update_bin_sensor_idle by (left; exact E0). cbn [fst].
          split; [reflexivity|]. split; [exists []; symmetry; apply app_nil_r|].
          reflexivity. }
      destruct (String.eqb (row_status (bin b0)) "active") eqn:Es.
      2:{ rewrite update_bin_sensor_idle.
          - cbn [fst]. split; [reflexivity|].
            split; [exists []; symmetry; apply app_nil_r|]. reflexivity.
          - right. exists b0. split; [exact E0|]. intros C.
            apply String.eqb_eq in C. congruence. }
      apply String.eqb_eq in Es.
      rewrite (update_bin_sensor_active st g _ b0 E0 Es). cbv zeta.
      cbn [fst bins sensor_logs collection_logs].
      destruct (update_waste_level_tables st (row_bin_id (bin bin_data))
                  (fst (generate_sensor_reading (row_waste_level (bin b0)) (bin_type b0) g)))
        as (Eb & El & Ec & _).
      rewrite Eb, El, Ec, map_map. split; [|split; [eexists; reflexivity | reflexivity]].
      apply map_ext. intros x. destruct (Z.eqb _ _); reflexivity. }
    destruct K as (K1 & (a1 & K2) & K3).
    destruct (update_bin_sensor st g (row_bin_id (bin bin_data))) as [st1 g1].
    cbn [fst] in K1, K2, K3.
    destruct (IH st1 g1) as (I1 & (a2 & I2) & I3).
    split; [congruence|]. split; [|congruence].
    exists (a1 ++ a2). rewrite I2, K2. symmetry. apply app_assoc.
Qed.

End SimulatorFacts.

(** ** The guards of the views *)

Module AppFacts.
Import App.
Local Open Scope string_scope.

(** The two guards, one after the other. *)
Lemma guarded_view (roles : list string) (f : View) (session : Session) :
  login_required (role_required roles f) session
  = match user_id session with
    | None => Redirect "login"
    | Some _ =>
        match role session with
        | Some r => if existsb (String.eqb r) roles then f session
                    else Json 403 (ErrorBody "Unauthorized access")
        | None => Json 403 (ErrorBody "Unauthorized access")
        end
    end.
Proof.
  unfold login_required, role_required. destruct (user_id session); reflexivity.
Qed.

Lemma existsb_two (r a b : string) :
  existsb (String.eqb r) [a; b] = true <-> r = a \/ r = b.
Proof.
  cbn [existsb]. rewrite orb_false_r, orb_true_iff, !String.eqb_eq. reflexivity.
Qed.

(** X27.  The two AI endpoints are closed to everyone but a logged-in
    admin or staff member.  A session that is not logged in is sent to
    the login page by both, whatever its role says and whatever the
    request holds; one that is logged in with another role, or none, is
    answered 403 by both; so an answer 200 is only ever given to a
    logged-in admin or staff member.  For such a session a request
    without a JSON object is answered 500 and an object without the key
    [bin_ids] gives the empty route. *)
Theorem ai_endpoints_guarded (calculate_distance : Qc -> Qc -> Qc -> Qc -> Qc)
    (db : Database) (bins_db : option Database) (request_json : RequestJson)
    (session : Session) :
  (user_id session = None ->
   api_optimize_route calculate_distance db request_json session = Redirect "login"
   /\ api_predict_collection bins_db session = Redirect "login")
  /\ (user_id session <> None -> ~ admitted session ->
      api_optimize_route calculate_distance db request_json session
      = Json 403 (ErrorBody "Unauthorized access")
      /\ api_predict_collection bins_db session
         = Json 403 (ErrorBody "Unauthorized access"))
  /\ (forall body,
        api_optimize_route calculate_distance db request_json session = Json 200 body
        \/ api_predict_collection bins_db session = Json 200 body ->
        admitted session)
  /\ (admitted session ->
      api_optimize_route calculate_distance db NoJson session
      = Json 500 (ErrorBody "Route optimization unavailable")
      /\ api_optimize_route calculate_distance db NotAnObject session
         = Json 500 (ErrorBody "Route optimization unavailable")
      /\ api_optimize_route calculate_distance db (JsonObject None) session
         = Json 200 (RouteBody RouteOptimizer.empty_route)
      /\ api_predict_collection None session
         = Json 500 (ErrorBody "AI prediction unavailable")).
Proof.
  unfold admitted, api_optimize_route, api_predict_collection. rewrite !guarded_view.
  destruct (user_id session) as [u|].
  2:{ split; [split; reflexivity|]. split; [intros H; contradiction|].
      split; [intros body [H|H]; discriminate | intros [H _]; contradiction]. }
  split; [discriminate|].
  destruct (role session) as [r|].
  2:{ split; [intros _ _; split; reflexivity|].
      split; [intros body [H|H]; discriminate | intros [_ [H|H]]; discriminate]. }
  destruct (existsb (String.eqb r) ["admin"; "staff"]) eqn:E.
  - apply existsb_two in E.
    assert (R : Some r = Some "admin" \/ Some r = Some "staff")
      by (destruct E as [->| ->]; auto).
    split; [intros _ N; contradiction N; split; [discriminate | exact R]|].
    split; [intros _ _; split; [discriminate | exact R]|].
    intros _. repeat split.
  - assert (N : ~ (Some r = Some "admin" \/ Some r = Some "staff")).
    { intros [H|H]; injection H as ->; cbn in E; discriminate. }
    split; [intros _ _; split; reflexivity|].
    split; [intros body [H|H]; discriminate | intros [_ H]; contradiction].
Qed.

(** X28.  Where [index] redirects a session, the session is let in: the
    view of the endpoint it names renders its page for this session
    instead of answering 403 or sending it to the login page. *)
Theorem index_redirect_is_admitted (session : Session) (endpoint : string) :
  index session = Redirect endpoint ->
  exists view template,
    view_of endpoint = Some view /\ view session = Render template.
Proof.
  unfold index. destruct (user_id session) as [u|] eqn:U; [|discriminate].
  destruct (role session) as [r|] eqn:R; [|discriminate].
  destruct (String.eqb r "admin") eqn:A.
  { apply String.eqb_eq in A. subst r. intros H. injection H as <-.
    exists admin_dashboard, "admin/dashboard.html". split; [reflexivity|].
    unfold admin_dashboard. rewrite guarded_view, U, R. reflexivity. }
  destruct (String.eqb r "staff") eqn:S.
  { apply String.eqb_eq in S. subst r. intros H. injection H as <-.
    exists staff_dashboard, "staff/dashboard.html". split; [reflexivity|].
    unfold staff_dashboard. rewrite guarded_view, U, R. reflexivity. }
  destruct (String.eqb r "citizen") eqn:C; [|discriminate].
  apply String.eqb_eq in C. subst r. intros H. injection H as <-.
  exists citizen_dashboard, "citizen/dashboard.html". split; [reflexivity|].
  unfold citizen_dashboard. rewrite guarded_view, U, R. reflexivity.
Qed.

Lemma index_redirect_is_admitted_witness :
  exists view template,
    view_of "staff_dashboard" = Some view
    /\ view {| user_id := Some 7%Z; role := Some "staff" |} = Render template.
Proof.
  assert (H : index {| user_id := Some 7%Z; role := Some "staff" |}
              = Redirect "staff_dashboard") by reflexivity.
  exact (index_redirect_is_admitted _ _ H).
Defined.

End AppFacts.

(** ** The route on floats *)

Module RouteFacts64.
Import Binary64 RouteOptimizer64.

Lemma is_or_equals_refl (x : BinObject) : is_or_equals x x = true.
Proof. unfold is_or_equals. rewrite Nat.eqb_refl. reflexivity. Qed.

Section ListRemoveFirst.
Context {A : Type} (eqb : A -> A -> bool).

Lemma list_remove_shorter (x : A) (l : list A) :
  eqb x x = true -> In x l -> S (length (list_remove eqb x l)) = length l.
Proof.
  intros Hx. induction l as [|y l IH]; intros H; [destruct H|].
  cbn [list_remove]. destruct (eqb y x) eqn:E; [reflexivity|].
  destruct H as [->|H]; [congruence|].
  cbn [length]. rewrite (IH H). reflexivity.
Qed.

Lemma list_remove_incl (x : A) (l : list A) : incl (list_remove eqb x l) l.
Proof.
  induction l as [|y l IH]; cbn [list_remove]; [apply incl_refl|].
  destruct (eqb y x).
  - apply incl_tl, incl_refl.
  - intros z [<-|Hz]; [left; reflexivity | right; apply IH; exact Hz].
Qed.
End ListRemoveFirst.

(** *** Objects and their places *)

Lemma same_place_same_object (l : list BinObject) (y x : BinObject) :
  NoDup (map fst l) -> In y l -> In x l -> fst y = fst x -> y = x.
Proof.
  induction l as [|z l IH]; intros Hnd Hy Hx E; [destruct Hy|].
  cbn [map] in Hnd. apply NoDup_cons_iff in Hnd. destruct Hnd as [Hz Hnd].
  destruct Hy as [<-|Hy], Hx as [<-|Hx].
  - reflexivity.
  - contradiction Hz. rewrite E. apply in_map. exact Hx.
  - contradiction Hz. rewrite <- E. apply in_map. exact Hy.
  - apply IH; assumption.
Qed.

Lemma RouteBin_eqb_bin_id (a b : RouteBin) :
  RouteBin_eqb a b = true -> bin_id a = bin_id b.
Proof.
  unfold RouteBin_eqb. rewrite !andb_true_iff. intros [[[[[[H _] _] _] _] _] _].
  apply Z.eqb_eq. exact H.
Qed.

(** The item that [list.remove] takes has the id of the bin looked for. *)
Lemma is_or_equals_bin_id (l : list BinObject) (y x : BinObject) :
  NoDup (map fst l) -> In y l -> In x l ->
  is_or_equals y x = true -> bin_id (snd y) = bin_id (snd x).
Proof.
  intros Hnd Hy Hx H. unfold is_or_equals in H. apply orb_true_iff in H.
  destruct H as [H|H].
  - apply Nat.eqb_eq in H. rewrite (same_place_same_object l y x Hnd Hy Hx H). reflexivity.
  - apply RouteBin_eqb_bin_id. exact H.
Qed.

Lemma list_remove_bin_ids (x : BinObject) (l : list BinObject) :
  NoDup (map fst l) -> In x l ->
  Permutation (map (fun o => bin_id (snd o)) l)
    (bin_id (snd x) :: map (fun o => bin_id (snd o)) (list_remove is_or_equals x l)).
Proof.
  induction l as [|y l IH]; intros Hnd Hx; [destruct Hx|].
  cbn [list_remove]. destruct (is_or_equals y x) eqn:E.
  - cbn [map]. rewrite (is_or_equals_bin_id (y :: l) y x Hnd (or_introl eq_refl) Hx E).
    reflexivity.
  - destruct Hx as [->|Hx]; [rewrite is_or_equals_refl in E; discriminate|].
    cbn [map] in Hnd |- *. apply NoDup_cons_iff in Hnd.
    rewrite perm_swap. apply perm_skip. apply IH; [apply Hnd | exact Hx].
Qed.

Lemma list_remove_places (x : BinObject) (l : list BinObject) :
  NoDup (map fst l) -> NoDup (map fst (list_remove is_or_equals x l)).
Proof.
  induction l as [|y l IH]; intros Hnd; [exact Hnd|].
  cbn [list_remove map] in *. apply NoDup_cons_iff in Hnd. destruct Hnd as [Hy Hnd].
  destruct (is_or_equals y x); [exact Hnd|].
  cbn [map]. apply NoDup_cons; [|apply IH; exact Hnd].
  intros H. apply Hy. apply in_map_iff in H. destruct H as (z & Ez & Hz).
  apply in_map_iff. exists z. split; [exact Ez|].
  exact (list_remove_incl is_or_equals x l z Hz).
Qed.

Lemma objects_bins (l : list RouteBin) : map snd (objects l) = l.
Proof.
  unfold objects. generalize 0%nat. induction l as [|b l IH]; intros k; [reflexivity|].
  cbn [length seq combine map snd]. rewrite IH. reflexivity.
Qed.

Lemma objects_places (l : list RouteBin) : NoDup (map fst (objects l)).
Proof.
  assert (E : map fst (objects l) = seq 0 (length l)).
  { unfold objects. generalize 0%nat. induction l as [|b l IH]; intros k; [reflexivity|].
    cbn [length seq combine map fst]. rewrite IH. reflexivity. }
  rewrite E. apply seq_NoDup.
Qed.

Lemma objects_bin_ids (l : list RouteBin) :
  map (fun o : BinObject => bin_id (snd o)) (objects l) = map bin_id l.
Proof.
  transitivity (map bin_id (map snd (objects l))).
  - symmetry. apply map_map.
  - rewrite objects_bins. reflexivity.
Qed.

Lemma objects_length (l : list RouteBin) : length (objects l) = length l.
Proof. rewrite <- (objects_bins l) at 2. symmetry. apply length_map. Qed.

Section RouteLoop.
Variable calculate_distance : float -> float -> float -> float -> float.
Variable py_sum : list float -> float.

Local Abbreviation distance_to := (fun (lat lon : float) (b : BinObject) =>
  calculate_distance lat lon (latitude (snd b)) (longitude (snd b))).
Local Abbreviation score := (fun (lat lon : float) (b : BinObject) =>
  weighted_score (priority_score (snd b))
    (calculate_distance lat lon (latitude (snd b)) (longitude (snd b)))).

(** *** The pass that selects the next stop *)

Lemma float_fold_consider_sound (lat lon : float) (l : list BinObject)
    (acc : option (BinObject * float * float)) (b : BinObject) (s d : float) :
  fold_left (consider calculate_distance lat lon) l acc = Some (b, s, d) ->
  acc = Some (b, s, d) \/ (In b l /\ d = distance_to lat lon b).
Proof.
  revert acc. induction l as [|x l IH]; intros acc H; cbn [fold_left] in H.
  - left. exact H.
  - destruct (IH _ H) as [E|(Hin & Hd)].
    + unfold consider in E.
      destruct (PrimFloat.ltb _ _).
      * injection E as <- <- <-. right. cbn [In]. auto.
      * left. exact E.
    + right. cbn [In]. auto.
Qed.

Lemma float_fold_consider_some (lat lon : float) (l : list BinObject)
    (r : BinObject * float * float) :
  exists r', fold_left (consider calculate_distance lat lon) l (Some r) = Some r'.
Proof.
  revert r. induction l as [|x l IH]; intros r; cbn [fold_left]; [eauto|].
  unfold consider at 2. destruct (PrimFloat.ltb _ _); apply IH.
Qed.

(** The bin selected is in the pool, and the distance kept with it is
    the distance to it. *)
Lemma float_select_best_sound (lat lon : float) (l : list BinObject)
    (b : BinObject) (s d : float) :
  select_best calculate_distance lat lon l = Some (b, s, d) ->
  In b l /\ d = distance_to lat lon b.
Proof.
  intros H. apply float_fold_consider_sound in H. destruct H as [H|H]; [discriminate | exact H].
Qed.

(** A pool whose first bin scores above minus infinity yields a bin. *)
Lemma float_select_best_scored (lat lon : float) (x : BinObject) (rest : list BinObject) :
  PrimFloat.ltb PrimFloat.neg_infinity (score lat lon x) = true ->
  exists r, select_best calculate_distance lat lon (x :: rest) = Some r.
Proof.
  intros H. unfold select_best. cbn [fold_left]. unfold consider at 2.
  rewrite H. apply float_fold_consider_some.
Qed.

(** *** The loop *)

Lemma float_last_position_snoc (lat lon : float) (route : list RouteStop) (stop : RouteStop) :
  last_position lat lon (route ++ [stop]) = (stop_latitude stop, stop_longitude stop).
Proof. unfold last_position. rewrite fold_left_app. reflexivity. Qed.

Lemma float_hop_distances_snoc (lat lon : float) (route : list RouteStop) (stop : RouteStop) :
  hop_distances calculate_distance lat lon (route ++ [stop])
  = hop_distances calculate_distance lat lon route
    ++ [calculate_distance (fst (last_position lat lon route))
          (snd (last_position lat lon route))
          (stop_latitude stop) (stop_longitude stop)].
Proof.
  revert lat lon. induction route as [|s route IH]; intros lat lon.
  - reflexivity.
  - cbn [app hop_distances]. rewrite IH. reflexivity.
Qed.

(** What the loop keeps true of the route that starts at [(lat0, lon0)]
    with the bins of ids [ids]: the running total is the legs accumulated
    in order, each stop reports its leg rounded to two digits, the
    current position is the last stop, and stops and pool together hold
    the ids, the objects of the pool being distinct. *)
Local Abbreviation legs_kept :=
  (fun (lat0 lon0 : float) (ids : list Z) (st : LoopState) =>
  total_distance_acc st
  = accumulate (hop_distances calculate_distance lat0 lon0 (optimized_route st))
  /\ map distance_from_previous (optimized_route st)
     = map (fun d => py_round d 2)
         (hop_distances calculate_distance lat0 lon0 (optimized_route st))
  /\ last_position lat0 lon0 (optimized_route st) = (current_lat st, current_lon st)
  /\ Permutation ids
       (map stop_bin_id (optimized_route st)
        ++ map (fun o => bin_id (snd o)) (remaining_bins st))
  /\ NoDup (map fst (remaining_bins st))).

Lemma float_visit_legs (lat0 lon0 : float) (ids : list Z) (st : LoopState)
    (best : BinObject) (s d : float) :
  select_best calculate_distance (current_lat st) (current_lon st) (remaining_bins st)
  = Some (best, s, d) ->
  legs_kept lat0 lon0 ids st ->
  legs_kept lat0 lon0 ids (visit st best d).
Proof.
  intros Hsel (Ht & Hd & Hp & Hi & Hnd).
  apply float_select_best_sound in Hsel. destruct Hsel as [Hin ->].
  unfold visit. cbn [optimized_route total_distance_acc current_lat current_lon
                     remaining_bins].
  rewrite float_hop_distances_snoc, Hp. cbn [fst snd route_stop stop_latitude stop_longitude].
  repeat split.
  - rewrite Ht. unfold accumulate. rewrite fold_left_app. reflexivity.
  - rewrite !map_app, Hd. reflexivity.
  - apply float_last_position_snoc.
  - rewrite Hi, map_app, <- app_assoc. apply Permutation_app_head.
    cbn [map app stop_bin_id]. apply list_remove_bin_ids; assumption.
  - apply list_remove_places. exact Hnd.
Qed.

(** When the loop returns, the pool is empty and what it kept holds. *)
Lemma float_while_remaining_legs (lat0 lon0 : float) (ids : list Z) (fuel : nat)
    (st final : LoopState) :
  while_remaining calculate_distance fuel st = Some final ->
  legs_kept lat0 lon0 ids st ->
  legs_kept lat0 lon0 ids final /\ remaining_bins final = [].
Proof.
  revert st. induction fuel as [|fuel IH]; intros st Hrun H; cbn [while_remaining] in Hrun;
    destruct (remaining_bins st) as [|x rest] eqn:E.
  - injection Hrun as <-. split; [rewrite E; exact H | exact E].
  - destruct (select_best _ _ _ _) as [[[b s] d]|]; discriminate.
  - injection Hrun as <-. split; [rewrite E; exact H | exact E].
  - destruct (select_best calculate_distance (current_lat st) (current_lon st) (x :: rest))
      as [[[b s] d]|] eqn:Hsel; [|discriminate].
    apply (IH _ Hrun). rewrite <- E in Hsel, H.
    exact (float_visit_legs lat0 lon0 ids st b s d Hsel H).
Qed.

(** The loop returns when every bin of the pool scores above minus
    infinity from every place the vehicle can stand at. *)
Lemma float_while_remaining_returns (pool : list BinObject) (places : list (float * float))
    (fuel : nat) (st : LoopState) :
  (forall p b, In p places -> In b pool ->
     PrimFloat.ltb PrimFloat.neg_infinity (score (fst p) (snd p) b) = true) ->
  (forall b, In b pool -> In (latitude (snd b), longitude (snd b)) places) ->
  incl (remaining_bins st) pool ->
  In (current_lat st, current_lon st) places ->
  (length (remaining_bins st) <= fuel)%nat ->
  exists final, while_remaining calculate_distance fuel st = Some final.
Proof.
  intros Hscore Hplaces. revert st.
  induction fuel as [|fuel IH]; intros st Hincl Hpos Hfuel; cbn [while_remaining];
    destruct (remaining_bins st) as [|x rest] eqn:E; eauto.
  - cbn [length] in Hfuel. lia.
  - assert (Hx : In x pool) by (apply Hincl; left; reflexivity).
    destruct (float_select_best_scored (current_lat st) (current_lon st) x rest
                (Hscore _ _ Hpos Hx)) as [[[b s] d] Hsel].
    rewrite Hsel. rewrite <- E in Hsel.
    destruct (float_select_best_sound _ _ _ _ _ _ Hsel) as [Hin _].
    apply IH; unfold visit; cbn [remaining_bins current_lat current_lon].
    + intros z Hz. apply Hincl. rewrite <- E.
      exact (list_remove_incl is_or_equals b _ z Hz).
    + apply Hplaces. apply Hincl. rewrite <- E. exact Hin.
    + assert (L := list_remove_shorter is_or_equals b (remaining_bins st)
                     (is_or_equals_refl b) Hin).
      rewrite E in L. cbn [length] in L, Hfuel. rewrite E. lia.
Qed.

(** One unit of fuel for each bin of the pool is all the loop can use:
    more fuel gives the same result, so that [None] stands for a loop
    that never ends and for nothing else. *)
Lemma float_while_remaining_fuel (fuel more : nat) (st : LoopState) :
  (length (remaining_bins st) <= fuel)%nat ->
  while_remaining calculate_distance (fuel + more) st
  = while_remaining calculate_distance fuel st.
Proof.
  revert st. induction fuel as [|fuel IH]; intros st Hfuel.
  - destruct (remaining_bins st) as [|x rest] eqn:E; [|cbn [length] in Hfuel; lia].
    destruct more; cbn [Nat.add while_remaining]; rewrite E; reflexivity.
  - cbn [Nat.add while_remaining].
    destruct (remaining_bins st) as [|x rest] eqn:E; [reflexivity|].
    destruct (select_best calculate_distance (current_lat st) (current_lon st) (x :: rest))
      as [[[b s] d]|] eqn:Hsel; [|reflexivity].
    apply IH. rewrite <- E in Hsel.
    destruct (float_select_best_sound _ _ _ _ _ _ Hsel) as [Hin _].
    unfold visit. cbn [remaining_bins].
    assert (L := list_remove_shorter is_or_equals b (remaining_bins st)
                   (is_or_equals_refl b) Hin).
    rewrite E in L. cbn [length] in L, Hfuel. rewrite E. lia.
Qed.

(** *** The route returned *)

Lemma float_loop_entry_pool (l : list RouteBin) (start_location : option (float * float)) :
  Permutation (objects l) (remaining_bins (loop_entry l start_location))
  /\ optimized_route (loop_entry l start_location) = []
  /\ total_distance_acc (loop_entry l start_location) = float_of_Z 0.
Proof.
  destruct start_location as [[lat lon]|]; cbn [loop_entry remaining_bins optimized_route
                                                total_distance_acc].
  - repeat split. reflexivity.
  - repeat split.
    apply (list_sort_perm (fun o : BinObject => priority_score (snd o))
             (fun j k => Z.ltb k j)).
Qed.

Lemma float_optimize_route_nothing_loaded (db : Database) (bin_ids : list Z)
    (start_location : option (float * float)) :
  load_bins db bin_ids = [] ->
  optimize_route calculate_distance py_sum db bin_ids start_location = Some empty_route.
Proof.
  intros H. unfold optimize_route. destruct bin_ids; [reflexivity|].
  rewrite H. reflexivity.
Qed.

(** The route of a call that loaded at least one bin and returns. *)
Lemma float_optimize_route_loaded (db : Database) (bin_ids : list Z)
    (start_location : option (float * float)) (r : Route) :
  load_bins db bin_ids <> [] ->
  optimize_route calculate_distance py_sum db bin_ids start_location = Some r ->
  let entry := loop_entry (load_bins db bin_ids) start_location in
  let hops :=
    hop_distances calculate_distance (current_lat entry) (current_lon entry) (bins r) in
  Permutation (map bin_id (load_bins db bin_ids)) (map stop_bin_id (bins r))
  /\ total_distance r = py_round (accumulate hops) 2
  /\ map distance_from_previous (bins r) = map (fun d => py_round d 2) hops
  /\ total_bins r = Some (length (bins r))
  /\ average_waste_level r
     = Some (py_round
               (PrimFloat.div (py_sum (map stop_waste_level (bins r)))
                  (float_of_Z (Z.of_nat (length (bins r))))) 2).
Proof.
  intros Hne Hr entry hops.
  unfold optimize_route in Hr.
  destruct bin_ids as [|id ids]; [contradiction Hne; reflexivity|].
  destruct (load_bins db (id :: ids)) as [|b0 bs] eqn:El; [contradiction Hne; reflexivity|].
  fold entry in Hr.
  destruct (while_remaining calculate_distance (length (remaining_bins entry)) entry)
    as [final|] eqn:Hrun; [|discriminate].
  injection Hr as <-. subst hops. cbn [bins total_bins total_distance average_waste_level].
  destruct (float_loop_entry_pool (b0 :: bs) start_location) as (Hpool & Hroute & Htotal).
  fold entry in Hpool, Hroute, Htotal.
  destruct (float_while_remaining_legs (current_lat entry) (current_lon entry)
              (map bin_id (b0 :: bs)) _ _ _ Hrun) as ((Ht & Hd & _ & Hi & _) & Hex).
  { rewrite Hroute, Htotal. repeat split.
    - change (Permutation (map bin_id (b0 :: bs))
                (map (fun o : BinObject => bin_id (snd o)) (remaining_bins entry))).
      rewrite <- (objects_bin_ids (b0 :: bs)). apply Permutation_map. exact Hpool.
    - apply (Permutation_NoDup (Permutation_map fst Hpool)). apply objects_places. }
  rewrite Hex in Hi. cbn [map] in Hi. rewrite app_nil_r in Hi.
  repeat split; try assumption.
  - rewrite Ht. reflexivity.
  - destruct (optimized_route final); [|reflexivity].
    apply Permutation_sym, Permutation_nil in Hi. discriminate Hi.
Qed.

End RouteLoop.

(** C9, as the code has it, on floats.  Provided every loaded bin scores
    above minus infinity from every place the vehicle can stand at (as
    with a distance that is a finite number of kilometres), the call
    returns, with one stop for each loaded bin.  An empty route has
    total distance 0.  On a route with stops the total distance is the
    legs added up in order and then rounded to two digits, where each
    stop reports its own leg rounded to two digits, and the average
    waste level is [sum] of the levels of the stops divided by their
    number, rounded to two digits. *)
Theorem route_aggregates_on_floats
    (calculate_distance : float -> float -> float -> float -> float)
    (py_sum : list float -> float)
    (db : Database) (bin_ids : list Z) (start_location : option (float * float)) :
  (forall position b,
     In position (positions (load_bins db bin_ids) start_location) ->
     In b (load_bins db bin_ids) ->
     PrimFloat.ltb PrimFloat.neg_infinity
       (weighted_score (priority_score b)
          (calculate_distance (fst position) (snd position) (latitude b) (longitude b)))
     = true) ->
  exists r,
    optimize_route calculate_distance py_sum db bin_ids start_location = Some r
    /\ let entry := loop_entry (load_bins db bin_ids) start_location in
       let hops :=
         hop_distances calculate_distance (current_lat entry) (current_lon entry)
           (bins r) in
       Permutation (map bin_id (load_bins db bin_ids)) (map stop_bin_id (bins r))
       /\ (bins r = [] -> total_distance r = float_of_Z 0)
       /\ (bins r <> [] ->
           total_distance r = py_round (accumulate hops) 2
           /\ map distance_from_previous (bins r) = map (fun d => py_round d 2) hops
           /\ average_waste_level r
              = Some (py_round
                        (PrimFloat.div (py_sum (map stop_waste_level (bins r)))
                           (float_of_Z (Z.of_nat (length (bins r))))) 2)).
Proof.
  intros Hscore.
  destruct (load_bins db bin_ids) as [|b0 bs] eqn:El.
  - exists empty_route. split.
    + apply float_optimize_route_nothing_loaded. exact El.
    + cbn. split; [reflexivity|]. split; [auto | intros H; contradiction H; reflexivity].
  - assert (Hne : load_bins db bin_ids <> []) by (rewrite El; discriminate).
    assert (Hret : exists r,
               optimize_route calculate_distance py_sum db bin_ids start_location = Some r).
    { unfold optimize_route. destruct bin_ids as [|id ids]; [discriminate El|].
      rewrite El.
      set (entry := loop_entry (b0 :: bs) start_location).
      destruct (float_loop_entry_pool (b0 :: bs) start_location) as (Hpool & _ & _).
      fold entry in Hpool.
      destruct (float_while_remaining_returns calculate_distance (objects (b0 :: bs))
                  (positions (b0 :: bs) start_location)
                  (length (remaining_bins entry)) entry) as [final Hrun].
      - intros p o Hp Ho. apply Hscore; [exact Hp|].
        rewrite <- (objects_bins (b0 :: bs)). apply in_map. exact Ho.
      - intros o Ho. right.
        apply (in_map (fun b => (latitude b, longitude b))).
        rewrite <- (objects_bins (b0 :: bs)). apply in_map. exact Ho.
      - intros z Hz. apply (Permutation_in z (Permutation_sym Hpool)). exact Hz.
      - left. reflexivity.
      - apply le_n.
      - rewrite Hrun. eauto. }
    destruct Hret as [r Hr]. exists r. split; [exact Hr|].
    destruct (float_optimize_route_loaded calculate_distance py_sum db bin_ids start_location r
                Hne Hr) as (Hperm & Ht & Hd & _ & Ha).
    rewrite El in Hperm, Ht, Hd. cbv zeta.
    split; [exact Hperm|]. split.
    + intros H. rewrite H in Hperm. apply Permutation_sym, Permutation_nil in Hperm.
      discriminate Hperm.
    + intros _. repeat split; assumption.
Qed.

Lemma route_aggregates_on_floats_witness :
  exists r,
    optimize_route Samples64.grid_distance Samples64.plain_sum Samples.town
      [3; 2; 1]%Z None = Some r
    /\ Permutation [3; 2; 1]%Z (map stop_bin_id (bins r))
    /\ total_distance r
       = py_round
           (accumulate
              (hop_distances Samples64.grid_distance
                 (float_of_Q (286139 # 10000)) (float_of_Q (772090 # 10000)) (bins r))) 2.
Proof.
  assert (H : forall position b,
             In position (positions (load_bins Samples.town [3; 2; 1]%Z) None) ->
             In b (load_bins Samples.town [3; 2; 1]%Z) ->
             PrimFloat.ltb PrimFloat.neg_infinity
               (weighted_score (priority_score b)
                  (Samples64.grid_distance (fst position) (snd position)
                     (latitude b) (longitude b))) = true).
  { intros position b Hp Hb. vm_compute in Hp, Hb.
    repeat (destruct Hp as [<-|Hp]; [repeat (destruct Hb as [<-|Hb];
                                              [vm_compute; reflexivity|]);
                                     destruct Hb|]).
    destruct Hp. }
  destruct (route_aggregates_on_floats Samples64.grid_distance Samples64.plain_sum
              Samples.town [3; 2; 1]%Z None H) as (r & Hr & Hperm & _ & Hstops).
  exists r. split; [exact Hr|]. split; [exact Hperm|].
  destruct Hstops as (Ht & _).
  - intros E. rewrite E in Hperm. apply Permutation_sym, Permutation_nil in Hperm.
    discriminate Hperm.
  - exact Ht.
Defined.

(** C9 as stated fails where the mean has more than two digits.  Three
    bins at one collection point with levels 10, 10 and 11: every leg is
    0 (from a point to itself, under the haversine formula as well) and
    the route reports the average 10.33, which is neither the float
    31.0 / 3 nor the mean 31/3 of the levels. *)
Lemma average_is_the_rounded_float_mean :
  exists r,
    optimize_route Samples64.grid_distance Samples64.plain_sum Samples.one_site
      [1; 2; 3]%Z None = Some r
    /\ map stop_waste_level (bins r) = [float_of_Z 10; float_of_Z 10; float_of_Z 11]
    /\ average_waste_level r = Some (float_of_Q (1033 # 100))
    /\ PrimFloat.eqb (float_of_Q (1033 # 100))
         (PrimFloat.div (float_of_Z 31) (float_of_Z 3)) = false
    /\ option_map (fun q => Qeq_bool q (31 # 3)) (value (float_of_Q (1033 # 100)))
       = Some false.
Proof.
  eexists. split; [vm_compute; reflexivity|].
  repeat split; vm_compute; reflexivity.
Qed.

(** Under the planar stand-in for the distance, three bins 4 m apart: the
    legs are 0, 0.004 and 0.004 km, each stop reports 0.0, and the total
    reported is 0.01, the rounded sum of the legs. *)
Example float_legs_round_one_by_one :
  exists r,
    optimize_route Samples64.grid_distance Samples64.plain_sum Samples.in_a_row
      [1; 2; 3]%Z None = Some r
    /\ map distance_from_previous (bins r)
       = [float_of_Z 0; float_of_Z 0; float_of_Z 0]
    /\ total_distance r = float_of_Q (1 # 100).
Proof.
  eexists. split; [vm_compute; reflexivity|].
  split; vm_compute; reflexivity.
Qed.

(** A distance that is not a number stops the loop from ending: no bin
    scores above minus infinity and the pool never shrinks. *)
Example no_return_without_distances :
  optimize_route (fun _ _ _ _ => PrimFloat.nan) Samples64.plain_sum Samples.town
    [3; 2; 1]%Z None = None.
Proof. vm_compute. reflexivity. Qed.

End RouteFacts64.
